(** * Elicia AI: calculator tools, tool dispatcher and chat orchestration

    A shallow embedding of the Python sources

    - [tools/fitness_calc.py], [tools/nutrition_tools.py],
      [tools/workout_tools.py]: the calculator and lookup tools,
    - [tools/tool_registry.py]: the tool catalog and [execute_function],
    - [chainlit_app.py]: the session handlers [start] and [main],

    followed by the properties of the specification, stated on that
    embedding.

    Python values decoded from JSON are modelled by the type [value];
    Python's [float] is IEEE binary64 and is modelled by Rocq's primitive
    floats, its [int] by [Z].  Calls that may raise return an [outcome].
    The methods of [str] that follow the Unicode character database
    ([lower], [strip], [title]) are a parameter of the tools that look a
    name up, [str_methods]; on ASCII strings they are written out. *)

From Stdlib Require Import ZArith Ascii String Floats.
From stdpp Require Import base option list strings pretty gmap.

Set Warnings "-inexact-float,-register-all".
Local Open Scope string_scope.
Local Open Scope Z_scope.

(** ** Exceptions and outcomes *)

Module Py.

(** The exception classes the modelled code can meet.  All of them derive
    from [Exception], so [except Exception] catches every one. *)
Inductive exn_class :=
| TypeError | AttributeError | KeyError | ZeroDivisionError | OverflowError
| JSONDecodeError | APIError | ValueError.

(** An exception: its class and [str(e)]. *)
Record exn := Exn { exn_cls : exn_class; exn_str : string }.

Inductive outcome (A : Type) :=
| Ok (a : A)
| Raise (e : exn).
Arguments Ok {A} a.
Arguments Raise {A} e.

#[export] Instance outcome_ret : MRet outcome := @Ok.
#[export] Instance outcome_bind : MBind outcome := fun A B f m =>
  match m with
  | Ok a => f a
  | Raise e => Raise e
  end.

(** [try: m except Exception as e: h e] *)
Definition try_except {A} (m : outcome A) (h : exn -> outcome A) : outcome A :=
  match m with
  | Ok a => Ok a
  | Raise e => h e
  end.

(** ** Values *)

(** JSON-compatible Python values.  A [dict] keeps its insertion order and
    has string keys (the only keys JSON produces). *)
Inductive value :=
| VNone
| VBool (b : bool)
| VInt (z : Z)
| VFloat (f : float)
| VStr (s : string)
| VList (l : list value)
| VDict (d : list (string * value)).

(** The double-quote character, as a string. *)
Definition dquote : string := String (Ascii.ascii_of_nat 34) EmptyString.

(** [type(v).__name__] *)
Definition type_name (v : value) : string :=
  match v with
  | VNone => "NoneType"
  | VBool _ => "bool"
  | VInt _ => "int"
  | VFloat _ => "float"
  | VStr _ => "str"
  | VList _ => "list"
  | VDict _ => "dict"
  end.

(** [d.get(k)] on an insertion-ordered dict with distinct keys. *)
Fixpoint dict_get {A} (d : list (string * A)) (k : string) : option A :=
  match d with
  | [] => None
  | (k', v) :: d' => if String.eqb k' k then Some v else dict_get d' k
  end.

(** [bool(v)] *)
Definition truthy (v : value) : bool :=
  match v with
  | VNone => false
  | VBool b => b
  | VInt z => negb (z =? 0)
  | VFloat f => negb (PrimFloat.eqb f 0)
  | VStr s => negb (String.eqb s "")
  | VList l => match l with [] => false | _ => true end
  | VDict d => match d with [] => false | _ => true end
  end.

(** ** Numbers *)

(** The two numeric kinds; [bool] is a subclass of [int]. *)
Inductive num :=
| NInt (z : Z)
| NFloat (f : float).

Definition as_num (v : value) : option num :=
  match v with
  | VBool b => Some (NInt (if b then 1 else 0))
  | VInt z => Some (NInt z)
  | VFloat f => Some (NFloat f)
  | _ => None
  end.

(** [float(z)] for an [int]: correctly rounded, [OverflowError] beyond the
    binary64 range. *)
Definition int_to_float (z : Z) : outcome float :=
  let f := SF2Prim (binary_normalize prec emax z 0 false) in
  if is_infinity f
  then Raise (Exn OverflowError "int too large to convert to float")
  else Ok f.

Definition to_float (n : num) : outcome float :=
  match n with
  | NInt z => int_to_float z
  | NFloat f => Ok f
  end.

Definition unsupported (op : string) (a b : value) : exn :=
  Exn TypeError ("unsupported operand type(s) for " +:+ op +:+ ": '"
                 +:+ type_name a +:+ "' and '" +:+ type_name b +:+ "'").

(** A binary arithmetic operator on two numbers: exact on two ints, in
    binary64 as soon as one operand is a float. *)
Definition arith (op : string)
    (on_int : Z -> Z -> outcome value) (on_float : float -> float -> outcome value)
    (a b : value) : outcome value :=
  match as_num a, as_num b with
  | Some (NInt x), Some (NInt y) => on_int x y
  | Some x, Some y =>
      fx ← to_float x; fy ← to_float y; on_float fx fy
  | _, _ => Raise (unsupported op a b)
  end.

Definition is_seq (v : value) : bool :=
  match v with VStr _ | VList _ => true | _ => false end.

(** [a + b] *)
Definition add (a b : value) : outcome value :=
  match a, b with
  | VStr s, VStr t => Ok (VStr (s +:+ t))
  | VList l, VList m => Ok (VList (l ++ m))
  | VStr _, _ | VList _, _ =>
      Raise (Exn TypeError ("can only concatenate " +:+ type_name a +:+ " (not " +:+ dquote
                            +:+ type_name b +:+ dquote +:+ ") to " +:+ type_name a))
  | _, _ =>
      arith "+" (fun x y => Ok (VInt (x + y)))
                (fun x y => Ok (VFloat (x + y)%float)) a b
  end.

(** [a - b] *)
Definition sub (a b : value) : outcome value :=
  arith "-" (fun x y => Ok (VInt (x - y)))
            (fun x y => Ok (VFloat (x - y)%float)) a b.

Fixpoint str_repeat (s : string) (n : nat) : string :=
  match n with
  | O => ""
  | S n' => s +:+ str_repeat s n'
  end.

Definition as_int (v : value) : option Z :=
  match v with
  | VBool b => Some (if b then 1 else 0)
  | VInt z => Some z
  | _ => None
  end.

(** [s * n] for a sequence [s]. *)
Definition seq_repeat (s n : value) : outcome value :=
  match as_int n with
  | Some k =>
      match s with
      | VStr t => Ok (VStr (str_repeat t (Z.to_nat k)))
      | VList l => Ok (VList (mjoin (replicate (Z.to_nat k) l)))
      | _ => Raise (unsupported "*" s n)
      end
  | None =>
      Raise (Exn TypeError ("can't multiply sequence by non-int of type '"
                            +:+ type_name n +:+ "'"))
  end.

(** [a * b] *)
Definition mul (a b : value) : outcome value :=
  if is_seq a then seq_repeat a b
  else if is_seq b then seq_repeat b a
  else arith "*" (fun x y => Ok (VInt (x * y)))
                 (fun x y => Ok (VFloat (x * y)%float)) a b.

(** [x / y] for two ints: the correctly rounded quotient. *)
Definition int_truediv (x y : Z) : outcome value :=
  if y =? 0 then Raise (Exn ZeroDivisionError "division by zero")
  else if x =? 0 then Ok (VFloat (if y <? 0 then PrimFloat.neg_zero else PrimFloat.zero))
  else
    let q := SF2Prim (SFdiv prec emax
                        (S754_finite (x <? 0) (Z.to_pos (Z.abs x)) 0)
                        (S754_finite (y <? 0) (Z.to_pos (Z.abs y)) 0)) in
    if is_infinity q
    then Raise (Exn OverflowError "integer division result too large for a float")
    else Ok (VFloat q).

Definition float_truediv (x y : float) : outcome value :=
  if PrimFloat.eqb y 0
  then Raise (Exn ZeroDivisionError "float division by zero")
  else Ok (VFloat (x / y)%float).

(** [a / b] *)
Definition truediv (a b : value) : outcome value :=
  arith "/" int_truediv float_truediv a b.

(** [x ** 2] for a float [x]: the C library's [pow(x, 2.0)], taken to be
    the correctly rounded square, which it is at zero and at the heights
    evaluated below (for some other arguments the library's result is one
    unit in the last place away); overflow of a finite [x] raises. *)
Definition float_sq (x : float) : outcome float :=
  let r := (x * x)%float in
  if is_infinity r && negb (is_infinity x)
  then Raise (Exn OverflowError "(34, 'Numerical result out of range')")
  else Ok r.

(** Round the non-negative rational [n / d] to an integer, ties to even. *)
Definition div_half_even (n d : Z) : Z :=
  let q := n / d in
  let r := n mod d in
  match Z.compare (2 * r) d with
  | Lt => q
  | Gt => q + 1
  | Eq => if Z.even q then q else q + 1
  end.

(** [round(x, nd)] for a float [x] and [nd >= 0] digits: the exact value of
    [x] is rounded to [nd] decimals, ties to even, and the decimal obtained
    is converted back to the nearest float.  Zeros, infinities and NaN are
    returned as they are. *)
Definition float_round (x : float) (nd : nat) : float :=
  match Prim2SF x with
  | S754_finite s m e =>
      let p := 10 ^ Z.of_nat nd in
      let q := div_half_even (Z.pos m * p * 2 ^ Z.max e 0) (2 ^ Z.max (- e) 0) in
      match q with
      | Z.pos q' =>
          SF2Prim (SFdiv prec emax (S754_finite s q' 0) (S754_finite false (Z.to_pos p) 0))
      | _ => if s then PrimFloat.neg_zero else PrimFloat.zero
      end
  | _ => x
  end.

(** [round(v, nd)]: an int is returned unchanged for [nd >= 0]. *)
Definition round (v : value) (nd : nat) : outcome value :=
  match as_num v with
  | Some (NInt z) => Ok (VInt z)
  | Some (NFloat f) => Ok (VFloat (float_round f nd))
  | None =>
      Raise (Exn TypeError ("type " +:+ type_name v +:+ " doesn't define __round__ method"))
  end.

(** [v == z] for an int literal [z]. *)
Definition eq_int (v : value) (z : Z) : bool :=
  match as_num v with
  | Some (NInt x) => x =? z
  | Some (NFloat f) =>
      match int_to_float z with
      | Ok g => PrimFloat.eqb f g
      | Raise _ => false
      end
  | None => false
  end.

(** ** Strings

    The functions of this section are the methods of [str] on strings of
    ASCII characters: they change ASCII letters and ASCII whitespace
    only.  What the runtime does on every string is [str_methods]
    below. *)

Definition is_upper (c : ascii) : bool :=
  let n := Ascii.N_of_ascii c in ((65 <=? n) && (n <=? 90))%N.
Definition is_lower (c : ascii) : bool :=
  let n := Ascii.N_of_ascii c in ((97 <=? n) && (n <=? 122))%N.
Definition to_lower (c : ascii) : ascii :=
  if is_upper c then Ascii.ascii_of_N (Ascii.N_of_ascii c + 32) else c.
Definition to_upper (c : ascii) : ascii :=
  if is_lower c then Ascii.ascii_of_N (Ascii.N_of_ascii c - 32) else c.

(** The ASCII characters [str.isspace] accepts. *)
Definition is_space (c : ascii) : bool :=
  let n := Ascii.N_of_ascii c in
  (((9 <=? n) && (n <=? 13)) || ((28 <=? n) && (n <=? 32)))%N.

Fixpoint str_map (f : ascii -> ascii) (s : string) : string :=
  match s with
  | EmptyString => EmptyString
  | String c s' => String (f c) (str_map f s')
  end.

(** [s.lower()] *)
Definition lower (s : string) : string := str_map to_lower s.

Fixpoint lstrip (s : string) : string :=
  match s with
  | String c s' => if is_space c then lstrip s' else s
  | EmptyString => EmptyString
  end.

Fixpoint rstrip (s : string) : string :=
  match s with
  | EmptyString => EmptyString
  | String c s' =>
      match rstrip s' with
      | EmptyString => if is_space c then EmptyString else String c EmptyString
      | r => String c r
      end
  end.

(** [s.strip()] *)
Definition strip (s : string) : string := rstrip (lstrip s).

Fixpoint title_from (prev_cased : bool) (s : string) : string :=
  match s with
  | EmptyString => EmptyString
  | String c s' =>
      if is_lower c then
        String (if prev_cased then c else to_upper c) (title_from true s')
      else if is_upper c then
        String (if prev_cased then to_lower c else c) (title_from true s')
      else String c (title_from false s')
  end.

(** [s.title()] *)
Definition title (s : string) : string := title_from false s.

(** [str.lower], [str.strip] and [str.title] follow the Unicode character
    database: they are the functions of the Python runtime, on every
    string.  On a string of ASCII characters they are [lower], [strip]
    and [title] above. *)
Record str_methods := {
  str_lower : string -> string;
  str_strip : string -> string;
  str_title : string -> string
}.

Definition ascii_str : str_methods :=
  {| str_lower := lower; str_strip := strip; str_title := title |}.

(** [v.name()] for a method [f] of [str]: only [str] has the method. *)
Definition str_meth (f : string -> string) (name : string) (v : value) : outcome string :=
  match v with
  | VStr s => Ok (f s)
  | _ => Raise (Exn AttributeError
                  ("'" +:+ type_name v +:+ "' object has no attribute '" +:+ name +:+ "'"))
  end.

(** [v.lower()], where the result is only compared with constants that
    no character outside ASCII lowers into: only [str] has the method. *)
Definition meth_lower (v : value) : outcome string :=
  match v with
  | VStr s => Ok (lower s)
  | _ => Raise (Exn AttributeError
                  ("'" +:+ type_name v +:+ "' object has no attribute 'lower'"))
  end.

(** [v ** 2] *)
Definition pow2 (v : value) : outcome value :=
  match as_num v with
  | Some (NInt z) => Ok (VInt (z * z))
  | Some (NFloat f) => r ← float_sq f; Ok (VFloat r)
  | None => Raise (unsupported "** or pow()" v (VInt 2))
  end.

(** Ordering of two numbers.  Two ints are compared exactly; a float is
    compared with the other operand converted to float, which is exact for
    the int literals the tools compare with. *)
Definition compare_with (op : string) (on_int : Z -> Z -> bool)
    (on_float : float -> float -> bool) (a b : value) : outcome bool :=
  match as_num a, as_num b with
  | Some (NInt x), Some (NInt y) => Ok (on_int x y)
  | Some x, Some y => fx ← to_float x; fy ← to_float y; Ok (on_float fx fy)
  | _, _ =>
      Raise (Exn TypeError ("'" +:+ op +:+ "' not supported between instances of '"
                            +:+ type_name a +:+ "' and '" +:+ type_name b +:+ "'"))
  end.

(** [a < b] and [a <= b] *)
Definition lt : value -> value -> outcome bool := compare_with "<" Z.ltb PrimFloat.ltb.
Definition le : value -> value -> outcome bool := compare_with "<=" Z.leb PrimFloat.leb.

(** The chained comparison [lo <= v < hi]. *)
Definition between (lo v hi : value) : outcome bool :=
  a ← le lo v; if a : bool then lt v hi else Ok false.

(** [d[k]] for a dict [d] built by the program itself. *)
Definition getitem (d : value) (k : string) : outcome value :=
  match d with
  | VDict kv =>
      match dict_get kv k with
      | Some v => Ok v
      | None => Raise (Exn KeyError ("'" +:+ k +:+ "'"))
      end
  | _ => Raise (Exn TypeError ("'" +:+ type_name d +:+ "' object is not subscriptable"))
  end.

(** [d.get(k, dflt)]: only [dict] has the method. *)
Definition meth_get (d : value) (k : string) (dflt : value) : outcome value :=
  match d with
  | VDict kv => Ok (default dflt (dict_get kv k))
  | _ => Raise (Exn AttributeError
                  ("'" +:+ type_name d +:+ "' object has no attribute 'get'"))
  end.

(** [v.title()] *)
Definition meth_title (v : value) : outcome string :=
  match v with
  | VStr s => Ok (title s)
  | _ => Raise (Exn AttributeError
                  ("'" +:+ type_name v +:+ "' object has no attribute 'title'"))
  end.

(** [d.get(k, dflt)] for a dict [d] with string keys and any key [k]:
    a list or a dict cannot be hashed, no other non-string equals a key. *)
Definition dict_get_value (d : list (string * value)) (k dflt : value) : outcome value :=
  match k with
  | VStr s => Ok (default dflt (dict_get d s))
  | VList _ | VDict _ =>
      Raise (Exn TypeError ("unhashable type: '" +:+ type_name k +:+ "'"))
  | _ => Ok dflt
  end.

Fixpoint chars (s : string) : list value :=
  match s with
  | EmptyString => []
  | String c s' => VStr (String c EmptyString) :: chars s'
  end.

(** The elements [for e in v] visits. *)
Definition iterate (v : value) : outcome (list value) :=
  match v with
  | VList l => Ok l
  | VStr s => Ok (chars s)
  | VDict d => Ok (VStr <$> d.*1)
  | _ => Raise (Exn TypeError ("'" +:+ type_name v +:+ "' object is not iterable"))
  end.

(** [[f x for x in l]], stopping at the first exception. *)
Fixpoint map_outcome {A B} (f : A -> outcome B) (l : list A) : outcome (list B) :=
  match l with
  | [] => Ok []
  | x :: l' => y ← f x; ys ← map_outcome f l'; Ok (y :: ys)
  end.

(** [[x for x in l if f x]], stopping at the first exception. *)
Fixpoint filter_outcome {A} (f : A -> outcome bool) (l : list A) : outcome (list A) :=
  match l with
  | [] => Ok []
  | x :: l' =>
      b ← f x; ys ← filter_outcome f l';
      Ok (if b : bool then x :: ys else ys)
  end.

End Py.
Import Py.

(** ** [tools/fitness_calc.py] *)

Module FitnessCalc.

Definition calculate_bmi (weight_kg height_cm : value) : outcome value :=
  height_m ← truediv height_cm (VInt 100);
  sq ← pow2 height_m;
  bmi ← truediv weight_kg sq;
  (* Determine category *)
  '(category, health_status, recommendation) ←
    (c ← lt bmi (VFloat 18.5);
     if c : bool then
       Ok ("Underweight", "Below healthy weight range",
           "Consider consulting a nutritionist to develop a healthy weight gain plan with nutrient-dense foods.")
     else
       c ← between (VFloat 18.5) bmi (VInt 25);
       if c : bool then
         Ok ("Normal weight", "Healthy weight range",
             "Maintain your current weight through balanced nutrition and regular physical activity.")
       else
         c ← between (VInt 25) bmi (VInt 30);
         if c : bool then
           Ok ("Overweight", "Above healthy weight range",
               "Consider a balanced diet and regular exercise. Aim for 150+ minutes of moderate activity per week.")
         else
           Ok ("Obese", "Significantly above healthy weight range",
               "Consult with healthcare professionals for a comprehensive weight management plan."));
  r ← round bmi 1;
  Ok (VDict [("bmi", r);
             ("category", VStr category);
             ("health_status", VStr health_status);
             ("recommendation", VStr recommendation);
             ("weight_kg", weight_kg);
             ("height_cm", height_cm)]).

Definition activity_multipliers : list (string * value) :=
  [("sedentary", VFloat 1.2);      (* Little or no exercise *)
   ("light", VFloat 1.375);        (* Light exercise 1-3 days/week *)
   ("moderate", VFloat 1.55);      (* Moderate exercise 3-5 days/week *)
   ("active", VFloat 1.725);       (* Heavy exercise 6-7 days/week *)
   ("very_active", VFloat 1.9)].   (* Very heavy exercise, physical job *)

Definition calculate_tdee (weight_kg height_cm age gender activity_level : value)
  : outcome value :=
  (* Calculate BMR using Mifflin-St Jeor Equation *)
  g ← meth_lower gender;
  w10 ← mul (VInt 10) weight_kg;
  h625 ← mul (VFloat 6.25) height_cm;
  t1 ← add w10 h625;
  a5 ← mul (VInt 5) age;
  t2 ← sub t1 a5;
  bmr ← (if String.eqb g "male" then add t2 (VInt 5) else sub t2 (VInt 161));
  al ← meth_lower activity_level;
  let multiplier := default (VFloat 1.2) (dict_get activity_multipliers al) in
  tdee ← mul bmr multiplier;
  r_bmr ← round bmr 0;
  r_tdee ← round tdee 0;
  r_maint ← round tdee 0;
  l_mild ← (x ← sub tdee (VInt 250); round x 0);
  l_moderate ← (x ← sub tdee (VInt 500); round x 0);
  l_aggressive ← (x ← sub tdee (VInt 750); round x 0);
  g_lean ← (x ← add tdee (VInt 200); round x 0);
  g_moderate ← (x ← add tdee (VInt 350); round x 0);
  g_bulk ← (x ← add tdee (VInt 500); round x 0);
  Ok (VDict [("bmr", r_bmr);
             ("tdee", r_tdee);
             ("maintenance_calories", r_maint);
             ("weight_loss", VDict [("mild", l_mild);
                                    ("moderate", l_moderate);
                                    ("aggressive", l_aggressive)]);
             ("weight_gain", VDict [("lean", g_lean);
                                    ("moderate", g_moderate);
                                    ("bulk", g_bulk)]);
             ("activity_level", activity_level)]).

Section Formatting.

(** The built-in [str()] of a number, as an f-string applies it. *)
Variable str_of : value -> string.

(** [f"{round(one_rm * lo, 1)}-{round(one_rm * hi, 1)}"] *)
Definition weight_range (one_rm : value) (lo hi : float) : outcome value :=
  a ← (x ← mul one_rm (VFloat lo); round x 1);
  b ← (x ← mul one_rm (VFloat hi); round x 1);
  Ok (VStr (str_of a +:+ "-" +:+ str_of b)).

Definition calculate_one_rep_max (weight reps : value) : outcome value :=
  one_rm ←
    (if eq_int reps 1 then Ok weight
     else
       (* Epley formula *)
       r30 ← truediv reps (VInt 30);
       f ← add (VInt 1) r30;
       mul weight f);
  r ← round one_rm 1;
  strength ← weight_range one_rm 0.80 0.95;
  hypertrophy ← weight_range one_rm 0.65 0.85;
  endurance ← weight_range one_rm 0.50 0.70;
  Ok (VDict
    [("one_rep_max", r);
     ("training_zones", VDict
        [("strength", VDict [("percentage", VStr "80-95%");
                             ("weight_range", strength);
                             ("reps", VStr "1-5");
                             ("purpose", VStr "Maximum strength development")]);
         ("hypertrophy", VDict [("percentage", VStr "65-85%");
                                ("weight_range", hypertrophy);
                                ("reps", VStr "6-12");
                                ("purpose", VStr "Muscle growth")]);
         ("endurance", VDict [("percentage", VStr "50-70%");
                              ("weight_range", endurance);
                              ("reps", VStr "12-20+");
                              ("purpose", VStr "Muscular endurance")])])]).

End Formatting.

(** The category of a body-fat percentage, from the thresholds of one
    gender: [essential], [athletes], [fitness], [average]. *)
Definition body_fat_category (body_fat : value) (essential athletes fitness average : Z)
  : outcome string :=
  c ← lt body_fat (VInt essential);
  if c : bool then Ok "Essential fat"
  else
    c ← between (VInt essential) body_fat (VInt athletes);
    if c : bool then Ok "Athletes"
    else
      c ← between (VInt athletes) body_fat (VInt fitness);
      if c : bool then Ok "Fitness"
      else
        c ← between (VInt fitness) body_fat (VInt average);
        if c : bool then Ok "Average" else Ok "Obese".

(** [hip_cm] is [VNone] when the caller leaves it out. *)
Definition calculate_body_fat_navy (gender waist_cm neck_cm height_cm hip_cm : value)
  : outcome value :=
  let finish (body_fat : value) : outcome value :=
    (* Determine category *)
    g ← meth_lower gender;
    category ←
      (if String.eqb g "male" then body_fat_category body_fat 6 14 18 25
       else body_fat_category body_fat 14 21 25 32);
    r ← round body_fat 1;
    Ok (VDict [("body_fat_percentage", r);
               ("category", VStr category);
               ("gender", gender)]) in
  g ← meth_lower gender;
  if String.eqb g "male" then
    d ← sub waist_cm neck_cm;
    a ← (x ← mul (VFloat 0.19077) d; truediv x (VFloat 2.54));
    t ← sub (VFloat 1.0324) a;
    b ← (x ← mul (VFloat 0.15456) height_cm; truediv x (VFloat 2.54));
    den ← add t b;
    q ← truediv (VInt 495) den;
    body_fat ← sub q (VInt 450);
    finish body_fat
  else
    match hip_cm with
    | VNone => Ok (VDict [("error", VStr "Hip measurement required for females")])
    | _ =>
        d ← (x ← add waist_cm hip_cm; sub x neck_cm);
        a ← (x ← mul (VFloat 0.35004) d; truediv x (VFloat 2.54));
        t ← sub (VFloat 1.29579) a;
        b ← (x ← mul (VFloat 0.22100) height_cm; truediv x (VFloat 2.54));
        den ← add t b;
        q ← truediv (VInt 495) den;
        body_fat ← sub q (VInt 450);
        finish body_fat
    end.

End FitnessCalc.

(** ** [tools/nutrition_tools.py] *)

Module NutritionTools.

Definition nutrients (calories protein carbs fat : value) : value :=
  VDict [("calories", calories); ("protein", protein); ("carbs", carbs); ("fat", fat)].

(** Common foods database (per 100g) *)
Definition nutrition_db : list (string * value) :=
  [("chicken breast", nutrients (VInt 165) (VInt 31) (VInt 0) (VFloat 3.6));
   ("salmon", nutrients (VInt 208) (VInt 20) (VInt 0) (VInt 13));
   ("egg", nutrients (VInt 143) (VInt 13) (VInt 1) (VInt 10));
   ("greek yogurt", nutrients (VInt 59) (VInt 10) (VFloat 3.6) (VFloat 0.4));
   ("oatmeal", nutrients (VInt 389) (VInt 17) (VInt 66) (VInt 7));
   ("brown rice", nutrients (VInt 370) (VFloat 7.5) (VInt 77) (VFloat 2.9));
   ("broccoli", nutrients (VInt 34) (VFloat 2.8) (VInt 7) (VFloat 0.4));
   ("sweet potato", nutrients (VInt 86) (VFloat 1.6) (VInt 20) (VFloat 0.1));
   ("banana", nutrients (VInt 89) (VFloat 1.1) (VInt 23) (VFloat 0.3));
   ("almonds", nutrients (VInt 579) (VInt 21) (VInt 22) (VInt 50));
   ("avocado", nutrients (VInt 160) (VInt 2) (VInt 9) (VInt 15));
   ("quinoa", nutrients (VInt 368) (VInt 14) (VInt 64) (VInt 6));
   ("tuna", nutrients (VInt 130) (VInt 28) (VInt 0) (VInt 1));
   ("beef", nutrients (VInt 250) (VInt 26) (VInt 0) (VInt 15));
   ("turkey", nutrients (VInt 135) (VInt 30) (VInt 0) (VFloat 0.7));
   ("cottage cheese", nutrients (VInt 98) (VInt 11) (VFloat 3.4) (VFloat 4.3));
   ("milk", nutrients (VInt 42) (VFloat 3.4) (VInt 5) (VInt 1));
   ("apple", nutrients (VInt 52) (VFloat 0.3) (VInt 14) (VFloat 0.2));
   ("peanut butter", nutrients (VInt 588) (VInt 25) (VInt 20) (VInt 50));
   ("spinach", nutrients (VInt 23) (VFloat 2.9) (VFloat 3.6) (VFloat 0.4));
   ("pasta", nutrients (VInt 371) (VInt 13) (VInt 75) (VFloat 1.5));
   ("bread", nutrients (VInt 265) (VInt 9) (VInt 49) (VFloat 3.2));
   ("cheese", nutrients (VInt 402) (VInt 25) (VFloat 1.3) (VInt 33))].

Definition get_nutrition_info (sm : str_methods) (food_item : value) : outcome value :=
  l ← str_meth (str_lower sm) "lower" food_item;
  let food_lower := str_strip sm l in
  let not_found :=
    Ok (VDict [("food", food_item);
               ("found", VBool false);
               ("message", VStr "Food not found in database. Try a more common food item or check spelling.")]) in
  match dict_get nutrition_db food_lower with
  | Some nutrition =>
      if truthy nutrition then
        t ← str_meth (str_title sm) "title" food_item;
        Ok (VDict [("food", VStr t);
                   ("serving_size", VStr "100g");
                   ("nutrition", nutrition);
                   ("found", VBool true)])
      else not_found
  | None => not_found
  end.

(** The variables the loop of [calculate_meal_macros] updates. *)
Record totals := Totals {
  total_calories : value;
  total_protein : value;
  total_carbs : value;
  total_fat : value;
  ingredient_breakdown : list value
}.

(** One iteration of [for ingredient in ingredients]. *)
Definition add_ingredient (sm : str_methods) (acc : totals) (ingredient : value)
  : outcome totals :=
  food_name ← meth_get ingredient "food" (VStr "");
  grams ← meth_get ingredient "grams" (VInt 0);
  food_data ← get_nutrition_info sm food_name;
  found ← meth_get food_data "found" VNone;
  if truthy found then
    nutrition ← getitem food_data "nutrition";
    multiplier ← truediv grams (VInt 100);
    cals ← (x ← getitem nutrition "calories"; mul x multiplier);
    protein ← (x ← getitem nutrition "protein"; mul x multiplier);
    carbs ← (x ← getitem nutrition "carbs"; mul x multiplier);
    fat ← (x ← getitem nutrition "fat"; mul x multiplier);
    tc ← add (total_calories acc) cals;
    tp ← add (total_protein acc) protein;
    tcb ← add (total_carbs acc) carbs;
    tf ← add (total_fat acc) fat;
    r_cals ← round cals 1;
    r_protein ← round protein 1;
    r_carbs ← round carbs 1;
    r_fat ← round fat 1;
    Ok (Totals tc tp tcb tf
          (ingredient_breakdown acc ++
             [VDict [("food", food_name);
                     ("grams", grams);
                     ("calories", r_cals);
                     ("protein", r_protein);
                     ("carbs", r_carbs);
                     ("fat", r_fat)]]))
  else Ok acc.

Fixpoint add_ingredients (sm : str_methods) (acc : totals) (ingredients : list value)
  : outcome totals :=
  match ingredients with
  | [] => Ok acc
  | ingredient :: rest =>
      acc' ← add_ingredient sm acc ingredient; add_ingredients sm acc' rest
  end.

Definition meal_summary (acc : totals) : outcome value :=
  c ← round (total_calories acc) 1;
  p ← round (total_protein acc) 1;
  cb ← round (total_carbs acc) 1;
  f ← round (total_fat acc) 1;
  Ok (VDict [("ingredients", VList (ingredient_breakdown acc));
             ("total", VDict [("calories", c);
                              ("protein_g", p);
                              ("carbs_g", cb);
                              ("fat_g", f)])]).

Definition calculate_meal_macros (sm : str_methods) (ingredients : list value)
  : outcome value :=
  acc ← add_ingredients sm (Totals (VInt 0) (VInt 0) (VInt 0) (VInt 0) []) ingredients;
  meal_summary acc.

End NutritionTools.

(** ** [tools/workout_tools.py] *)

Module WorkoutTools.

Definition exercise (name equipment sets reps : string) : value :=
  VDict [("name", VStr name); ("equipment", VStr equipment);
         ("sets", VStr sets); ("reps", VStr reps)].

(** Comprehensive exercise database *)
Definition exercises : list (string * list (string * value)) :=
  [("chest",
     [("beginner", VList
         [exercise "Push-ups" "bodyweight" "3" "8-12";
          exercise "Incline Push-ups" "bodyweight" "3" "10-15";
          exercise "Dumbbell Bench Press" "dumbbells" "3" "8-12";
          exercise "Dumbbell Flyes" "dumbbells" "3" "10-12"]);
      ("intermediate", VList
         [exercise "Barbell Bench Press" "barbell" "4" "8-10";
          exercise "Incline Dumbbell Press" "dumbbells" "3" "8-12";
          exercise "Cable Flyes" "cables" "3" "12-15";
          exercise "Dips" "bodyweight" "3" "8-12"]);
      ("advanced", VList
         [exercise "Barbell Bench Press" "barbell" "5" "5-8";
          exercise "Incline Barbell Press" "barbell" "4" "8-10";
          exercise "Weighted Dips" "bodyweight" "4" "6-10";
          exercise "Cable Crossovers" "cables" "3" "12-15"])]);
   ("back",
     [("beginner", VList
         [exercise "Dumbbell Rows" "dumbbells" "3" "10-12";
          exercise "Lat Pulldowns" "cables" "3" "10-12";
          exercise "Seated Cable Rows" "cables" "3" "10-12";
          exercise "Back Extensions" "bodyweight" "3" "12-15"]);
      ("intermediate", VList
         [exercise "Pull-ups" "bodyweight" "4" "6-10";
          exercise "Barbell Rows" "barbell" "4" "8-10";
          exercise "T-Bar Rows" "barbell" "3" "10-12";
          exercise "Face Pulls" "cables" "3" "15-20"]);
      ("advanced", VList
         [exercise "Weighted Pull-ups" "bodyweight" "4" "6-8";
          exercise "Deadlifts" "barbell" "4" "5-8";
          exercise "Pendlay Rows" "barbell" "4" "6-8";
          exercise "Chest Supported Rows" "dumbbells" "3" "10-12"])]);
   ("legs",
     [("beginner", VList
         [exercise "Bodyweight Squats" "bodyweight" "3" "12-15";
          exercise "Lunges" "bodyweight" "3" "10-12 each leg";
          exercise "Leg Press" "machine" "3" "12-15";
          exercise "Leg Curls" "machine" "3" "12-15"]);
      ("intermediate", VList
         [exercise "Barbell Squats" "barbell" "4" "8-10";
          exercise "Romanian Deadlifts" "barbell" "3" "10-12";
          exercise "Bulgarian Split Squats" "dumbbells" "3" "10-12 each";
          exercise "Leg Extensions" "machine" "3" "12-15"]);
      ("advanced", VList
         [exercise "Back Squats" "barbell" "5" "5-8";
          exercise "Front Squats" "barbell" "4" "6-8";
          exercise "Deadlifts" "barbell" "4" "5-8";
          exercise "Walking Lunges" "dumbbells" "4" "12 each leg"])]);
   ("shoulders",
     [("beginner", VList
         [exercise "Dumbbell Shoulder Press" "dumbbells" "3" "10-12";
          exercise "Lateral Raises" "dumbbells" "3" "12-15";
          exercise "Front Raises" "dumbbells" "3" "12-15";
          exercise "Face Pulls" "cables" "3" "15-20"]);
      ("intermediate", VList
         [exercise "Overhead Press" "barbell" "4" "8-10";
          exercise "Arnold Press" "dumbbells" "3" "10-12";
          exercise "Lateral Raises" "dumbbells" "4" "12-15";
          exercise "Reverse Flyes" "dumbbells" "3" "12-15"]);
      ("advanced", VList
         [exercise "Push Press" "barbell" "4" "6-8";
          exercise "Seated Dumbbell Press" "dumbbells" "4" "8-10";
          exercise "Cable Lateral Raises" "cables" "4" "15-20";
          exercise "Upright Rows" "barbell" "3" "10-12"])]);
   ("arms",
     [("beginner", VList
         [exercise "Dumbbell Bicep Curls" "dumbbells" "3" "10-12";
          exercise "Tricep Dips" "bodyweight" "3" "8-12";
          exercise "Hammer Curls" "dumbbells" "3" "10-12";
          exercise "Tricep Extensions" "dumbbells" "3" "10-12"]);
      ("intermediate", VList
         [exercise "Barbell Curls" "barbell" "4" "8-10";
          exercise "Close-Grip Bench Press" "barbell" "4" "8-10";
          exercise "Preacher Curls" "dumbbells" "3" "10-12";
          exercise "Skull Crushers" "barbell" "3" "10-12"]);
      ("advanced", VList
         [exercise "Weighted Chin-ups" "bodyweight" "4" "6-8";
          exercise "Close-Grip Bench Press" "barbell" "5" "6-8";
          exercise "Cable Curls" "cables" "4" "12-15";
          exercise "Overhead Tricep Extension" "dumbbells" "4" "10-12"])]);
   ("core",
     [("beginner", VList
         [exercise "Plank" "bodyweight" "3" "30-60 seconds";
          exercise "Crunches" "bodyweight" "3" "15-20";
          exercise "Bicycle Crunches" "bodyweight" "3" "15-20";
          exercise "Dead Bug" "bodyweight" "3" "10-12 each side"]);
      ("intermediate", VList
         [exercise "Hanging Knee Raises" "bodyweight" "3" "12-15";
          exercise "Russian Twists" "bodyweight" "3" "20-30";
          exercise "Mountain Climbers" "bodyweight" "3" "20-30";
          exercise "Cable Crunches" "cables" "3" "15-20"]);
      ("advanced", VList
         [exercise "Hanging Leg Raises" "bodyweight" "4" "12-15";
          exercise "Ab Wheel Rollouts" "ab_wheel" "4" "10-12";
          exercise "Dragon Flags" "bodyweight" "3" "6-10";
          exercise "Pallof Press" "cables" "3" "12-15 each side"])])].

(** [equipment == ["all"]] *)
Definition is_all (equipment : value) : bool :=
  match equipment with
  | VList [VStr s] => String.eqb s "all"
  | _ => false
  end.

Definition get_exercise_recommendations (sm : str_methods)
    (muscle_group equipment level : value) : outcome value :=
  mg ← str_meth (str_lower sm) "lower" muscle_group;
  muscle_exercises ← dict_get_value (default [] (dict_get exercises mg)) level (VList []);
  (* Filter by available equipment if specified *)
  muscle_exercises ←
    (if truthy equipment && negb (is_all equipment) then
       es ← iterate equipment;
       lowered ← map_outcome (str_meth (str_lower sm) "lower") es;
       let available_equipment := (lowered ++ ["bodyweight"])%list in
       exs ← iterate muscle_exercises;
       kept ← filter_outcome
                (fun ex => e ← getitem ex "equipment";
                           l ← str_meth (str_lower sm) "lower" e;
                           Ok (existsb (String.eqb l) available_equipment)) exs;
       Ok (VList kept)
     else Ok muscle_exercises);
  Ok (VDict [("muscle_group", muscle_group);
             ("level", level);
             ("exercises", muscle_exercises);
             ("equipment_available", equipment)]).

End WorkoutTools.

(** ** [tools/tool_registry.py] *)

Module ToolRegistry.

(** An entry of [TOOLS]: the function's name, the names under
    ["properties"] and the list under ["required"] (descriptions and JSON
    types play no role in dispatch and are left out). *)
Record tool_spec := {
  tool_name : string;
  tool_properties : list string;
  tool_required : list string
}.

(** OpenAI function definitions *)
Definition TOOLS : list tool_spec :=
  [{| tool_name := "calculate_bmi";
      tool_properties := ["weight_kg"; "height_cm"];
      tool_required := ["weight_kg"; "height_cm"] |};
   {| tool_name := "calculate_tdee";
      tool_properties := ["weight_kg"; "height_cm"; "age"; "gender"; "activity_level"];
      tool_required := ["weight_kg"; "height_cm"; "age"; "gender"; "activity_level"] |};
   {| tool_name := "calculate_macros";
      tool_properties := ["calories"; "goal"; "weight_kg"];
      tool_required := ["calories"; "goal"; "weight_kg"] |};
   {| tool_name := "calculate_one_rep_max";
      tool_properties := ["weight"; "reps"];
      tool_required := ["weight"; "reps"] |};
   {| tool_name := "calculate_body_fat_navy";
      tool_properties := ["gender"; "waist_cm"; "neck_cm"; "height_cm"; "hip_cm"];
      tool_required := ["gender"; "waist_cm"; "neck_cm"; "height_cm"] |};
   {| tool_name := "calculate_heart_rate_zones";
      tool_properties := ["age"];
      tool_required := ["age"] |};
   {| tool_name := "calculate_hydration";
      tool_properties := ["weight_kg"; "activity_level"];
      tool_required := ["weight_kg"] |};
   {| tool_name := "generate_workout";
      tool_properties := ["goal"; "level"; "days_per_week"; "equipment"; "duration_minutes"];
      tool_required := ["goal"; "level"; "days_per_week"; "equipment"] |};
   {| tool_name := "get_exercise_recommendations";
      tool_properties := ["muscle_group"; "equipment"; "level"];
      tool_required := ["muscle_group"; "equipment"; "level"] |};
   {| tool_name := "calculate_progressive_overload";
      tool_properties := ["current_weight"; "current_reps"; "target_reps"; "progression_type"];
      tool_required := ["current_weight"; "current_reps"; "target_reps"] |};
   {| tool_name := "generate_meal_plan";
      tool_properties := ["calories"; "protein_g"; "carbs_g"; "fat_g"; "meals_per_day"; "dietary_preference"];
      tool_required := ["calories"; "protein_g"; "carbs_g"; "fat_g"] |};
   {| tool_name := "get_nutrition_info";
      tool_properties := ["food_item"];
      tool_required := ["food_item"] |};
   {| tool_name := "get_healthy_alternatives";
      tool_properties := ["food_item"];
      tool_required := ["food_item"] |}].

(** A Python function: its name, the module that defines it, its
    parameters in order, each with its default value if it has one, and
    its body over the bound parameters. *)
Record pyfunc := {
  fn_name : string;
  fn_module : string;
  fn_params : list (string * option value);
  fn_body : (string -> value) -> outcome value
}.

Definition quoted (s : string) : string := "'" +:+ s +:+ "'".

(** The names in a "missing arguments" message: ['a'], ['a' and 'b'],
    ['a', 'b', and 'c']. *)
Fixpoint name_list (names : list string) : string :=
  match names with
  | [] => ""
  | [a] => quoted a
  | [a; b] => quoted a +:+ " and " +:+ quoted b
  | a :: rest =>
      quoted a +:+ ", " +:+
        (match rest with
         | [b; c] => quoted b +:+ ", and " +:+ quoted c
         | _ => name_list rest
         end)
  end.

Definition missing_params (f : pyfunc) (kw : list (string * value)) : list string :=
  (filter (fun p => p.2 = None ∧ dict_get kw p.1 = None) (fn_params f)).*1.

(** Calling [f] with the keyword arguments of a mapping: they are matched
    against the parameters; an unknown keyword, then a parameter left
    without a value, is a [TypeError] raised before the body runs.
    Arguments that are not a mapping are a [TypeError] whose text names
    the function by its module and its name. *)
Definition call (f : pyfunc) (arguments : value) : outcome value :=
  match arguments with
  | VDict kw =>
      match list_find (fun kv => kv.1 ∉ (fn_params f).*1) kw with
      | Some (_, (k, _)) =>
          Raise (Exn TypeError (fn_name f +:+ "() got an unexpected keyword argument "
                                +:+ quoted k))
      | None =>
          match missing_params f kw with
          | [] =>
              fn_body f (fun p =>
                match dict_get kw p with
                | Some v => v
                | None => default VNone (mjoin (dict_get (fn_params f) p))
                end)
          | missing =>
              let n := length missing in
              Raise (Exn TypeError
                (fn_name f +:+ "() missing " +:+ pretty n +:+ " required positional argument"
                 +:+ (if decide (n = 1%nat) then "" else "s") +:+ ": " +:+ name_list missing))
          end
      end
  | _ =>
      Raise (Exn TypeError (fn_module f +:+ "." +:+ fn_name f
                            +:+ "() argument after ** must be a mapping, not "
                            +:+ type_name arguments))
  end.

Section Registry.

(** The methods of [str] of the runtime. *)
Variable sm : str_methods.

(** The built-in [str()] of a number, used by f-strings. *)
Variable str_of : value -> string.

(** The bodies of the registered tools that are not modelled here, by
    function name, over their bound parameters. *)
Variable other_body : string -> (string -> value) -> outcome value.

Definition required (names : list string) : list (string * option value) :=
  (fun n => (n, None)) <$> names.

(** Function mapping *)
Definition FUNCTION_MAP : gmap string pyfunc :=
  list_to_map
    [("calculate_bmi",
      {| fn_name := "calculate_bmi";
         fn_module := "tools.fitness_calc";
         fn_params := required ["weight_kg"; "height_cm"];
         fn_body := fun arg =>
           FitnessCalc.calculate_bmi (arg "weight_kg") (arg "height_cm") |});
     ("calculate_tdee",
      {| fn_name := "calculate_tdee";
         fn_module := "tools.fitness_calc";
         fn_params := required ["weight_kg"; "height_cm"; "age"; "gender"; "activity_level"];
         fn_body := fun arg =>
           FitnessCalc.calculate_tdee (arg "weight_kg") (arg "height_cm") (arg "age")
             (arg "gender") (arg "activity_level") |});
     ("calculate_macros",
      {| fn_name := "calculate_macros";
         fn_module := "tools.fitness_calc";
         fn_params := required ["calories"; "goal"; "weight_kg"];
         fn_body := other_body "calculate_macros" |});
     ("calculate_one_rep_max",
      {| fn_name := "calculate_one_rep_max";
         fn_module := "tools.fitness_calc";
         fn_params := required ["weight"; "reps"];
         fn_body := fun arg =>
           FitnessCalc.calculate_one_rep_max str_of (arg "weight") (arg "reps") |});
     ("calculate_body_fat_navy",
      {| fn_name := "calculate_body_fat_navy";
         fn_module := "tools.fitness_calc";
         fn_params := required ["gender"; "waist_cm"; "neck_cm"; "height_cm"]
                        ++ [("hip_cm", Some VNone)];
         fn_body := fun arg =>
           FitnessCalc.calculate_body_fat_navy (arg "gender") (arg "waist_cm")
             (arg "neck_cm") (arg "height_cm") (arg "hip_cm") |});
     ("calculate_heart_rate_zones",
      {| fn_name := "calculate_heart_rate_zones";
         fn_module := "tools.fitness_calc";
         fn_params := required ["age"];
         fn_body := other_body "calculate_heart_rate_zones" |});
     ("calculate_hydration",
      {| fn_name := "calculate_hydration";
         fn_module := "tools.fitness_calc";
         fn_params := required ["weight_kg"] ++ [("activity_level", Some (VStr "moderate"))];
         fn_body := other_body "calculate_hydration" |});
     ("generate_workout",
      {| fn_name := "generate_workout";
         fn_module := "tools.workout_tools";
         fn_params := required ["goal"; "level"; "days_per_week"; "equipment"]
                        ++ [("duration_minutes", Some (VInt 60))];
         fn_body := other_body "generate_workout" |});
     ("get_exercise_recommendations",
      {| fn_name := "get_exercise_recommendations";
         fn_module := "tools.workout_tools";
         fn_params := required ["muscle_group"; "equipment"]
                        ++ [("level", Some (VStr "intermediate"))];
         fn_body := fun arg =>
           WorkoutTools.get_exercise_recommendations sm (arg "muscle_group")
             (arg "equipment") (arg "level") |});
     ("calculate_progressive_overload",
      {| fn_name := "calculate_progressive_overload";
         fn_module := "tools.workout_tools";
         fn_params := required ["current_weight"; "current_reps"; "target_reps"]
                        ++ [("progression_type", Some (VStr "weight"))];
         fn_body := other_body "calculate_progressive_overload" |});
     ("generate_meal_plan",
      {| fn_name := "generate_meal_plan";
         fn_module := "tools.nutrition_tools";
         fn_params := required ["calories"; "protein_g"; "carbs_g"; "fat_g"]
                        ++ [("meals_per_day", Some (VInt 3));
                            ("dietary_preference", Some (VStr "balanced"))];
         fn_body := other_body "generate_meal_plan" |});
     ("get_nutrition_info",
      {| fn_name := "get_nutrition_info";
         fn_module := "tools.nutrition_tools";
         fn_params := required ["food_item"];
         fn_body := fun arg => NutritionTools.get_nutrition_info sm (arg "food_item") |});
     ("get_healthy_alternatives",
      {| fn_name := "get_healthy_alternatives";
         fn_module := "tools.nutrition_tools";
         fn_params := required ["food_item"];
         fn_body := other_body "get_healthy_alternatives" |})].

(** The value [{"error": msg}]. *)
Definition error_value (msg : string) : value := VDict [("error", VStr msg)].

Definition execute_function (function_name : string) (arguments : value) : outcome value :=
  match FUNCTION_MAP !! function_name with
  | Some func =>
      try_except (call func arguments)
        (fun e => Ok (error_value ("Function execution failed: " +:+ exn_str e)))
  | None => Ok (error_value ("Function '" +:+ function_name +:+ "' not found"))
  end.

End Registry.

End ToolRegistry.

(** ** [chainlit_app.py] *)

Module ChainlitApp.

Import ToolRegistry.

(** Enhanced system prompt for health & fitness *)
Definition SYSTEM_PROMPT : string :=
  "You are Elicia, an expert health and fitness AI coach with deep knowledge in:

- Exercise science and workout programming
- Nutrition and meal planning
- Body composition and metabolic calculations
- Strength training and progressive overload
- Cardiovascular fitness and endurance training
- Injury prevention and proper form

You have access to specialized tools for:
- Calculating BMI, TDEE, macros, body fat percentage, heart rate zones
- Generating personalized workout plans
- Creating meal plans and providing nutrition information
- Analyzing exercises and progressive overload strategies

**Important Guidelines:**
1. Always prioritize safety and encourage proper form
2. Recommend consulting healthcare professionals for medical concerns
3. Provide evidence-based advice
4. Be motivating and supportive
5. Ask clarifying questions when needed (age, weight, height, goals, etc.)
6. Use the available tools whenever calculations or structured plans are needed

**Disclaimer:** You are not a replacement for medical professionals. Always advise users to consult with doctors, especially before starting new exercise or diet programs.

Be friendly, encouraging, and knowledgeable. Help users achieve their health and fitness goals!
".

(** The welcome text [start] sends. *)
Definition WELCOME : string :=
  "👋 Welcome to **Elicia AI - Your Health & Fitness Coach!**

I'm here to help you with:

🏋️ **Fitness & Workouts**
- Personalized workout plans
- Exercise recommendations
- Progressive overload calculations

📊 **Body Metrics**
- BMI, TDEE, and macro calculations
- Body fat percentage estimates
- Heart rate training zones

🥗 **Nutrition**
- Meal planning
- Nutrition information
- Healthy food alternatives

💧 **Wellness**
- Hydration recommendations
- General health guidance

**Let's get started!** Tell me about your fitness goals, or ask me anything about health and fitness.

For example:
- " +:+ dquote +:+ "I'm 30, 180cm, 80kg. What's my BMI and daily calorie needs?" +:+ dquote +:+ "
- " +:+ dquote +:+ "Create a 4-day muscle building workout plan" +:+ dquote +:+ "
- " +:+ dquote +:+ "What are good protein sources and their nutrition?" +:+ dquote +:+ "
".

(** *** Messages *)

(** A tool call of a model reply: [id], [function.name] and
    [function.arguments], the latter as JSON text. *)
Record tool_call := {
  tc_id : string;
  tc_name : string;
  tc_arguments : string
}.

(** The message object of a model reply.  Its role is always assistant. *)
Record response_message := {
  rm_content : option string;
  rm_tool_calls : option (list tool_call)
}.

(** What the history list holds: a dict with a role and a content, the dict
    of a tool result, or the message object of a reply appended as it is. *)
Inductive message :=
| Msg (role : string) (content : option string)
| ToolMsg (tool_call_id name content : string)
| ResponseMsg (rm : response_message).

Definition role (m : message) : string :=
  match m with
  | Msg r _ => r
  | ToolMsg _ _ _ => "tool"
  | ResponseMsg _ => "assistant"
  end.

(** *** The session: a store of list objects, shared by reference *)

Definition loc := positive.

(** [heap] holds the list objects, [session] is [cl.user_session] (a key
    is bound to the address of a list, not to a copy of it), [ui] the
    contents of the messages shown to the user, in the order sent. *)
Record world := World {
  heap : gmap loc (list message);
  session : gmap string loc;
  ui : list string
}.

(** Computations on the world that may raise; the world reached when an
    exception is raised is kept. *)
Definition M (A : Type) : Type := world -> outcome A * world.

Definition retM {A} (a : A) : M A := fun w => (Ok a, w).

Definition bindM {A B} (m : M A) (f : A -> M B) : M B := fun w =>
  match m w with
  | (Ok a, w') => f a w'
  | (Raise e, w') => (Raise e, w')
  end.

#[export] Instance M_ret : MRet M := @retM.
#[export] Instance M_bind : MBind M := fun A B f m => bindM m f.

Definition lift {A} (o : outcome A) : M A := fun w => (o, w).

(** [try: m except Exception as e: h e] *)
Definition try_catch {A} (m : M A) (h : exn -> M A) : M A := fun w =>
  match m w with
  | (Ok a, w') => (Ok a, w')
  | (Raise e, w') => h e w'
  end.

(** A list display [[m1, ...]]: a new list object. *)
Definition new_list (l : list message) : M loc := fun w =>
  let a := fresh (dom (heap w)) in
  (Ok a, World (<[a := l]> (heap w)) (session w) (ui w)).

(** [cl.user_session.set(key, value)] *)
Definition session_set (key : string) (v : option loc) : M unit := fun w =>
  (Ok tt, World (heap w) (match v with
                          | Some a => <[key := a]> (session w)
                          | None => delete key (session w)
                          end) (ui w)).

(** [cl.user_session.get(key)]: the stored reference, or [None]. *)
Definition session_get (key : string) : M (option loc) := fun w =>
  (Ok (session w !! key), w).

(** [messages.append(m)]; [None] has no [append]. *)
Definition list_append (messages : option loc) (m : message) : M unit := fun w =>
  match messages with
  | Some a =>
      (Ok tt, World (alter (fun l => (l ++ [m])%list) a (heap w)) (session w) (ui w))
  | None =>
      (Raise (Exn AttributeError "'NoneType' object has no attribute 'append'"), w)
  end.

(** The contents of the list at the time it is passed to the model. *)
Definition list_read (messages : option loc) : M (list message) := fun w =>
  (Ok (default [] (messages ≫= (heap w !!.))), w).

(** [cl.Message(content=c).send()]: the message is shown; its position
    identifies it. *)
Definition ui_send (c : string) : M nat := fun w =>
  (Ok (length (ui w)), World (heap w) (session w) (ui w ++ [c])%list).

(** [msg.stream_token(t)]: the token is added to the content of [msg]. *)
Definition stream_token (msg : nat) (t : string) : M unit := fun w =>
  (Ok tt, World (heap w) (session w) (alter (fun c => c +:+ t) msg (ui w))).

(** [msg.stream_token(t)] for a token that may be [None]: the library
    returns at once when the token is missing. *)
Definition stream_token_opt (msg : nat) (t : option string) : M unit :=
  match t with
  | Some t => stream_token msg t
  | None => retM tt
  end.

(** [msg.content] *)
Definition msg_content (msg : nat) : M string := fun w =>
  (Ok (default "" (ui w !! msg)), w).

(** [msg.update()] *)
Definition msg_update (msg : nat) : M unit := retM tt.

(** [for x in l: body x] *)
Fixpoint for_each {A} (l : list A) (body : A -> M unit) : M unit :=
  match l with
  | [] => retM tt
  | x :: l' => body x;; for_each l' body
  end.

(** *** The model collaborator *)

(** The two calls of the chat API.  [create] answers with a message or
    fails.  [create_stream] fails at once, or gives the chunks of a stream
    (each chunk's [delta.content]) and, if the stream breaks, the exception
    raised after them. *)
Record model := {
  create : list message -> outcome response_message;
  create_stream : list message -> outcome (list (option string) * option exn)
}.

Section Handlers.

Variable sm : str_methods.
Variable str_of : value -> string.
Variable other_body : string -> (string -> value) -> outcome value.

(** [json.loads] and [json.dumps] of the standard library. *)
Variable json_loads : string -> outcome value.
Variable json_dumps : value -> string.

(** Called when a new chat session starts. *)
Definition start : M unit :=
  (* Initialize conversation history *)
  l ← new_list [Msg "system" (Some SYSTEM_PROMPT)];
  session_set "messages" (Some l);;
  ui_send WELCOME;;
  retM tt.

Definition tool_banner (function_name : string) : string :=
  "

🔧 Using tool: **" +:+ function_name +:+ "**

".

(** The body of [for tool_call in tool_calls]. *)
Definition run_tool (messages : option loc) (msg : nat) (tool_call : tool_call) : M unit :=
  let function_name := tc_name tool_call in
  function_args ← lift (json_loads (tc_arguments tool_call));
  (* Show what tool is being used *)
  stream_token msg (tool_banner function_name);;
  (* Execute the function *)
  function_response ← lift (execute_function sm str_of other_body function_name function_args);
  (* Add function response to messages *)
  list_append messages (ToolMsg (tc_id tool_call) function_name (json_dumps function_response)).

(** The body of [for chunk in second_response]: a chunk without content,
    or with an empty one, is passed over. *)
Definition show_chunk (msg : nat) (chunk : option string) : M unit :=
  match chunk with
  | Some t => if String.eqb t "" then retM tt else stream_token msg t
  | None => retM tt
  end.

(** The statements of the tool branch that follow the loop: the second
    call, the streaming of its chunks and the final assistant message. *)
Definition final_answer (mdl : model) (messages : option loc) (msg : nat) : M unit :=
  (* Get final response from the model with function results *)
  history ← list_read messages;
  second_response ← lift (create_stream mdl history);
  (* Stream the final response *)
  for_each second_response.1 (show_chunk msg);;
  match second_response.2 with Some e => lift (Raise e) | None => retM tt end;;
  (* Update message history with assistant's final response *)
  final_content ← msg_content msg;
  list_append messages (Msg "assistant" (Some final_content)).

(** The statements under [try]. *)
Definition respond (mdl : model) (messages : option loc) (msg : nat) : M unit :=
  (* Call OpenAI API with function calling *)
  history ← list_read messages;
  response_message ← lift (create mdl history);
  let tool_calls := rm_tool_calls response_message in
  (* If the model wants to call functions *)
  match tool_calls with
  | Some ((_ :: _) as tool_calls) =>
      (* Add assistant's response to messages *)
      list_append messages (ResponseMsg response_message);;
      (* Execute each function call *)
      for_each tool_calls (run_tool messages msg);;
      final_answer mdl messages msg
  | _ =>
      (* No function call, stream regular response *)
      list_append messages (Msg "assistant" (rm_content response_message));;
      stream_token_opt msg (rm_content response_message)
  end;;
  msg_update msg;;
  (* Save updated conversation history *)
  session_set "messages" messages.

(** The handler under [except Exception as e]. *)
Definition report (e : exn) : M unit :=
  ui_send ("❌ Error: " +:+ exn_str e);; retM tt.

(** Handle incoming messages from the user with function calling support. *)
Definition main (mdl : model) (content : string) : M unit :=
  (* Get conversation history *)
  messages ← session_get "messages";
  (* Add user message to history *)
  list_append messages (Msg "user" (Some content));;
  (* Create a placeholder for the response *)
  msg ← ui_send "";
  try_catch (respond mdl messages msg) report.

(** The persisted ConversationState: the list the session refers to. *)
Definition conversation (w : world) : option (list message) :=
  session w !! "messages" ≫= (heap w !!.).

End Handlers.

End ChainlitApp.

(** ** The other tools of [tools/]

    The tools below are registered in [FUNCTION_MAP] like the ones above.
    [calculate_heart_rate_zones] and [calculate_progressive_overload] are
    not modelled. *)

Module MoreTools.

(** [v == s] for a string literal [s]. *)
Definition eq_str (v : value) (s : string) : bool :=
  match v with
  | VStr t => String.eqb t s
  | _ => false
  end.

(** [a > b] *)
Definition gt : value -> value -> outcome bool :=
  compare_with ">" Z.gtb (fun x y => PrimFloat.ltb y x).

(** The value of the first key that [same] accepts, in a dict with int
    keys. *)
Fixpoint int_get {A} (d : list (Z * A)) (same : Z -> bool) : option A :=
  match d with
  | [] => None
  | (k, v) :: d' => if same k then Some v else int_get d' same
  end.

(** [d.get(k, dflt)] for a dict [d] with int keys and any key [k]: a float
    or a bool equal to a key finds it, a list or a dict cannot be hashed. *)
Definition int_dict_get {A} (d : list (Z * A)) (k : value) (dflt : A) : outcome A :=
  match k with
  | VList _ | VDict _ =>
      Raise (Exn TypeError ("unhashable type: '" +:+ type_name k +:+ "'"))
  | _ => Ok (default dflt (int_get d (eq_int k)))
  end.

(** *** [tools/fitness_calc.py], continued *)

(** The ratios of protein, carbs and fat and the protein per kg of body
    weight that [calculate_macros] selects for a goal. *)
Definition macro_ratios (goal : value) : float * float * float * float :=
  if eq_str goal "muscle_gain" then
    (* High protein, moderate carbs, moderate fat *)
    (0.30, 0.45, 0.25, 2.2)%float
  else if eq_str goal "fat_loss" then
    (* High protein, moderate carbs, moderate fat *)
    (0.40, 0.30, 0.30, 2.4)%float
  else (* maintenance *)
    (0.30, 0.40, 0.30, 1.8)%float.

Definition calculate_macros (calories goal weight_kg : value) : outcome value :=
  let '(protein_ratio, carb_ratio, fat_ratio, protein_per_kg) := macro_ratios goal in
  (* Calculate based on bodyweight (more accurate for protein) *)
  protein_g ← mul weight_kg (VFloat protein_per_kg);
  protein_calories ← mul protein_g (VInt 4);
  (* Adjust if protein calories exceed ratio significantly *)
  limit ← (r ← add (VFloat protein_ratio) (VFloat 0.1); mul calories r);
  exceeds ← gt protein_calories limit;
  '(protein_g, protein_calories) ←
    (if exceeds : bool then
       pg ← (x ← mul calories (VFloat protein_ratio); truediv x (VInt 4));
       pc ← mul pg (VInt 4);
       Ok (pg, pc)
     else Ok (protein_g, protein_calories));
  (* Calculate remaining calories for carbs and fats *)
  remaining_calories ← sub calories protein_calories;
  carb_calories ←
    (share ← (t ← add (VFloat carb_ratio) (VFloat fat_ratio); truediv (VFloat carb_ratio) t);
     mul remaining_calories share);
  fat_calories ← sub remaining_calories carb_calories;
  carbs_g ← truediv carb_calories (VInt 4);
  fat_g ← truediv fat_calories (VInt 9);
  let percentage (part : value) : outcome value :=
    x ← (q ← truediv part calories; mul q (VInt 100)); round x 1 in
  r_calories ← round calories 0;
  p_grams ← round protein_g 1;
  p_calories ← round protein_calories 0;
  p_percentage ← percentage protein_calories;
  c_grams ← round carbs_g 1;
  c_calories ← round carb_calories 0;
  c_percentage ← percentage carb_calories;
  f_grams ← round fat_g 1;
  f_calories ← round fat_calories 0;
  f_percentage ← percentage fat_calories;
  Ok (VDict [("calories", r_calories);
             ("protein", VDict [("grams", p_grams);
                                ("calories", p_calories);
                                ("percentage", p_percentage)]);
             ("carbs", VDict [("grams", c_grams);
                              ("calories", c_calories);
                              ("percentage", c_percentage)]);
             ("fat", VDict [("grams", f_grams);
                            ("calories", f_calories);
                            ("percentage", f_percentage)]);
             ("goal", goal)]).

Definition hydration_tips : value :=
  VList [VStr "Drink a glass of water upon waking";
         VStr "Have water before each meal";
         VStr "Carry a reusable water bottle";
         VStr "Increase intake during exercise and hot weather";
         VStr "Monitor urine color (pale yellow is ideal)"].

(** [activity_level] is ["moderate"] when the caller leaves it out. *)
Definition calculate_hydration (weight_kg activity_level : value) : outcome value :=
  (* Base calculation: 30-35ml per kg *)
  base_ml ← mul weight_kg (VInt 33);
  (* Activity multipliers *)
  l ← meth_lower activity_level;
  total_ml ←
    (if String.eqb l "sedentary" then Ok base_ml
     else
       l ← meth_lower activity_level;
       if String.eqb l "moderate" then mul base_ml (VFloat 1.2)
       else (* active *) mul base_ml (VFloat 1.5));
  liters ← truediv total_ml (VInt 1000);
  oz ← truediv total_ml (VFloat 29.5735);  (* fluid ounces *)
  cups ← truediv oz (VInt 8);
  r_liters ← round liters 1;
  r_ml ← round total_ml 0;
  r_oz ← round oz 0;
  r_cups ← round cups 1;
  Ok (VDict [("daily_intake", VDict [("liters", r_liters);
                                     ("ml", r_ml);
                                     ("oz", r_oz);
                                     ("cups", r_cups)]);
             ("tips", hydration_tips)]).

(** *** [tools/workout_tools.py], continued *)

(** Workout splits based on days *)
Definition workout_split (days_per_week : value) : string * list string :=
  if eq_int days_per_week 3 then
    ("Full Body (3x/week)", ["Full Body A"; "Full Body B"; "Full Body C"])
  else if eq_int days_per_week 4 then
    ("Upper/Lower Split", ["Upper Body A"; "Lower Body A"; "Upper Body B"; "Lower Body B"])
  else if eq_int days_per_week 5 then
    ("Push/Pull/Legs", ["Push Day"; "Pull Day"; "Legs"; "Push Day"; "Pull Day"])
  else (* 6 days *)
    ("Push/Pull/Legs (2x/week)", ["Push"; "Pull"; "Legs"; "Push"; "Pull"; "Legs"]).

(** Sets and reps based on goal *)
Definition workout_volume (goal : value) : string * string :=
  if eq_str goal "strength" then ("4-5 sets of 3-6 reps", "3-5 minutes")
  else if eq_str goal "muscle_gain" then ("3-4 sets of 8-12 reps", "60-90 seconds")
  else if eq_str goal "endurance" then ("2-3 sets of 15-20 reps", "30-45 seconds")
  else if eq_str goal "fat_loss" then ("3 sets of 12-15 reps", "45-60 seconds")
  else (* general_fitness *) ("3 sets of 10-12 reps", "60 seconds").

Section Formatting.

(** [f"{v}"]: the built-in [str()] as an f-string applies it; it raises
    [ValueError] for an int of more digits than the runtime converts. *)
Variable format : value -> outcome string.

(** [duration_minutes] is [60] when the caller leaves it out. *)
Definition generate_workout (goal level days_per_week equipment duration_minutes : value)
  : outcome value :=
  let '(split, routine) := workout_split days_per_week in
  let '(sets_reps, rest) := workout_volume goal in
  main_minutes ← sub duration_minutes (VInt 15);
  main_text ← format main_minutes;
  Ok (VDict
    [("split", VStr split);
     ("days_per_week", days_per_week);
     ("routine", VList (VStr <$> routine));
     ("goal", goal);
     ("level", level);
     ("sets_reps_guideline", VStr sets_reps);
     ("rest_periods", VStr rest);
     ("duration_minutes", duration_minutes);
     ("equipment", equipment);
     ("workout_structure", VDict
        [("warm_up", VStr "5-10 minutes of light cardio and dynamic stretching");
         ("main_workout", VStr (main_text +:+ " minutes"));
         ("cool_down", VStr "5 minutes of stretching")]);
     ("tips", VList
        [VStr "Progressive overload: Gradually increase weight or reps each week";
         VStr "Maintain proper form over heavy weight";
         VStr "Stay hydrated throughout your workout";
         VStr ("Rest " +:+ rest +:+ " between sets");
         VStr "Track your progress in a workout journal"])]).

End Formatting.

(** *** [tools/nutrition_tools.py], continued *)

Definition suggestions : list (string * list string) :=
  [("Breakfast",
    ["Egg whites with oatmeal and berries";
     "Greek yogurt with granola and banana";
     "Whole grain toast with avocado and eggs";
     "Protein smoothie with oats and fruit";
     "Cottage cheese with nuts and honey"]);
   ("Lunch",
    ["Grilled chicken breast with brown rice and vegetables";
     "Salmon with quinoa and asparagus";
     "Turkey wrap with whole wheat tortilla and salad";
     "Lean beef stir-fry with mixed vegetables";
     "Tuna salad with whole grain crackers"]);
   ("Dinner",
    ["Baked chicken with sweet potato and broccoli";
     "Lean steak with quinoa and green beans";
     "Grilled fish with wild rice and roasted vegetables";
     "Turkey meatballs with pasta and marinara";
     "Shrimp with brown rice and stir-fried vegetables"]);
   ("Snack",
    ["Protein shake";
     "Apple with almond butter";
     "Greek yogurt with berries";
     "Rice cakes with peanut butter";
     "Protein bar";
     "Mixed nuts and dried fruit"]);
   ("Morning Snack",
    ["Protein shake";
     "Banana with peanut butter";
     "Hard-boiled eggs";
     "Greek yogurt"]);
   ("Afternoon Snack",
    ["Protein bar";
     "Apple with almond butter";
     "Cottage cheese with fruit";
     "Hummus with vegetables"]);
   ("Evening Snack",
    ["Casein protein shake";
     "Cottage cheese";
     "Greek yogurt";
     "Small portion of nuts"])].

(** Helper function to get meal suggestions. *)
Definition _get_meal_suggestions (meal_name : string) (dietary_preference : value)
  : list string :=
  take 3 (default (default [] (dict_get suggestions "Snack"))
                  (dict_get suggestions meal_name)).

Definition meal_names : list (Z * list string) :=
  [(3, ["Breakfast"; "Lunch"; "Dinner"]);
   (4, ["Breakfast"; "Lunch"; "Snack"; "Dinner"]);
   (5, ["Breakfast"; "Morning Snack"; "Lunch"; "Afternoon Snack"; "Dinner"]);
   (6, ["Breakfast"; "Morning Snack"; "Lunch"; "Afternoon Snack"; "Dinner"; "Evening Snack"])].

(** [meals_per_day] is [3] and [dietary_preference] is ["balanced"] when
    the caller leaves them out. *)
Definition generate_meal_plan
    (calories protein_g carbs_g fat_g meals_per_day dietary_preference : value)
  : outcome value :=
  (* Calculate per-meal macros *)
  cals_per_meal ← truediv calories meals_per_day;
  protein_per_meal ← truediv protein_g meals_per_day;
  carbs_per_meal ← truediv carbs_g meals_per_day;
  fat_per_meal ← truediv fat_g meals_per_day;
  names ← int_dict_get meal_names meals_per_day (default [] (int_get meal_names (Z.eqb 3)));
  meals ← map_outcome (fun meal_name =>
      t_cals ← round cals_per_meal 0;
      t_protein ← round protein_per_meal 1;
      t_carbs ← round carbs_per_meal 1;
      t_fat ← round fat_per_meal 1;
      Ok (VDict [("meal", VStr meal_name);
                 ("target_calories", t_cals);
                 ("target_macros", VDict [("protein", t_protein);
                                          ("carbs", t_carbs);
                                          ("fat", t_fat)]);
                 ("suggestions",
                  VList (VStr <$> _get_meal_suggestions meal_name dietary_preference))]))
    names;
  Ok (VDict
    [("total_daily_targets", VDict [("calories", calories);
                                    ("protein_g", protein_g);
                                    ("carbs_g", carbs_g);
                                    ("fat_g", fat_g)]);
     ("meals_per_day", meals_per_day);
     ("dietary_preference", dietary_preference);
     ("meals", VList meals);
     ("hydration_reminder", VStr "Drink 8-10 glasses of water throughout the day");
     ("tips", VList [VStr "Prep meals in advance for consistency";
                     VStr "Adjust portion sizes to hit your macros";
                     VStr "Include vegetables with every meal";
                     VStr "Choose whole food sources when possible"])]).

Definition alternative (alts : list string) (reason : string) : value :=
  VDict [("alternatives", VList (VStr <$> alts)); ("reason", VStr reason)].

Definition alternatives : list (string * value) :=
  [("white rice", alternative
      ["Brown rice"; "Quinoa"; "Cauliflower rice"]
      "Higher fiber, more nutrients, better for blood sugar");
   ("white bread", alternative
      ["Whole grain bread"; "Ezekiel bread"; "Oat bread"]
      "More fiber, slower digestion, more vitamins");
   ("pasta", alternative
      ["Whole wheat pasta"; "Lentil pasta"; "Zucchini noodles"]
      "Higher protein/fiber, lower calories");
   ("soda", alternative
      ["Sparkling water"; "Green tea"; "Water with lemon"]
      "Zero calories, no sugar, better hydration");
   ("chips", alternative
      ["Air-popped popcorn"; "Veggie chips"; "Rice cakes"]
      "Lower calories, less fat, more filling");
   ("ice cream", alternative
      ["Greek yogurt with fruit"; "Protein ice cream"; "Frozen banana"]
      "Higher protein, lower sugar, fewer calories");
   ("candy", alternative
      ["Dark chocolate"; "Fruit"; "Dates"]
      "Natural sugars, antioxidants, fiber");
   ("fried chicken", alternative
      ["Grilled chicken"; "Baked chicken"; "Air-fried chicken"]
      "Less fat, fewer calories, same protein")].

Definition get_healthy_alternatives (sm : str_methods) (food_item : value)
  : outcome value :=
  l ← str_meth (str_lower sm) "lower" food_item;
  let food_lower := str_strip sm l in
  let not_found :=
    Ok (VDict [("original_food", food_item);
               ("found", VBool false);
               ("message", VStr "No specific alternatives in database. General tip: Choose whole foods over processed, grilled over fried.")]) in
  match dict_get alternatives food_lower with
  | Some alt_data =>
      if truthy alt_data then
        alts ← getitem alt_data "alternatives";
        reason ← getitem alt_data "reason";
        Ok (VDict [("original_food", food_item);
                   ("alternatives", alts);
                   ("reason", reason);
                   ("found", VBool true)])
      else not_found
  | None => not_found
  end.

(** *** The bodies of the registered tools *)

(** The body of each tool modelled in this module, by its name in
    [FUNCTION_MAP]; [rest] stands for the two tools that are not. *)
Definition tool_body (sm : str_methods) (format : value -> outcome string)
    (rest : string -> (string -> value) -> outcome value)
    (name : string) (arg : string -> value) : outcome value :=
  if String.eqb name "calculate_macros" then
    calculate_macros (arg "calories") (arg "goal") (arg "weight_kg")
  else if String.eqb name "calculate_hydration" then
    calculate_hydration (arg "weight_kg") (arg "activity_level")
  else if String.eqb name "generate_workout" then
    generate_workout format (arg "goal") (arg "level") (arg "days_per_week")
      (arg "equipment") (arg "duration_minutes")
  else if String.eqb name "generate_meal_plan" then
    generate_meal_plan (arg "calories") (arg "protein_g") (arg "carbs_g") (arg "fat_g")
      (arg "meals_per_day") (arg "dietary_preference")
  else if String.eqb name "get_healthy_alternatives" then
    get_healthy_alternatives sm (arg "food_item")
  else rest name arg.

End MoreTools.

(** ** Vocabulary of the specification *)

Module Spec.

Import ToolRegistry.

(** The field [k] of a result, when the call returned a dict. *)
Definition field (r : outcome value) (k : string) : option value :=
  match r with
  | Ok (VDict d) => dict_get d k
  | _ => None
  end.

(** The two failure tags of the Dispatcher.  In the code a failure is the
    value [{"error": text}]; the tag is carried by the text. *)
Inductive failure :=
| ToolNotFound (name : string)
| ToolExecutionFailed (cause : string).

Definition failure_value (f : failure) : value :=
  match f with
  | ToolNotFound name => error_value ("Function '" +:+ name +:+ "' not found")
  | ToolExecutionFailed cause => error_value ("Function execution failed: " +:+ cause)
  end.

(** A number whose value fits a float: every float, and every int up to
    the binary64 range. *)
Definition finite_number (v : value) : bool :=
  match as_num v with
  | Some n => match to_float n with Ok _ => true | Raise _ => false end
  | None => false
  end.

(** The Epley value [weight * (1 + reps / 30)]. *)
Definition epley (weight reps : value) : outcome value :=
  r30 ← truediv reps (VInt 30);
  f ← add (VInt 1) r30;
  mul weight f.

(** A value rounded to one decimal place, when there is one. *)
Definition rounded (o : outcome value) : option value :=
  match o with
  | Ok v => match round v 1 with Ok r => Some r | Raise _ => None end
  | Raise _ => None
  end.

(** An ingredient whose food name, lowercased and stripped, is not in the
    nutrition database (a dict without ["food"] has the name [""]). *)
Definition unknown_food (sm : str_methods) (ingredient : value) : bool :=
  match ingredient with
  | VDict d =>
      match default (VStr "") (dict_get d "food") with
      | VStr s =>
          match dict_get NutritionTools.nutrition_db (str_strip sm (str_lower sm s)) with
          | None => true
          | Some _ => false
          end
      | _ => false
      end
  | _ => false
  end.

(** The failure of the post-tool call, if any: raised by the call itself
    or while its stream is read. *)
Definition stream_failure (r : outcome (list (option string) * option exn)) : option exn :=
  match r with
  | Raise e => Some e
  | Ok (_, failure) => failure
  end.

(** The session refers to the list at [a], the list holds [hist] and the
    user has been shown [shown]. *)
Definition holds (w : ChainlitApp.world) (a : ChainlitApp.loc)
    (hist : list ChainlitApp.message) (shown : list string) : Prop :=
  ChainlitApp.session w !! "messages" = Some a
  /\ ChainlitApp.heap w !! a = Some hist
  /\ ChainlitApp.ui w = shown.

Section ToolReplies.

Variable sm : str_methods.
Variable str_of : value -> string.
Variable other_body : string -> (string -> value) -> outcome value.
Variable json_loads : string -> outcome value.
Variable json_dumps : value -> string.

(** [p] is a parameter without default of the function registered as
    [name]. *)
Definition declares_required (name p : string) : bool :=
  match FUNCTION_MAP sm str_of other_body !! name with
  | Some f =>
      existsb (fun q => String.eqb q.1 p && bool_decide (q.2 = None)) (fn_params f)
  | None => false
  end.

(** The tool_result message that answers a tool call: its arguments are
    decoded, the Dispatcher is invoked and its output serialized. *)
Definition tool_reply (tc : ChainlitApp.tool_call) : outcome ChainlitApp.message :=
  args ← json_loads (ChainlitApp.tc_arguments tc);
  v ← execute_function sm str_of other_body (ChainlitApp.tc_name tc) args;
  Ok (ChainlitApp.ToolMsg (ChainlitApp.tc_id tc) (ChainlitApp.tc_name tc) (json_dumps v)).

(** The world after the turns [turns], each a behaviour of the model and
    the text the user sends. *)
Definition run_turns (turns : list (ChainlitApp.model * string)) (w : ChainlitApp.world)
  : ChainlitApp.world :=
  foldl (fun w turn =>
           (ChainlitApp.main sm str_of other_body json_loads json_dumps turn.1 turn.2 w).2)
        w turns.

End ToolReplies.

(** Concrete collaborators for the examples: numbers are rendered
    as the empty text, the tools that are not modelled return [None],
    every arguments text decodes to an empty dict and every result is
    serialized as ["{}"]. *)
Definition example_main : ChainlitApp.model -> string -> ChainlitApp.M unit :=
  ChainlitApp.main ascii_str (fun _ => "") (fun _ _ => Ok VNone) (fun _ => Ok (VDict [])) (fun _ => "{}").

Definition example_call : ChainlitApp.tool_call :=
  {| ChainlitApp.tc_id := "call_1";
     ChainlitApp.tc_name := "unknown_tool";
     ChainlitApp.tc_arguments := "{}" |}.

Definition example_request : ChainlitApp.response_message :=
  {| ChainlitApp.rm_content := None;
     ChainlitApp.rm_tool_calls := Some [example_call] |}.

(** A session whose history is still empty, at address 1. *)
Definition example_world : ChainlitApp.world :=
  ChainlitApp.World {[1%positive := []]} {["messages" := 1%positive]} [].

End Spec.

(** ** Vocabulary of the further properties *)

Module Terms.

(** A string of ASCII characters. *)
Fixpoint is_ascii (s : string) : bool :=
  match s with
  | EmptyString => true
  | String c s' => (Ascii.N_of_ascii c <? 128)%N && is_ascii s'
  end.

(** On a string of ASCII characters the methods of [str] are [lower],
    [strip] and [title]. *)
Definition ascii_exact (sm : str_methods) : Prop :=
  forall s, is_ascii s = true ->
    str_lower sm s = lower s /\ str_strip sm s = strip s /\ str_title sm s = title s.

(** [s.upper()] for a string [s] of ASCII characters. *)
Definition upper (s : string) : string := str_map to_upper s.

(** A string made of whitespace only. *)
Fixpoint blank (s : string) : bool :=
  match s with
  | EmptyString => true
  | String c s' => is_space c && blank s'
  end.

(** The food name and the grams that [calculate_meal_macros] reads from an
    ingredient. *)
Definition ingredient_food (ingredient : value) : value :=
  match ingredient with
  | VDict d => default (VStr "") (dict_get d "food")
  | _ => VNone
  end.

Definition ingredient_grams (ingredient : value) : value :=
  match ingredient with
  | VDict d => default (VInt 0) (dict_get d "grams")
  | _ => VNone
  end.

(** An ingredient that [calculate_meal_macros] can process: a dict whose
    food name is a string (or absent) and, when the food is known, whose
    grams (0 when absent) can be divided by 100. *)
Definition well_formed_ingredient (sm : str_methods) (ingredient : value) : bool :=
  match ingredient with
  | VDict _ =>
      match ingredient_food ingredient with
      | VStr _ =>
          Spec.unknown_food sm ingredient
          || match truediv (ingredient_grams ingredient) (VInt 100) with
             | Ok _ => true
             | Raise _ => false
             end
      | _ => false
      end
  | _ => false
  end.

(** A running total of [calculate_meal_macros]: the initial [0] or a float. *)
Definition running_total (v : value) : bool :=
  match v with
  | VInt 0 | VFloat _ => true
  | _ => false
  end.

Definition running_totals (acc : NutritionTools.totals) : Prop :=
  running_total (NutritionTools.total_calories acc) = true
  /\ running_total (NutritionTools.total_protein acc) = true
  /\ running_total (NutritionTools.total_carbs acc) = true
  /\ running_total (NutritionTools.total_fat acc) = true.

(** The exercises the database holds for a muscle group, lowercased by
    the runtime, and a level; none when either is unknown. *)
Definition exercise_list (sm : str_methods) (muscle_group level : string) : list value :=
  match dict_get WorkoutTools.exercises (str_lower sm muscle_group) with
  | Some by_level =>
      match dict_get by_level level with
      | Some (VList exs) => exs
      | _ => []
      end
  | None => []
  end.

(** An exercise whose equipment, in lower case, is among [available]. *)
Definition allowed_equipment (sm : str_methods) (available : list string) (ex : value)
  : bool :=
  match ex with
  | VDict d =>
      match dict_get d "equipment" with
      | Some (VStr e) => existsb (String.eqb (str_lower sm e)) available
      | _ => false
      end
  | _ => false
  end.

(** An entry of the exercise database: a dict whose equipment is a
    string. *)
Definition is_exercise (ex : value) : bool :=
  match ex with
  | VDict d => match dict_get d "equipment" with Some (VStr _) => true | _ => false end
  | _ => false
  end.

(** What the tool loop adds to the reply shown to the user: the banner of
    every tool call, in order. *)
Definition banners (tcs : list ChainlitApp.tool_call) : string :=
  foldr (fun tc s => ChainlitApp.tool_banner (ChainlitApp.tc_name tc) +:+ s) "" tcs.

(** The text of a stream: the contents of its chunks, in order. *)
Definition streamed (chunks : list (option string)) : string :=
  foldr (fun chunk s => default "" chunk +:+ s) "" chunks.

(** A tool call whose arguments [json_loads] decodes. *)
Definition decodable (json_loads : string -> outcome value)
    (tc : ChainlitApp.tool_call) : bool :=
  match json_loads (ChainlitApp.tc_arguments tc) with
  | Ok _ => true
  | Raise _ => false
  end.

(** A message of the tool traffic of a turn: the assistant message that
    carries the tool calls, or a tool result. *)
Definition tool_traffic (m : ChainlitApp.message) : bool :=
  match m with
  | ChainlitApp.Msg _ _ => false
  | _ => true
  end.

Section Turns.

Variable sm : str_methods.
Variable str_of : value -> string.
Variable other_body : string -> (string -> value) -> outcome value.
Variable json_loads : string -> outcome value.
Variable json_dumps : value -> string.

(** The exception that ends the statements under [try] in a turn whose
    history, with the user message, is [history], if any: the first call
    fails, or the arguments of a tool call cannot be decoded, or the
    second call fails, at once or while its stream is read. *)
Definition turn_failure (mdl : ChainlitApp.model) (history : list ChainlitApp.message)
  : option exn :=
  match ChainlitApp.create mdl history with
  | Raise e => Some e
  | Ok rm =>
      match ChainlitApp.rm_tool_calls rm with
      | Some ((_ :: _) as tcs) =>
          match map_outcome (Spec.tool_reply sm str_of other_body json_loads json_dumps)
                  tcs with
          | Raise e => Some e
          | Ok results =>
              Spec.stream_failure
                (ChainlitApp.create_stream mdl
                   (history ++ ChainlitApp.ResponseMsg rm :: results)%list)
          end
      | _ => None
      end
  end.

End Turns.

Section Catalog.

Variable sm : str_methods.
Variable str_of : value -> string.
Variable other_body : string -> (string -> value) -> outcome value.

(** The value a call binds to the parameter [p] of [f]: the keyword
    argument, else the default. *)
Definition bound_argument (f : ToolRegistry.pyfunc) (kw : list (string * value))
    (p : string) : value :=
  match dict_get kw p with
  | Some v => v
  | None => default VNone (mjoin (dict_get (ToolRegistry.fn_params f) p))
  end.

(** Calling the function found in the registry, if any. *)
Definition call_result (f : option ToolRegistry.pyfunc) (arguments : value)
  : option (outcome value) :=
  (fun f => ToolRegistry.call f arguments) <$> f.

(** The arguments [kw] follow the schema of the catalog entry [t]: every
    key is one of its properties and every required field is given. *)
Definition conforms (t : ToolRegistry.tool_spec) (kw : list (string * value)) : bool :=
  forallb (fun kv => bool_decide (kv.1 ∈ ToolRegistry.tool_properties t)) kw
  && forallb (fun p => bool_decide (is_Some (dict_get kw p))) (ToolRegistry.tool_required t).

(** The catalog entry [t] describes the function registered under its
    name: same name, the properties are its parameters in order, and
    every parameter without default is listed as required. *)
Definition registered (t : ToolRegistry.tool_spec) : bool :=
  match ToolRegistry.FUNCTION_MAP sm str_of other_body !! ToolRegistry.tool_name t with
  | Some f =>
      String.eqb (ToolRegistry.fn_name f) (ToolRegistry.tool_name t)
      && bool_decide ((ToolRegistry.fn_params f).*1 = ToolRegistry.tool_properties t)
      && forallb (fun p => match p.2 with
                           | None => bool_decide (p.1 ∈ ToolRegistry.tool_required t)
                           | Some _ => true
                           end) (ToolRegistry.fn_params f)
  | None => false
  end.

End Catalog.

End Terms.

(** * Properties *)

(** ** The calculators *)

Module FitnessCalcFacts.

Import FitnessCalc Spec.

(** C8: [calculate_bmi(weight_kg=80, height_cm=180)] returns a result
    whose [bmi] is 24.7 and whose [category] is "Normal weight"; the same
    holds when the two numbers arrive as the floats 80.0 and 180.0. *)
Theorem calculate_bmi_scenario :
  (field (calculate_bmi (VInt 80) (VInt 180)) "bmi" = Some (VFloat 24.7)
   /\ field (calculate_bmi (VInt 80) (VInt 180)) "category" = Some (VStr "Normal weight"))
  /\ (field (calculate_bmi (VFloat 80) (VFloat 180)) "bmi" = Some (VFloat 24.7)
      /\ field (calculate_bmi (VFloat 80) (VFloat 180)) "category"
         = Some (VStr "Normal weight")).
Proof. repeat split; vm_compute; reflexivity. Qed.

(** C7: [calculate_tdee(weight_kg=80, height_cm=180, age=30,
    gender="male", activity_level="moderate")] returns a result whose
    [bmr] is 1780 and whose [tdee] is 2759: the Mifflin-St Jeor value
    [10*80 + 6.25*180 - 5*30 + 5] is exactly 1780, and its product with
    the multiplier 1.55 of the moderate level rounds to 2759. *)
Theorem calculate_tdee_scenario :
  let r := calculate_tdee (VInt 80) (VInt 180) (VInt 30) (VStr "male") (VStr "moderate") in
  (field r "bmr" = Some (VFloat 1780) /\ field r "tdee" = Some (VFloat 2759))
  /\ dict_get activity_multipliers "moderate" = Some (VFloat 1.55)
  /\ float_round (1780 * 1.55) 0 = 2759%float.
Proof. repeat split; vm_compute; reflexivity. Qed.

Section OneRepMax.

Variable str_of : value -> string.

Lemma mul_float_r (a : value) (f : float) (v : value) :
  mul a (VFloat f) = Ok v -> exists x, v = VFloat x.
Proof.
  destruct a as [| b | z | g | s | l | d]; unfold mul, arith; cbn;
    try discriminate.
  - destruct (int_to_float _); cbn; [intros [= <-]; eauto | discriminate].
  - destruct (int_to_float _); cbn; [intros [= <-]; eauto | discriminate].
  - intros [= <-]; eauto.
Qed.

Lemma int_truediv_float (x y : Z) (v : value) :
  int_truediv x y = Ok v -> exists q, v = VFloat q.
Proof.
  unfold int_truediv.
  destruct (y =? 0); [discriminate |].
  destruct (x =? 0); [intros [= <-]; eauto |].
  destruct (is_infinity _); [discriminate | intros [= <-]; eauto].
Qed.

Lemma weight_range_finite (one_rm : value) (lo hi : float) :
  finite_number one_rm = true ->
  exists s, weight_range str_of one_rm lo hi = Ok (VStr s).
Proof.
  unfold finite_number, weight_range, mul, arith, round.
  destruct one_rm as [| b | z | g | s | l | d]; cbn -[float_round]; try discriminate.
  - destruct (int_to_float _); cbn -[float_round]; [eauto | discriminate].
  - destruct (int_to_float _); cbn -[float_round]; [eauto | discriminate].
  - eauto.
Qed.

Lemma round_finite (v : value) (nd : nat) :
  finite_number v = true -> exists r, round v nd = Ok r.
Proof.
  unfold finite_number, round.
  destruct (as_num v) as [[z | f] |]; [eauto | eauto | discriminate].
Qed.

(** Whatever value [one_rm] the branch on [reps] selects, the result
    carries it rounded to one decimal. *)
Lemma one_rep_max_field (weight reps one_rm : value) :
  (if eq_int reps 1 then Ok weight else epley weight reps) = Ok one_rm ->
  finite_number one_rm = true ->
  exists r, round one_rm 1 = Ok r
    /\ field (calculate_one_rep_max str_of weight reps) "one_rep_max" = Some r.
Proof.
  intros Hsel Hfin.
  destruct (round_finite one_rm 1 Hfin) as [r Hr].
  destruct (weight_range_finite one_rm 0.80 0.95 Hfin) as [s1 H1].
  destruct (weight_range_finite one_rm 0.65 0.85 Hfin) as [s2 H2].
  destruct (weight_range_finite one_rm 0.50 0.70 Hfin) as [s3 H3].
  exists r. split; [exact Hr |].
  unfold calculate_one_rep_max, epley in *.
  rewrite Hsel. cbn [mbind outcome_bind].
  rewrite Hr. cbn [mbind outcome_bind].
  rewrite H1. cbn [mbind outcome_bind].
  rewrite H2. cbn [mbind outcome_bind].
  rewrite H3. reflexivity.
Qed.

(** C9, as amended: [calculate_one_rep_max] is special-cased at [reps = 1],
    where [one_rep_max] is the weight rounded to one decimal place (not the
    Epley value); for every [reps >= 2] it is the Epley value
    [weight * (1 + reps / 30)] rounded to one decimal place, and there is
    a result exactly when that value can be computed. *)
Theorem one_rep_max_by_reps (weight : value) :
  (finite_number weight = true ->
   field (calculate_one_rep_max str_of weight (VInt 1)) "one_rep_max"
   = rounded (Ok weight))
  /\ (forall z, 2 <= z ->
      field (calculate_one_rep_max str_of weight (VInt z)) "one_rep_max"
      = rounded (epley weight (VInt z))).
Proof.
  split.
  - intros Hfin.
    destruct (one_rep_max_field weight (VInt 1) weight eq_refl Hfin) as (r & Hr & ->).
    unfold rounded. by rewrite Hr.
  - intros z Hz.
    assert (Hne : eq_int (VInt z) 1 = false) by (cbn; lia).
    destruct (epley weight (VInt z)) as [one_rm | e] eqn:He.
    2:{ unfold calculate_one_rep_max. rewrite Hne.
        unfold epley in He. by rewrite He. }
    assert (Hfin : finite_number one_rm = true).
    { unfold epley in He.
      destruct (truediv (VInt z) (VInt 30)) as [r30 |] eqn:Hdiv; [| discriminate].
      apply int_truediv_float in Hdiv as [q ->].
      cbn [mbind outcome_bind] in He.
      destruct (add (VInt 1) (VFloat q)) as [f |] eqn:Hadd; [| discriminate].
      cbn [mbind outcome_bind] in He.
      assert (exists g, f = VFloat g) as [g ->].
      { revert Hadd. unfold add, arith. cbn.
        destruct (int_to_float 1); cbn; [intros [= <-]; eauto | discriminate]. }
      destruct (mul_float_r _ _ _ He) as [x ->]. reflexivity. }
    destruct (one_rep_max_field weight (VInt z) one_rm) as (r & Hr & ->);
      [by rewrite Hne | exact Hfin |].
    unfold rounded. by rewrite Hr.
Qed.

End OneRepMax.

Lemma one_rep_max_by_reps_witness :
  field (calculate_one_rep_max (fun _ => "") (VInt 100) (VInt 1)) "one_rep_max"
  = Some (VInt 100)
  /\ field (calculate_one_rep_max (fun _ => "") (VInt 100) (VInt 5)) "one_rep_max"
     = Some (VFloat 116.7).
Proof.
  destruct (one_rep_max_by_reps (fun _ => "") (VInt 100)) as [H1 H2].
  split.
  - rewrite H1; reflexivity.
  - rewrite H2; [vm_compute; reflexivity | lia].
Defined.

(** C9 as stated fails at [reps = 1] for a weight with more than one
    decimal: [calculate_one_rep_max(100.25, 1)] gives 100.2, not 100.25. *)
Lemma one_rep_max_reps1_counterexample :
  field (calculate_one_rep_max (fun _ => "") (VFloat 100.25) (VInt 1)) "one_rep_max"
    = Some (VFloat 100.2)
  /\ field (calculate_one_rep_max (fun _ => "") (VFloat 100.25) (VInt 1)) "one_rep_max"
    <> Some (VFloat 100.25).
Proof.
  split; [vm_compute; reflexivity |].
  intros H.
  apply (f_equal (fun o => match o with
                           | Some (VFloat x) => PrimFloat.eqb x 100.25
                           | _ => false
                           end)) in H.
  vm_compute in H. discriminate H.
Qed.

(** The scenario of the specification: dispatching 100 kg for 5 reps
    gives 116.7. *)
Lemma one_rep_max_scenario :
  field (calculate_one_rep_max (fun _ => "") (VInt 100) (VInt 5)) "one_rep_max"
    = Some (VFloat 116.7).
Proof. vm_compute. reflexivity. Qed.

End FitnessCalcFacts.

Module NutritionFacts.

Import NutritionTools Spec.

Section Lookup.

(** The methods of [str] of the runtime, whatever they do. *)
Variable sm : str_methods.

Local Abbreviation unknown_food := (unknown_food sm).
Local Abbreviation add_ingredient := (add_ingredient sm).
Local Abbreviation add_ingredients := (add_ingredients sm).
Local Abbreviation calculate_meal_macros := (calculate_meal_macros sm).

Lemma add_ingredient_unknown (acc : totals) (ingredient : value) :
  unknown_food ingredient = true -> add_ingredient acc ingredient = Ok acc.
Proof.
  unfold Spec.unknown_food, NutritionTools.add_ingredient.
  destruct ingredient as [| | | | | | d]; try discriminate.
  cbn [meth_get mbind outcome_bind].
  destruct (default (VStr "") (dict_get d "food")) as [| | | | s | |]; try discriminate.
  unfold get_nutrition_info. cbn [str_meth mbind outcome_bind].
  destruct (dict_get nutrition_db (str_strip sm (str_lower sm s))); [discriminate |].
  reflexivity.
Qed.

Lemma add_ingredients_filter (ingredients : list value) (acc : totals) :
  add_ingredients acc ingredients
  = add_ingredients acc (filter (fun i => unknown_food i = false) ingredients).
Proof.
  revert acc. induction ingredients as [| i rest IH]; intros acc; [reflexivity |].
  destruct (unknown_food i) eqn:Hi.
  - rewrite filter_cons_False by (rewrite Hi; discriminate).
    cbn [NutritionTools.add_ingredients]. rewrite (add_ingredient_unknown _ _ Hi). apply IH.
  - rewrite filter_cons_True by exact Hi.
    cbn [NutritionTools.add_ingredients].
    destruct (add_ingredient acc i); [apply IH | reflexivity].
Qed.

Lemma add_ingredients_all_unknown (ingredients : list value) (acc : totals) :
  Forall (fun i => unknown_food i = true) ingredients ->
  add_ingredients acc ingredients = Ok acc.
Proof.
  induction 1 as [| i rest Hi _ IH]; [reflexivity |].
  cbn [NutritionTools.add_ingredients]. rewrite (add_ingredient_unknown _ _ Hi). exact IH.
Qed.

(** C10: [calculate_meal_macros] silently skips every ingredient whose
    food name, lowercased and stripped by the runtime, is not in the
    nutrition database: the result (breakdown, totals, or the exception
    another ingredient causes) is the one of the list without those
    ingredients, and a list of unknown foods only yields an empty
    breakdown and totals of 0. *)
Theorem meal_macros_skips_unknown (ingredients : list value) :
  calculate_meal_macros ingredients
  = calculate_meal_macros (filter (fun i => unknown_food i = false) ingredients)
  /\ (Forall (fun i => unknown_food i = true) ingredients ->
      calculate_meal_macros ingredients
      = Ok (VDict [("ingredients", VList []);
                   ("total", VDict [("calories", VInt 0);
                                    ("protein_g", VInt 0);
                                    ("carbs_g", VInt 0);
                                    ("fat_g", VInt 0)])])).
Proof.
  unfold NutritionTools.calculate_meal_macros. split.
  - rewrite add_ingredients_filter. reflexivity.
  - intros Hall. rewrite (add_ingredients_all_unknown _ _ Hall). reflexivity.
Qed.

End Lookup.

Lemma meal_macros_skips_unknown_witness :
  let ingredients := [VDict [("food", VStr "Dragonfruit"); ("grams", VInt 150)];
                      VDict [("grams", VInt 20)]] in
  Forall (fun i => unknown_food ascii_str i = true) ingredients
  /\ calculate_meal_macros ascii_str ingredients
     = Ok (VDict [("ingredients", VList []);
                  ("total", VDict [("calories", VInt 0);
                                   ("protein_g", VInt 0);
                                   ("carbs_g", VInt 0);
                                   ("fat_g", VInt 0)])]).
Proof.
  intros ingredients.
  assert (H : Forall (fun i => unknown_food ascii_str i = true) ingredients)
    by (repeat constructor).
  split; [exact H |].
  exact (proj2 (meal_macros_skips_unknown ascii_str ingredients) H).
Defined.

(** A known food between two unknown ones: only the known one is counted. *)
Example meal_macros_mixed :
  calculate_meal_macros ascii_str
    [VDict [("food", VStr "dragonfruit"); ("grams", VInt 150)];
     VDict [("food", VStr " Egg "); ("grams", VInt 150)];
     VDict [("food", VStr "kiwi"); ("grams", VInt 10)]]
  = calculate_meal_macros ascii_str [VDict [("food", VStr " Egg "); ("grams", VInt 150)]].
Proof. vm_compute. reflexivity. Qed.

End NutritionFacts.

(** ** The Dispatcher *)

Module DispatcherFacts.

Import ToolRegistry Spec.

(** A call that leaves a parameter without default unbound raises a
    [TypeError] whose text starts with the function's name. *)
Lemma call_missing (f : pyfunc) (kw : list (string * value)) (p : string) :
  (p, None) ∈ fn_params f -> dict_get kw p = None ->
  exists cause, call f (VDict kw) = Raise (Exn TypeError (fn_name f +:+ "()" +:+ cause)).
Proof.
  intros Hp Hkw. unfold call.
  destruct (list_find _ kw) as [[i [k v]] |].
  { eexists. reflexivity. }
  destruct (missing_params f kw) as [| m ms] eqn:Hm.
  - exfalso.
    assert (p ∈ missing_params f kw) as Hin.
    { unfold missing_params. apply list_elem_of_fmap. exists (p, None).
      split; [reflexivity |]. apply list_elem_of_filter. split; [split |]; done. }
    rewrite Hm in Hin. by apply elem_of_nil in Hin.
  - eexists. reflexivity.
Qed.

Section Dispatch.

Variable sm : str_methods.
Variable str_of : value -> string.
Variable other_body : string -> (string -> value) -> outcome value.

Local Abbreviation FUNCTION_MAP := (FUNCTION_MAP sm str_of other_body).
Local Abbreviation execute_function := (execute_function sm str_of other_body).
Local Abbreviation declares_required := (declares_required sm str_of other_body).

(** Every function is registered under its own name. *)
Lemma FUNCTION_MAP_name (name : string) (f : pyfunc) :
  FUNCTION_MAP !! name = Some f -> fn_name f = name.
Proof.
  intros H. apply elem_of_list_to_map_2 in H.
  repeat (apply elem_of_cons in H as [H | H]; [by inversion H |]).
  by apply elem_of_nil in H.
Qed.


(** Leaving out a parameter that the implementation declares without a
    default is reported as [ToolExecutionFailed], with the tool's name. *)
Lemma dispatch_missing_parameter (name : string) (f : pyfunc)
    (kw : list (string * value)) (p : string) :
  FUNCTION_MAP !! name = Some f ->
  (p, None) ∈ fn_params f -> dict_get kw p = None ->
  exists cause,
    execute_function name (VDict kw)
    = Ok (failure_value (ToolExecutionFailed (name +:+ "()" +:+ cause))).
Proof.
  intros Hf Hp Hkw. unfold execute_function. rewrite Hf.
  destruct (call_missing f kw p Hp Hkw) as [cause ->].
  rewrite (FUNCTION_MAP_name _ _ Hf). exists cause. reflexivity.
Qed.

(** The names under which functions are registered are distinct. *)
Lemma FUNCTION_MAP_lookup (name : string) (f : pyfunc) (l : list (string * pyfunc)) :
  FUNCTION_MAP = list_to_map l -> NoDup l.*1 -> (name, f) ∈ l ->
  FUNCTION_MAP !! name = Some f.
Proof. intros -> Hnd Hin. by apply elem_of_list_to_map_1. Qed.

Lemma declares_required_spec (name p : string) :
  declares_required name p = true ->
  exists f, FUNCTION_MAP !! name = Some f /\ (p, None) ∈ fn_params f.
Proof.
  unfold Spec.declares_required. destruct (FUNCTION_MAP !! name) as [f |]; [| discriminate].
  intros H. exists f. split; [reflexivity |].
  apply existsb_exists in H as ([q d] & Hin & Hq).
  apply andb_true_iff in Hq as [Hq Hd].
  apply String.eqb_eq in Hq. apply bool_decide_eq_true_1 in Hd. cbn in Hq, Hd. subst.
  by apply list_elem_of_In.
Qed.

(** Every field that [TOOLS] lists as required is a parameter without
    default of the registered function, except [level] of
    [get_exercise_recommendations], which defaults to "intermediate". *)
Lemma TOOLS_required_parameter (t : tool_spec) (p : string) :
  t ∈ TOOLS -> p ∈ tool_required t ->
  (tool_name t, p) <> ("get_exercise_recommendations", "level") ->
  exists f, FUNCTION_MAP !! tool_name t = Some f /\ (p, None) ∈ fn_params f.
Proof.
  intros Ht Hp Hne. apply declares_required_spec.
  assert (Hall : forallb (fun t => forallb (fun p =>
                    (String.eqb (tool_name t) "get_exercise_recommendations"
                     && String.eqb p "level")
                    || declares_required (tool_name t) p) (tool_required t)) TOOLS = true)
    by (vm_compute; reflexivity).
  rewrite forallb_forall in Hall.
  apply list_elem_of_In in Ht. specialize (Hall t Ht).
  rewrite forallb_forall in Hall.
  apply list_elem_of_In in Hp. specialize (Hall p Hp).
  apply orb_true_iff in Hall as [Hex | Hok]; [| exact Hok].
  apply andb_true_iff in Hex as [E1 E2].
  apply String.eqb_eq in E1, E2. destruct Hne. by rewrite E1, E2.
Qed.


(** A value the function returns is what the Dispatcher returns. *)
Lemma dispatch_returns_result (name : string) (f : pyfunc) (arguments v : value) :
  FUNCTION_MAP !! name = Some f -> call f arguments = Ok v ->
  execute_function name arguments = Ok v.
Proof. intros Hf Hv. unfold execute_function. rewrite Hf, Hv. reflexivity. Qed.

(** C2, as amended: when [calculate_body_fat_navy] is dispatched with a
    gender other than male and without a hip measurement, the sentinel it
    returns reaches the caller unchanged; it is an [{"error": text}] value
    like every failure of the Dispatcher, but it is neither
    [ToolExecutionFailed] nor [ToolNotFound]. *)
Theorem dispatch_keeps_sentinel (g : string) (kw : list (string * value)) :
  let sentinel := error_value "Hip measurement required for females" in
  dict_get kw "gender" = Some (VStr g) -> lower g <> "male" ->
  is_Some (dict_get kw "waist_cm") -> is_Some (dict_get kw "neck_cm") ->
  is_Some (dict_get kw "height_cm") ->
  dict_get kw "hip_cm" = None \/ dict_get kw "hip_cm" = Some VNone ->
  Forall (fun kv => kv.1 ∈ ["gender"; "waist_cm"; "neck_cm"; "height_cm"; "hip_cm"]) kw ->
  execute_function "calculate_body_fat_navy" (VDict kw) = Ok sentinel
  /\ (forall f, sentinel <> failure_value f).
Proof.
  intros sentinel Hg Hmale [w Hw] [n Hn] [h Hh] Hhip Hkeys. split.
  - assert (exists f, FUNCTION_MAP !! "calculate_body_fat_navy" = Some f
              /\ call f (VDict kw) = Ok sentinel) as (f & Hf & Hcall).
    { eexists. split.
      { eapply FUNCTION_MAP_lookup;
          [reflexivity | apply (bool_decide_unpack _); vm_compute; exact I |].
        do 4 (apply elem_of_cons; right). apply elem_of_cons. left. reflexivity. }
      unfold call.
      replace (list_find _ kw) with (@None (nat * (string * value))).
      2:{ symmetry. apply list_find_None.
          eapply Forall_impl; [exact Hkeys |]. intros kv Hkv Hnot. by apply Hnot. }
      replace (missing_params _ kw) with (@nil string).
      2:{ unfold missing_params. cbn [fn_params required fmap list_fmap app].
          rewrite !filter_cons, filter_nil. cbn [fst snd].
          rewrite Hg, Hw, Hn, Hh.
          repeat case_decide; try reflexivity;
            match goal with H : _ /\ _ |- _ => destruct H; discriminate end. }
      cbn [fn_body]. rewrite Hg.
      unfold FitnessCalc.calculate_body_fat_navy.
      cbn [meth_lower mbind outcome_bind].
      destruct (String.eqb_spec (lower g) "male") as [E | _]; [by destruct Hmale |].
      destruct Hhip as [-> | ->]; reflexivity. }
    exact (dispatch_returns_result _ f _ _ Hf Hcall).
  - intros [name | cause]; unfold sentinel, failure_value, error_value; intros H;
      inversion H.
Qed.

End Dispatch.




Lemma dispatch_keeps_sentinel_witness :
  let kw := [("gender", VStr "Female"); ("waist_cm", VInt 70);
             ("neck_cm", VInt 30); ("height_cm", VInt 165)] in
  execute_function ascii_str (fun _ => "") (fun _ _ => Ok VNone) "calculate_body_fat_navy" (VDict kw)
  = Ok (error_value "Hip measurement required for females")
  /\ (forall f, error_value "Hip measurement required for females" <> failure_value f).
Proof.
  intros kw.
  apply (dispatch_keeps_sentinel ascii_str (fun _ => "") (fun _ _ => Ok VNone) "Female" kw).
  - reflexivity.
  - vm_compute. discriminate.
  - eexists. reflexivity.
  - eexists. reflexivity.
  - eexists. reflexivity.
  - left. reflexivity.
  - repeat constructor; cbn; set_solver.
Defined.

(** C2 as stated fails: the sentinel of [calculate_body_fat_navy] is not
    translated into the [ToolExecutionFailed] error value. *)
Lemma dispatch_sentinel_counterexample :
  let r := execute_function ascii_str (fun _ => "") (fun _ _ => Ok VNone) "calculate_body_fat_navy"
             (VDict [("gender", VStr "female"); ("waist_cm", VInt 70);
                     ("neck_cm", VInt 30); ("height_cm", VInt 165)]) in
  r = Ok (VDict [("error", VStr "Hip measurement required for females")])
  /\ (forall cause, r <> Ok (failure_value (ToolExecutionFailed cause))).
Proof.
  intros r. split; [vm_compute; reflexivity |].
  intros cause H. vm_compute in H. inversion H.
Qed.

End DispatcherFacts.

(** ** The session handlers *)

Module SessionFacts.

Import ToolRegistry ChainlitApp Spec.
Local Open Scope list_scope.

Lemma holds_conversation w a hist shown :
  holds w a hist shown -> conversation w = Some hist.
Proof. intros (Hs & Hh & _). unfold conversation. rewrite Hs. exact Hh. Qed.

Lemma holds_ui w a hist shown : holds w a hist shown -> ui w = shown.
Proof. by intros (_ & _ & ?). Qed.

(** *** Stepping through a computation *)

Lemma bind_ok {A B} (m : M A) (f : A -> M B) (w w' : world) (x : A) :
  m w = (Ok x, w') -> (m ≫= f) w = f x w'.
Proof. intros H. unfold mbind, M_bind, bindM. by rewrite H. Qed.

Lemma bind_raise {A B} (m : M A) (f : A -> M B) (w w' : world) (e : exn) :
  m w = (Raise e, w') -> (m ≫= f) w = (Raise e, w').
Proof. intros H. unfold mbind, M_bind, bindM. by rewrite H. Qed.

Lemma list_append_spec w a hist shown (m : message) :
  holds w a hist shown ->
  exists w', list_append (Some a) m w = (Ok tt, w') /\ holds w' a (hist ++ [m]) shown.
Proof.
  intros (Hs & Hh & Hu). eexists. split; [reflexivity |].
  unfold holds. cbn. split; [exact Hs | split; [| exact Hu]].
  by rewrite lookup_alter_eq, Hh.
Qed.

Lemma list_read_spec w a hist shown :
  holds w a hist shown -> list_read (Some a) w = (Ok hist, w).
Proof. intros (_ & Hh & _). unfold list_read. cbn. by rewrite Hh. Qed.

Lemma ui_send_spec w a hist shown (c : string) :
  holds w a hist shown ->
  exists w', ui_send c w = (Ok (length shown), w') /\ holds w' a hist (shown ++ [c]).
Proof.
  intros (Hs & Hh & <-). eexists. split; [reflexivity |].
  unfold holds. cbn. split; [exact Hs | split; [exact Hh | reflexivity]].
Qed.

Lemma stream_token_spec w a hist shown (c t : string) :
  holds w a hist (shown ++ [c]) ->
  exists w', stream_token (length shown) t w = (Ok tt, w')
             /\ holds w' a hist (shown ++ [c +:+ t]).
Proof.
  intros (Hs & Hh & Hu). eexists. split; [reflexivity |].
  unfold holds. cbn. split; [exact Hs | split; [exact Hh |]].
  rewrite Hu. replace (length shown) with (length shown + 0)%nat by lia.
  by rewrite alter_app_r.
Qed.

Lemma msg_content_spec w a hist shown (c : string) :
  holds w a hist (shown ++ [c]) -> msg_content (length shown) w = (Ok c, w).
Proof.
  intros (_ & _ & Hu). unfold msg_content. rewrite Hu.
  by rewrite list_lookup_middle.
Qed.

Lemma session_set_spec w a hist shown :
  holds w a hist shown ->
  exists w', session_set "messages" (Some a) w = (Ok tt, w') /\ holds w' a hist shown.
Proof.
  intros (Hs & Hh & Hu). eexists. split; [reflexivity |].
  unfold holds. cbn. split; [by rewrite lookup_insert_eq | split; [exact Hh | exact Hu]].
Qed.

Lemma stream_token_opt_spec w a hist shown (c : string) (t : option string) :
  holds w a hist (shown ++ [c]) ->
  exists w' c', stream_token_opt (length shown) t w = (Ok tt, w')
                /\ holds w' a hist (shown ++ [c']).
Proof.
  intros H. destruct t as [t |]; [| by exists w, c].
  destruct (stream_token_spec _ _ _ _ _ t H) as (w' & E & H'). eauto.
Qed.

Lemma show_chunk_spec w a hist shown (c : string) (chunk : option string) :
  holds w a hist (shown ++ [c]) ->
  exists w' c', show_chunk (length shown) chunk w = (Ok tt, w')
                /\ holds w' a hist (shown ++ [c']).
Proof.
  intros H. unfold show_chunk.
  destruct chunk as [t |]; [destruct (String.eqb t "") |]; try (by exists w, c).
  destruct (stream_token_spec _ _ _ _ _ t H) as (w' & E & H'). eauto.
Qed.

Lemma show_chunks_spec (chunks : list (option string)) w a hist shown (c : string) :
  holds w a hist (shown ++ [c]) ->
  exists w' c', for_each chunks (show_chunk (length shown)) w = (Ok tt, w')
                /\ holds w' a hist (shown ++ [c']).
Proof.
  revert w c. induction chunks as [| chunk chunks IH]; intros w c H; [by exists w, c |].
  destruct (show_chunk_spec _ _ _ _ _ chunk H) as (w1 & c1 & E1 & H1).
  destruct (IH _ _ H1) as (w2 & c2 & E2 & H2).
  exists w2, c2. split; [| exact H2].
  cbn [for_each]. by rewrite (bind_ok _ _ _ _ _ E1).
Qed.

Lemma lift_spec {A} (o : outcome A) (w : world) : lift o w = (o, w).
Proof. reflexivity. Qed.

(** Rewrites the first step of a computation with its known result. *)
Ltac step H :=
  cbv beta zeta;
  first [ rewrite (bind_ok _ _ _ _ _ H) | rewrite (bind_raise _ _ _ _ _ H) ];
  cbv beta zeta.

Section Turn.

Variable sm : str_methods.
Variable str_of : value -> string.
Variable other_body : string -> (string -> value) -> outcome value.
Variable json_loads : string -> outcome value.
Variable json_dumps : value -> string.

Local Abbreviation execute_function := (execute_function sm str_of other_body).
Local Abbreviation run_tool := (run_tool sm str_of other_body json_loads json_dumps).
Local Abbreviation respond := (respond sm str_of other_body json_loads json_dumps).
Local Abbreviation main := (main sm str_of other_body json_loads json_dumps).
Local Abbreviation tool_reply := (tool_reply sm str_of other_body json_loads json_dumps).
Local Abbreviation run_turns := (run_turns sm str_of other_body json_loads json_dumps).

(** The Dispatcher returns a value for every name and every arguments. *)
Lemma execute_function_total (name : string) (arguments : value) :
  exists v, execute_function name arguments = Ok v.
Proof.
  unfold ToolRegistry.execute_function.
  destruct (_ !! name) as [f |]; [| eauto].
  destruct (call f arguments); cbn; eauto.
Qed.

Lemma tool_reply_shape (tc : tool_call) (m : message) :
  tool_reply tc = Ok m -> exists content, m = ToolMsg (tc_id tc) (tc_name tc) content.
Proof.
  unfold Spec.tool_reply.
  destruct (json_loads _); [| discriminate]. cbn [mbind outcome_bind].
  destruct (ToolRegistry.execute_function _ _ _ _); [| discriminate].
  intros [= <-]. eauto.
Qed.

Lemma tool_replies_shape (tcs : list tool_call) (results : list message) :
  map_outcome tool_reply tcs = Ok results ->
  Forall2 (fun tc m => exists content, m = ToolMsg (tc_id tc) (tc_name tc) content)
    tcs results.
Proof.
  revert results. induction tcs as [| tc tcs IH]; intros results; cbn [map_outcome].
  - intros [= <-]. constructor.
  - destruct (tool_reply tc) as [m |] eqn:Hm; [| discriminate]. cbn [mbind outcome_bind].
    destruct (map_outcome tool_reply tcs) as [ms |]; [| discriminate].
    intros [= <-]. constructor; [by apply tool_reply_shape | by apply IH].
Qed.

Lemma run_tool_ok w a hist shown (c : string) (tc : tool_call) (m : message) :
  holds w a hist (shown ++ [c]) -> tool_reply tc = Ok m ->
  exists w', run_tool (Some a) (length shown) tc w = (Ok tt, w')
             /\ holds w' a (hist ++ [m]) (shown ++ [c +:+ tool_banner (tc_name tc)]).
Proof.
  intros H. unfold Spec.tool_reply, ChainlitApp.run_tool.
  destruct (json_loads _) as [args |]; [| discriminate]. cbn [mbind outcome_bind].
  destruct (ToolRegistry.execute_function _ _ _ _) as [v |] eqn:Hv; [| discriminate].
  intros [= <-].
  step (lift_spec (Ok args) w).
  destruct (stream_token_spec _ _ _ _ _ (tool_banner (tc_name tc)) H) as (w1 & E1 & H1).
  step E1. rewrite Hv. step (lift_spec (Ok v) w1).
  exact (list_append_spec _ _ _ _ _ H1).
Qed.

Lemma run_tool_raise w (messages : option loc) (msg : nat) (tc : tool_call) (e : exn) :
  tool_reply tc = Raise e -> run_tool messages msg tc w = (Raise e, w).
Proof.
  unfold Spec.tool_reply, ChainlitApp.run_tool.
  destruct (json_loads _) as [args |].
  - cbn [mbind outcome_bind].
    destruct (execute_function_total (tc_name tc) args) as [v ->]. discriminate.
  - intros [= <-]. by step (lift_spec (@Raise value e0) w).
Qed.

Lemma tools_ok (tcs : list tool_call) (results : list message) w a hist shown (c : string) :
  map_outcome tool_reply tcs = Ok results ->
  holds w a hist (shown ++ [c]) ->
  exists w' c', for_each tcs (run_tool (Some a) (length shown)) w = (Ok tt, w')
                /\ holds w' a (hist ++ results) (shown ++ [c']).
Proof.
  revert results w hist c. induction tcs as [| tc tcs IH]; intros results w hist c;
    cbn [map_outcome for_each].
  - intros [= <-] H. exists w, c. by rewrite app_nil_r.
  - destruct (tool_reply tc) as [m |] eqn:Hm; [| discriminate]. cbn [mbind outcome_bind].
    destruct (map_outcome tool_reply tcs) as [ms |] eqn:Hms; [| discriminate].
    intros [= <-] H.
    destruct (run_tool_ok _ _ _ _ _ _ _ H Hm) as (w1 & E1 & H1).
    destruct (IH _ _ _ _ eq_refl H1) as (w2 & c2 & E2 & H2).
    exists w2, c2. step E1. split; [exact E2 |].
    by rewrite <- app_assoc in H2.
Qed.

(** A tool call whose arguments cannot be decoded stops the loop: fewer
    tool results than tool calls have been appended by then. *)
Lemma tools_raise (tcs : list tool_call) (e : exn) w a hist shown (c : string) :
  map_outcome tool_reply tcs = Raise e ->
  holds w a hist (shown ++ [c]) ->
  exists w' new c',
    for_each tcs (run_tool (Some a) (length shown)) w = (Raise e, w')
    /\ holds w' a (hist ++ new) (shown ++ [c'])
    /\ (length new < length tcs)%nat.
Proof.
  revert w hist c. induction tcs as [| tc tcs IH]; intros w hist c;
    cbn [map_outcome for_each]; [discriminate |].
  destruct (tool_reply tc) as [m | e'] eqn:Hm; cbn [mbind outcome_bind].
  - destruct (map_outcome tool_reply tcs) as [ms | e'] eqn:Hms; [discriminate |].
    intros [= ->] H.
    destruct (run_tool_ok _ _ _ _ _ _ _ H Hm) as (w1 & E1 & H1).
    destruct (IH _ _ _ eq_refl H1) as (w2 & new & c2 & E2 & H2 & Hlen).
    exists w2, (m :: new), c2. step E1.
    split; [exact E2 | split; [by rewrite <- app_assoc in H2 | cbn; lia]].
  - intros [= ->] H. exists w, [], c.
    step (run_tool_raise w (Some a) (length shown) tc e Hm).
    rewrite app_nil_r. split; [reflexivity | split; [exact H | cbn; lia]].
Qed.

(** Whatever the tool calls are, the loop only appends tool results. *)
Lemma tools_any (tcs : list tool_call) w a hist shown (c : string) :
  holds w a hist (shown ++ [c]) ->
  exists o w' new c',
    for_each tcs (run_tool (Some a) (length shown)) w = (o, w')
    /\ holds w' a (hist ++ new) (shown ++ [c'])
    /\ Forall (fun m => role m = "tool") new.
Proof.
  revert w hist c. induction tcs as [| tc tcs IH]; intros w hist c H; cbn [for_each].
  - exists (Ok tt), w, [], c. rewrite app_nil_r.
    split; [reflexivity | split; [exact H | constructor]].
  - destruct (tool_reply tc) as [m | e] eqn:Hm.
    + destruct (run_tool_ok _ _ _ _ _ _ _ H Hm) as (w1 & E1 & H1).
      destruct (IH _ _ _ H1) as (o & w2 & new & c2 & E2 & H2 & Hnew).
      exists o, w2, (m :: new), c2. step E1.
      split; [exact E2 |]. split; [by rewrite <- app_assoc in H2 |].
      constructor; [| exact Hnew].
      by destruct (tool_reply_shape _ _ Hm) as [content ->].
    + exists (Raise e), w, [], c. step (run_tool_raise w (Some a) (length shown) tc e Hm).
      rewrite app_nil_r. split; [reflexivity | split; [exact H | constructor]].
Qed.

(** The second call and what follows it. *)
Lemma final_answer_spec (mdl : model) w a hist shown (c : string) :
  holds w a hist (shown ++ [c]) ->
  exists w' c',
    match stream_failure (create_stream mdl hist) with
    | Some e =>
        final_answer mdl (Some a) (length shown) w = (Raise e, w')
        /\ holds w' a hist (shown ++ [c'])
    | None =>
        final_answer mdl (Some a) (length shown) w = (Ok tt, w')
        /\ holds w' a (hist ++ [Msg "assistant" (Some c')]) (shown ++ [c'])
    end.
Proof.
  intros H. unfold final_answer. step (list_read_spec _ _ _ _ H).
  destruct (create_stream mdl hist) as [[chunks failure] | e]; cbn [stream_failure].
  - step (lift_spec (Ok (chunks, failure)) w). cbn [fst snd].
    destruct (show_chunks_spec chunks _ _ _ _ _ H) as (w1 & c1 & E1 & H1).
    step E1. destruct failure as [e |].
    + exists w1, c1. step (lift_spec (@Raise unit e) w1). by split.
    + step (eq_refl : retM tt w1 = (Ok tt, w1)).
      step (msg_content_spec _ _ _ _ _ H1).
      destruct (list_append_spec _ _ _ _ (Msg "assistant" (Some c1)) H1) as (w2 & E2 & H2).
      exists w2, c1. by split.
  - exists w, c.
    step (lift_spec (@Raise (list (option string) * option exn) e) w). by split.
Qed.

(** The first call fails: nothing is appended by the statements under
    [try]. *)
Lemma respond_create_fails (mdl : model) w a hist shown (c : string) (e : exn) :
  holds w a hist (shown ++ [c]) -> create mdl hist = Raise e ->
  respond mdl (Some a) (length shown) w = (Raise e, w).
Proof.
  intros H He. unfold ChainlitApp.respond. step (list_read_spec _ _ _ _ H).
  rewrite He. by step (lift_spec (@Raise response_message e) w).
Qed.

(** The first call answers with tool calls that all get a reply: the
    statements under [try] append the assistant message and the replies,
    and then the final assistant message unless the second call fails. *)
Lemma respond_tools (mdl : model) w a hist shown (c : string)
    (rm : response_message) (tcs : list tool_call) (results : list message) :
  holds w a hist (shown ++ [c]) ->
  create mdl hist = Ok rm -> rm_tool_calls rm = Some tcs -> tcs <> [] ->
  map_outcome tool_reply tcs = Ok results ->
  let hist2 := hist ++ ResponseMsg rm :: results in
  exists w' c',
    match stream_failure (create_stream mdl hist2) with
    | Some e =>
        respond mdl (Some a) (length shown) w = (Raise e, w')
        /\ holds w' a hist2 (shown ++ [c'])
    | None =>
        respond mdl (Some a) (length shown) w = (Ok tt, w')
        /\ holds w' a (hist2 ++ [Msg "assistant" (Some c')]) (shown ++ [c'])
    end.
Proof.
  intros H Hrm Htcs Hne Hres hist2. unfold ChainlitApp.respond.
  step (list_read_spec _ _ _ _ H). rewrite Hrm.
  step (lift_spec (Ok rm) w). rewrite Htcs.
  destruct tcs as [| tc tcs]; [done |].
  destruct (list_append_spec _ _ _ _ (ResponseMsg rm) H) as (w1 & E1 & H1).
  destruct (tools_ok _ _ _ _ _ _ _ Hres H1) as (w2 & c2 & E2 & H2).
  rewrite <- app_assoc in H2. change ([ResponseMsg rm] ++ results) with
    (ResponseMsg rm :: results) in H2. fold hist2 in H2.
  destruct (final_answer_spec mdl _ _ _ _ _ H2) as (w3 & c3 & H3).
  destruct (stream_failure (create_stream mdl hist2)) as [e |].
  - destruct H3 as [E3 H3]. exists w3, c3. split; [| exact H3].
    erewrite bind_raise; [reflexivity |].
    step E1. step E2. exact E3.
  - destruct H3 as [E3 H3].
    destruct (session_set_spec _ _ _ _ H3) as (w4 & E4 & H4).
    exists w4, c3. split; [| exact H4].
    erewrite bind_ok; [| step E1; step E2; exact E3].
    cbv beta. step (eq_refl : msg_update (length shown) w3 = (Ok tt, w3)). exact E4.
Qed.

(** The first call answers with tool calls and one of them cannot be
    answered: the statements under [try] raise, after the assistant
    message and fewer tool results than tool calls have been appended. *)
Lemma respond_tools_undecodable (mdl : model) w a hist shown (c : string)
    (rm : response_message) (tcs : list tool_call) (e : exn) :
  holds w a hist (shown ++ [c]) ->
  create mdl hist = Ok rm -> rm_tool_calls rm = Some tcs ->
  map_outcome tool_reply tcs = Raise e ->
  exists w' new c',
    respond mdl (Some a) (length shown) w = (Raise e, w')
    /\ holds w' a (hist ++ ResponseMsg rm :: new) (shown ++ [c'])
    /\ (length new < length tcs)%nat.
Proof.
  intros H Hrm Htcs Hres. unfold ChainlitApp.respond.
  step (list_read_spec _ _ _ _ H). rewrite Hrm.
  step (lift_spec (Ok rm) w). rewrite Htcs.
  destruct tcs as [| tc tcs]; [discriminate |].
  destruct (list_append_spec _ _ _ _ (ResponseMsg rm) H) as (w1 & E1 & H1).
  destruct (tools_raise _ _ _ _ _ _ _ Hres H1) as (w2 & new & c2 & E2 & H2 & Hlen).
  rewrite <- app_assoc in H2.
  exists w2, new, c2. split; [| split; [exact H2 | exact Hlen]].
  erewrite bind_raise; [reflexivity |]. step E1. by step E2.
Qed.

(** Conversely, when the statements under [try] return in a turn with
    tool calls, every call got its reply and the second call succeeded. *)
Lemma respond_completed_tools (mdl : model) w a hist shown (c : string)
    (rm : response_message) (tcs : list tool_call) :
  holds w a hist (shown ++ [c]) ->
  create mdl hist = Ok rm -> rm_tool_calls rm = Some tcs -> tcs <> [] ->
  (respond mdl (Some a) (length shown) w).1 = Ok tt ->
  exists results chunks,
    map_outcome tool_reply tcs = Ok results
    /\ create_stream mdl (hist ++ ResponseMsg rm :: results) = Ok (chunks, None).
Proof.
  intros H Hrm Htcs Hne Hok.
  destruct (map_outcome tool_reply tcs) as [results | e] eqn:Hres.
  - destruct (respond_tools mdl _ _ _ _ _ rm tcs results H Hrm Htcs Hne Hres)
      as (w' & c' & Hcase).
    destruct (create_stream mdl (hist ++ ResponseMsg rm :: results))
      as [[chunks [e |]] | e] eqn:Hstream; cbn [stream_failure] in Hcase.
    + destruct Hcase as [E _]. rewrite E in Hok. discriminate.
    + exists results, chunks. split; [reflexivity | exact Hstream].
    + destruct Hcase as [E _]. rewrite E in Hok. discriminate.
  - destruct (respond_tools_undecodable mdl _ _ _ _ _ rm tcs e H Hrm Htcs Hres)
      as (w' & new & c' & E & _).
    rewrite E in Hok. discriminate.
Qed.

(** Whatever the model does, the statements under [try] only append, and
    nothing they append has the role system. *)
Lemma respond_any (mdl : model) w a hist shown (c : string) :
  holds w a hist (shown ++ [c]) ->
  exists o w' new c',
    respond mdl (Some a) (length shown) w = (o, w')
    /\ holds w' a (hist ++ new) (shown ++ [c'])
    /\ Forall (fun m => role m <> "system") new.
Proof.
  intros H. unfold ChainlitApp.respond. step (list_read_spec _ _ _ _ H).
  destruct (create mdl hist) as [rm | e].
  2:{ exists (Raise e), w, [], c. step (lift_spec (@Raise response_message e) w).
      rewrite app_nil_r. split; [reflexivity | split; [exact H | constructor]]. }
  step (lift_spec (Ok rm) w).
  assert (Hplain :
    exists w' c',
      ((list_append (Some a) (Msg "assistant" (rm_content rm));;
        stream_token_opt (length shown) (rm_content rm));;
       msg_update (length shown);; session_set "messages" (Some a)) w = (Ok tt, w')
      /\ holds w' a (hist ++ [Msg "assistant" (rm_content rm)]) (shown ++ [c'])).
  { destruct (list_append_spec _ _ _ _ (Msg "assistant" (rm_content rm)) H)
      as (w1 & E1 & H1).
    destruct (stream_token_opt_spec _ _ _ _ _ (rm_content rm) H1) as (w2 & c2 & E2 & H2).
    destruct (session_set_spec _ _ _ _ H2) as (w3 & E3 & H3).
    exists w3, c2. split; [| exact H3].
    erewrite bind_ok; [| step E1; exact E2].
    cbv beta. step (eq_refl : msg_update (length shown) w2 = (Ok tt, w2)). exact E3. }
  destruct (rm_tool_calls rm) as [[| tc tcs] |].
  1,3: destruct Hplain as (w' & c' & E & H');
       exists (Ok tt), w', [Msg "assistant" (rm_content rm)], c';
       (split; [exact E | split; [exact H' | by repeat constructor]]).
  clear Hplain.
  destruct (list_append_spec _ _ _ _ (ResponseMsg rm) H) as (w1 & E1 & H1).
  destruct (tools_any (tc :: tcs) _ _ _ _ _ H1) as (o2 & w2 & new & c2 & E2 & H2 & Hnew).
  assert (Hroles : Forall (fun m => role m <> "system") (ResponseMsg rm :: new)).
  { constructor; [discriminate |].
    eapply Forall_impl; [exact Hnew |]. intros m ->. discriminate. }
  rewrite <- app_assoc in H2.
  destruct o2 as [[] | e].
  2:{ exists (Raise e), w2, (ResponseMsg rm :: new), c2.
      split; [| split; [exact H2 | exact Hroles]].
      erewrite bind_raise; [reflexivity |]. step E1. by step E2. }
  destruct (final_answer_spec mdl _ _ _ _ _ H2) as (w3 & c3 & H3).
  destruct (stream_failure (create_stream mdl _)) as [e |]; destruct H3 as [E3 H3].
  - exists (Raise e), w3, (ResponseMsg rm :: new), c3.
    split; [| split; [exact H3 | exact Hroles]].
    erewrite bind_raise; [reflexivity |]. step E1. step E2. exact E3.
  - destruct (session_set_spec _ _ _ _ H3) as (w4 & E4 & H4).
    exists (Ok tt), w4, ((ResponseMsg rm :: new) ++ [Msg "assistant" (Some c3)]), c3.
    split; [| split].
    + erewrite bind_ok; [| step E1; step E2; exact E3].
      cbv beta. step (eq_refl : msg_update (length shown) w3 = (Ok tt, w3)). exact E4.
    + by rewrite <- app_assoc in H4.
    + apply Forall_app_2; [exact Hroles | by repeat constructor].
Qed.

(** The statements of [main] before [try]: the user message is appended
    and an empty placeholder is shown. *)
Lemma main_prelude (mdl : model) (text : string) w a hist shown :
  holds w a hist shown ->
  exists w1,
    holds w1 a (hist ++ [Msg "user" (Some text)]) (shown ++ [""])
    /\ main mdl text w = try_catch (respond mdl (Some a) (length shown)) report w1.
Proof.
  intros H. unfold ChainlitApp.main.
  assert (Hget : session_get "messages" w = (Ok (Some a), w))
    by (unfold session_get; by rewrite (proj1 H)).
  destruct (list_append_spec _ _ _ _ (Msg "user" (Some text)) H) as (w1 & E1 & H1).
  destruct (ui_send_spec _ _ _ _ "" H1) as (w2 & E2 & H2).
  exists w2. split; [exact H2 |].
  step Hget. step E1. by step E2.
Qed.

Lemma report_spec (e : exn) w a hist shown :
  holds w a hist shown ->
  exists w', report e w = (Ok tt, w')
             /\ holds w' a hist (shown ++ ["❌ Error: " +:+ exn_str e]).
Proof.
  intros H. unfold report.
  destruct (ui_send_spec _ _ _ _ ("❌ Error: " +:+ exn_str e) H) as (w' & E & H').
  exists w'. split; [by step E | exact H'].
Qed.

(** A turn of a started session never raises, keeps what the history
    held, and appends the user message and messages of other roles than
    system. *)
Lemma main_any (mdl : model) (text : string) w a hist shown :
  holds w a hist shown ->
  exists w' new shown',
    main mdl text w = (Ok tt, w')
    /\ holds w' a (hist ++ Msg "user" (Some text) :: new) shown'
    /\ Forall (fun m => role m <> "system") new.
Proof.
  intros H.
  destruct (main_prelude mdl text _ _ _ _ H) as (w1 & H1 & ->).
  destruct (respond_any mdl _ _ _ _ _ H1) as (o & w2 & new & c & E2 & H2 & Hnew).
  rewrite <- app_assoc in H2. unfold try_catch. rewrite E2.
  destruct o as [[] | e].
  - by exists w2, new, (shown ++ [c]).
  - destruct (report_spec e _ _ _ _ H2) as (w3 & E3 & H3).
    by exists w3, new, ((shown ++ [c]) ++ ["❌ Error: " +:+ exn_str e]).
Qed.

Lemma start_spec (w0 : world) :
  exists w a, start w0 = (Ok tt, w)
              /\ holds w a [Msg "system" (Some SYSTEM_PROMPT)] (ui w0 ++ [WELCOME]).
Proof.
  eexists _, (fresh (dom (heap w0))). split; [reflexivity |].
  unfold holds. cbn. split; [| split; [| reflexivity]]; apply lookup_insert_eq.
Qed.

Lemma run_turns_any (turns : list (model * string)) w a hist shown :
  holds w a hist shown ->
  exists new shown',
    holds (run_turns turns w) a (hist ++ new) shown'
    /\ Forall (fun m => role m <> "system") new.
Proof.
  revert w hist shown. induction turns as [| [mdl text] turns IH]; intros w hist shown H.
  - exists [], shown. rewrite app_nil_r. split; [exact H | constructor].
  - destruct (main_any mdl text _ _ _ _ H) as (w1 & new1 & shown1 & E1 & H1 & Hnew1).
    destruct (IH _ _ _ H1) as (new2 & shown2 & H2 & Hnew2).
    exists ((Msg "user" (Some text) :: new1) ++ new2), shown2.
    unfold Spec.run_turns in *. cbn [foldl fst snd]. rewrite E1. cbn [snd].
    split; [by rewrite app_assoc |].
    apply Forall_app_2; [constructor; [discriminate | exact Hnew1] | exact Hnew2].
Qed.

(** C6: right after [start] the history is the system prompt alone; after
    any turns that follow, whatever the model does, it still begins with
    that message and holds no other message of role system. *)
Theorem system_prompt_stays_first (w0 : world) (turns : list (model * string)) :
  let system := Msg "system" (Some SYSTEM_PROMPT) in
  conversation (start w0).2 = Some [system]
  /\ exists rest,
       conversation (run_turns turns (start w0).2) = Some (system :: rest)
       /\ Forall (fun m => role m <> "system") rest.
Proof.
  intros system. destruct (start_spec w0) as (w & a & -> & H). cbn [snd]. split.
  - exact (holds_conversation _ _ _ _ H).
  - destruct (run_turns_any turns _ _ _ _ H) as (rest & shown' & H' & Hrest).
    exists rest. split; [exact (holds_conversation _ _ _ _ H') | exact Hrest].
Qed.

(** C3: in a turn where the model asks for the tool calls [tcs], every
    call gets its reply and the second call succeeds, the history grows by
    the user message, the assistant message carrying the tool calls, one
    tool_result message per tool call, in the order of the calls and with
    the id of its call, and the final assistant message. *)
Theorem tool_turn_appends (mdl : model) (text : string) w a hist shown
    (rm : response_message) (tcs : list tool_call) (results : list message)
    (chunks : list (option string)) :
  let user := Msg "user" (Some text) in
  holds w a hist shown ->
  create mdl (hist ++ [user]) = Ok rm -> rm_tool_calls rm = Some tcs -> tcs <> [] ->
  map_outcome tool_reply tcs = Ok results ->
  create_stream mdl (hist ++ [user; ResponseMsg rm] ++ results) = Ok (chunks, None) ->
  exists w' final,
    main mdl text w = (Ok tt, w')
    /\ conversation w'
       = Some (hist ++ [user; ResponseMsg rm] ++ results ++ [Msg "assistant" (Some final)])
    /\ length results = length tcs
    /\ Forall2 (fun tc m => exists content, m = ToolMsg (tc_id tc) (tc_name tc) content)
         tcs results.
Proof.
  intros user H Hrm Htcs Hne Hres Hstream.
  destruct (main_prelude mdl text _ _ _ _ H) as (w1 & H1 & ->).
  destruct (respond_tools mdl _ _ _ _ _ rm tcs results H1 Hrm Htcs Hne Hres)
    as (w2 & final & H2).
  rewrite <- app_assoc in H2. change ([Msg "user" (Some text)] ++ ?l) with (user :: l) in H2.
  change (hist ++ [user; ResponseMsg rm] ++ results)
    with (hist ++ user :: ResponseMsg rm :: results) in Hstream.
  rewrite Hstream in H2. cbn [stream_failure] in H2. destruct H2 as [E2 H2].
  exists w2, final. unfold try_catch. rewrite E2.
  pose proof (tool_replies_shape _ _ Hres) as Hshape.
  split; [reflexivity | split; [| split; [| exact Hshape]]].
  - rewrite (holds_conversation _ _ _ _ H2). by rewrite <- app_assoc.
  - symmetry. exact (Forall2_length _ _ _ Hshape).
Qed.

(** C1, as amended: when a model call fails, the turn ends with one error
    message shown after the placeholder, and the history keeps what was
    appended before the failure: the user message when the first call
    fails; the user message, the assistant message carrying the tool calls
    and the tool results when the second call fails, at once or while its
    stream is read.  No final assistant message is appended and the
    messages from before the turn are untouched. *)
Theorem failed_call_keeps_appends (mdl : model) (text : string) w a hist shown (e : exn) :
  let user := Msg "user" (Some text) in
  holds w a hist shown ->
  (create mdl (hist ++ [user]) = Raise e ->
   exists w',
     main mdl text w = (Ok tt, w')
     /\ conversation w' = Some (hist ++ [user])
     /\ ui w' = shown ++ [""; "❌ Error: " +:+ exn_str e])
  /\ (forall rm tcs results,
        create mdl (hist ++ [user]) = Ok rm -> rm_tool_calls rm = Some tcs -> tcs <> [] ->
        map_outcome tool_reply tcs = Ok results ->
        stream_failure (create_stream mdl (hist ++ [user; ResponseMsg rm] ++ results))
          = Some e ->
        exists w' c,
          main mdl text w = (Ok tt, w')
          /\ conversation w' = Some (hist ++ [user; ResponseMsg rm] ++ results)
          /\ ui w' = shown ++ [c; "❌ Error: " +:+ exn_str e]).
Proof.
  intros user H.
  destruct (main_prelude mdl text _ _ _ _ H) as (w1 & H1 & ->). split.
  - intros He.
    destruct (report_spec e _ _ _ _ H1) as (w2 & E2 & H2).
    exists w2. unfold try_catch. rewrite (respond_create_fails mdl _ _ _ _ _ e H1 He).
    split; [exact E2 | split].
    + exact (holds_conversation _ _ _ _ H2).
    + rewrite (holds_ui _ _ _ _ H2). by rewrite <- app_assoc.
  - intros rm tcs results Hrm Htcs Hne Hres Hfail.
    destruct (respond_tools mdl _ _ _ _ _ rm tcs results H1 Hrm Htcs Hne Hres)
      as (w2 & c & H2).
    rewrite <- app_assoc in H2. change ([Msg "user" (Some text)] ++ ?l) with (user :: l) in H2.
    change (hist ++ [user; ResponseMsg rm] ++ results)
      with (hist ++ user :: ResponseMsg rm :: results) in Hfail.
    rewrite Hfail in H2. destruct H2 as [E2 H2].
    destruct (report_spec e _ _ _ _ H2) as (w3 & E3 & H3).
    exists w3, c. unfold try_catch. rewrite E2.
    split; [exact E3 | split].
    + exact (holds_conversation _ _ _ _ H3).
    + rewrite (holds_ui _ _ _ _ H3). by rewrite <- app_assoc.
Qed.

End Turn.

Lemma example_world_holds : holds example_world 1%positive [] [].
Proof. split; [| split]; reflexivity. Qed.

Lemma tool_turn_appends_witness :
  let mdl := {| create := fun _ => Ok example_request;
                create_stream := fun _ => Ok ([Some "No such tool."], None) |} in
  exists w' final,
    example_main mdl "hi" example_world = (Ok tt, w')
    /\ conversation w'
       = Some ([] ++ [Msg "user" (Some "hi"); ResponseMsg example_request]
                  ++ [ToolMsg "call_1" "unknown_tool" "{}"]
                  ++ [Msg "assistant" (Some final)])
    /\ length [ToolMsg "call_1" "unknown_tool" "{}"] = length [example_call]
    /\ Forall2 (fun tc m => exists content, m = ToolMsg (tc_id tc) (tc_name tc) content)
         [example_call] [ToolMsg "call_1" "unknown_tool" "{}"].
Proof.
  intros mdl.
  apply (tool_turn_appends ascii_str (fun _ => "") (fun _ _ => Ok VNone) (fun _ => Ok (VDict []))
           (fun _ => "{}") mdl "hi" example_world 1%positive [] [] example_request
           [example_call] [ToolMsg "call_1" "unknown_tool" "{}"] [Some "No such tool."]).
  - exact example_world_holds.
  - reflexivity.
  - reflexivity.
  - discriminate.
  - vm_compute. reflexivity.
  - reflexivity.
Defined.

Lemma failed_call_keeps_appends_witness :
  let boom := Exn APIError "Connection error." in
  let first_fails := {| create := fun _ => Raise boom;
                        create_stream := fun _ => Ok ([], None) |} in
  let second_fails := {| create := fun _ => Ok example_request;
                         create_stream := fun _ => Ok ([Some "No"], Some boom) |} in
  (exists w',
     example_main first_fails "hi" example_world = (Ok tt, w')
     /\ conversation w' = Some ([] ++ [Msg "user" (Some "hi")])
     /\ ui w' = [] ++ [""; "❌ Error: " +:+ exn_str boom])
  /\ (exists w' c,
        example_main second_fails "hi" example_world = (Ok tt, w')
        /\ conversation w'
           = Some ([] ++ [Msg "user" (Some "hi"); ResponseMsg example_request]
                      ++ [ToolMsg "call_1" "unknown_tool" "{}"])
        /\ ui w' = [] ++ [c; "❌ Error: " +:+ exn_str boom]).
Proof.
  intros boom first_fails second_fails. split.
  - apply (failed_call_keeps_appends ascii_str (fun _ => "") (fun _ _ => Ok VNone)
             (fun _ => Ok (VDict [])) (fun _ => "{}") first_fails "hi" example_world
             1%positive [] [] boom example_world_holds).
    reflexivity.
  - apply (proj2 (failed_call_keeps_appends ascii_str (fun _ => "") (fun _ _ => Ok VNone)
             (fun _ => Ok (VDict [])) (fun _ => "{}") second_fails "hi" example_world
             1%positive [] [] boom example_world_holds)
             example_request [example_call] [ToolMsg "call_1" "unknown_tool" "{}"]).
    + reflexivity.
    + reflexivity.
    + discriminate.
    + vm_compute. reflexivity.
    + reflexivity.
Defined.

(** C1 as stated fails: after a turn whose first model call fails, the
    history is not what it was before the turn; it has gained the user
    message. *)
Lemma failed_call_counterexample :
  let mdl := {| create := fun _ => Raise (Exn APIError "Connection error.");
                create_stream := fun _ => Ok ([], None) |} in
  let before := (start (World ∅ ∅ [])).2 in
  let after := (example_main mdl "hi" before).2 in
  conversation before = Some [Msg "system" (Some SYSTEM_PROMPT)]
  /\ conversation after
     = Some [Msg "system" (Some SYSTEM_PROMPT); Msg "user" (Some "hi")]
  /\ conversation after <> conversation before.
Proof.
  intros mdl before after.
  assert (Hb : conversation before = Some [Msg "system" (Some SYSTEM_PROMPT)])
    by (vm_compute; reflexivity).
  assert (Ha : conversation after
               = Some [Msg "system" (Some SYSTEM_PROMPT); Msg "user" (Some "hi")])
    by (vm_compute; reflexivity).
  split; [exact Hb | split; [exact Ha |]].
  rewrite Ha, Hb. intros H. inversion H.
Qed.

(** The scenario of the specification: two tool calls, [calculate_bmi]
    and [calculate_tdee], give the roles system, user, assistant, tool,
    tool, assistant, and the tool results answer the calls in order. *)
Example two_tool_calls_scenario :
  let calls := [ {| tc_id := "call_1"; tc_name := "calculate_bmi"; tc_arguments := "{}" |};
                 {| tc_id := "call_2"; tc_name := "calculate_tdee"; tc_arguments := "{}" |} ] in
  let mdl := {| create := fun _ => Ok {| rm_content := None; rm_tool_calls := Some calls |};
                create_stream := fun _ => Ok ([Some "Your BMI "; None; Some "is fine."], None) |} in
  let after := (example_main mdl "hi" (start (World ∅ ∅ [])).2).2 in
  match conversation after with
  | Some history =>
      map role history = ["system"; "user"; "assistant"; "tool"; "tool"; "assistant"]
      /\ history !! 3%nat = Some (ToolMsg "call_1" "calculate_bmi" "{}")
      /\ history !! 4%nat = Some (ToolMsg "call_2" "calculate_tdee" "{}")
  | None => False
  end.
Proof. vm_compute. repeat split; reflexivity. Qed.

End SessionFacts.

(** * Further properties *)

Module OutcomeFacts.

Lemma Ok_inj {A} (a b : A) : Ok a = Ok b -> a = b.
Proof.
  intros H.
  exact (f_equal (fun o => match o with Ok x => x | Raise _ => a end) H).
Qed.

Lemma Ok_not_Raise {A} (a : A) (e : exn) : Ok a <> Raise e.
Proof.
  intros H.
  exact (eq_ind (Ok a) (fun o => match o with Ok _ => True | Raise _ => False end) I _ H).
Qed.

End OutcomeFacts.

(** ** Strings *)

Module StringFacts.

Import Terms.

(** Runs through the 256 characters. *)
Ltac each_char c := destruct c as [[] [] [] [] [] [] [] []]; try reflexivity; try discriminate.

Lemma to_lower_idem (c : ascii) : to_lower (to_lower c) = to_lower c.
Proof. each_char c. Qed.

Lemma to_lower_upper (c : ascii) : to_lower (to_upper c) = to_lower c.
Proof. each_char c. Qed.

Lemma is_space_to_lower (c : ascii) : is_space (to_lower c) = is_space c.
Proof. each_char c. Qed.

Lemma lower_idem (s : string) : lower (lower s) = lower s.
Proof.
  unfold lower. induction s as [| c s IH]; cbn; [reflexivity |].
  by rewrite to_lower_idem, IH.
Qed.

Lemma lower_upper (s : string) : lower (upper s) = lower s.
Proof.
  unfold lower, upper. induction s as [| c s IH]; cbn; [reflexivity |].
  by rewrite to_lower_upper, IH.
Qed.

Lemma append_nil (t : string) : "" +:+ t = t.
Proof. reflexivity. Qed.

Lemma append_cons (c : ascii) (s t : string) : String c s +:+ t = String c (s +:+ t).
Proof. reflexivity. Qed.

Lemma str_app_assoc (s t u : string) : (s +:+ t) +:+ u = s +:+ (t +:+ u).
Proof. induction s as [| c s IH]; [reflexivity |]. by rewrite !append_cons, IH. Qed.

Lemma str_app_nil_r (s : string) : s +:+ "" = s.
Proof. induction s as [| c s IH]; [reflexivity |]. by rewrite append_cons, IH. Qed.

Lemma lower_app (s t : string) : lower (s +:+ t) = lower s +:+ lower t.
Proof.
  unfold lower. induction s as [| c s IH]; [reflexivity |].
  rewrite append_cons. cbn [str_map]. by rewrite append_cons, IH.
Qed.

Lemma blank_lower (s : string) : blank (lower s) = blank s.
Proof.
  unfold lower. induction s as [| c s IH]; cbn; [reflexivity |].
  by rewrite is_space_to_lower, IH.
Qed.

Lemma lstrip_blank_app (pad s : string) : blank pad = true -> lstrip (pad +:+ s) = lstrip s.
Proof.
  induction pad as [| c pad IH]; [reflexivity |].
  cbn [blank]. intros [Hc Hpad]%andb_true_iff.
  rewrite append_cons. cbn [lstrip]. rewrite Hc. by apply IH.
Qed.

Lemma rstrip_blank (pad : string) : blank pad = true -> rstrip pad = "".
Proof.
  induction pad as [| c pad IH]; cbn; [reflexivity |].
  intros [Hc Hpad]%andb_true_iff. by rewrite IH, Hc.
Qed.

Lemma rstrip_app_blank (s pad : string) : blank pad = true -> rstrip (s +:+ pad) = rstrip s.
Proof.
  intros Hpad. induction s as [| c s IH]; [by apply rstrip_blank |].
  rewrite append_cons. cbn [rstrip]. by rewrite IH.
Qed.

Lemma lstrip_app_nonblank (s t : string) :
  lstrip s <> "" -> lstrip (s +:+ t) = lstrip s +:+ t.
Proof.
  induction s as [| c s IH]; [done |].
  rewrite append_cons. cbn [lstrip].
  destruct (is_space c); [exact IH | intros _; by rewrite append_cons].
Qed.

Lemma lstrip_blank (s : string) : lstrip s = "" -> blank s = true.
Proof.
  induction s as [| c s IH]; cbn; [reflexivity |].
  destruct (is_space c); [exact IH | discriminate].
Qed.

Lemma blank_lstrip (s : string) : blank s = true -> lstrip s = "".
Proof.
  induction s as [| c s IH]; cbn; [reflexivity |].
  intros [-> Hs]%andb_true_iff. by apply IH.
Qed.

(** Whitespace around a text does not survive [strip]. *)
Lemma strip_padded (before s after : string) :
  blank before = true -> blank after = true ->
  strip (before +:+ s +:+ after) = strip s.
Proof.
  intros Hb Ha. unfold strip. rewrite lstrip_blank_app by exact Hb.
  destruct (lstrip s) as [| c r] eqn:Hs.
  - rewrite lstrip_blank_app by (by apply lstrip_blank).
    by rewrite (blank_lstrip _ Ha).
  - rewrite lstrip_app_nonblank by (by rewrite Hs). rewrite Hs.
    by apply rstrip_app_blank.
Qed.

Ltac each_char_with c :=
  destruct c as [[] [] [] [] [] [] [] []]; cbn; intros;
  try reflexivity; try discriminate.

Lemma upper_of_lower (c : ascii) :
  is_lower c = true -> is_lower (to_upper c) = false /\ is_upper (to_upper c) = true.
Proof. each_char_with c; by split. Qed.

Lemma lower_of_upper (c : ascii) : is_upper c = true -> is_lower (to_lower c) = true.
Proof. each_char_with c. Qed.

Lemma lower_title_from (b : bool) (s : string) : lower (title_from b s) = lower s.
Proof.
  unfold lower. revert b. induction s as [| c s IH]; intros b; [reflexivity |].
  cbn [title_from str_map].
  destruct (is_lower c); [| destruct (is_upper c)]; cbn [str_map]; rewrite IH;
    destruct b; by rewrite ?to_lower_upper, ?to_lower_idem.
Qed.

Lemma lower_title (s : string) : lower (title s) = lower s.
Proof. apply lower_title_from. Qed.

Lemma title_from_idem (b : bool) (s : string) :
  title_from b (title_from b s) = title_from b s.
Proof.
  revert b. induction s as [| c s IH]; intros b; [reflexivity |].
  cbn [title_from].
  destruct (is_lower c) eqn:Hl; [| destruct (is_upper c) eqn:Hu].
  - destruct b; cbn [title_from].
    + by rewrite Hl, IH.
    + destruct (upper_of_lower c Hl) as [-> ->]. by rewrite IH.
  - destruct b; cbn [title_from].
    + by rewrite (lower_of_upper c Hu), IH.
    + by rewrite Hl, Hu, IH.
  - cbn [title_from]. by rewrite Hl, Hu, IH.
Qed.

Lemma title_idem (s : string) : title (title s) = title s.
Proof. apply title_from_idem. Qed.

(** ASCII characters stay ASCII. *)
Lemma ascii_to_lower (c : ascii) :
  (Ascii.N_of_ascii c <? 128)%N = true -> (Ascii.N_of_ascii (to_lower c) <? 128)%N = true.
Proof. each_char_with c. Qed.

Lemma ascii_to_upper (c : ascii) :
  (Ascii.N_of_ascii c <? 128)%N = true -> (Ascii.N_of_ascii (to_upper c) <? 128)%N = true.
Proof. each_char_with c. Qed.

Lemma is_ascii_lower (s : string) : is_ascii s = true -> is_ascii (lower s) = true.
Proof.
  unfold lower. induction s as [| c s IH]; cbn [is_ascii str_map]; [done |].
  intros [Hc Hs]%andb_true_iff. by rewrite (ascii_to_lower c Hc), IH.
Qed.

Lemma is_ascii_upper (s : string) : is_ascii s = true -> is_ascii (upper s) = true.
Proof.
  unfold upper. induction s as [| c s IH]; cbn [is_ascii str_map]; [done |].
  intros [Hc Hs]%andb_true_iff. by rewrite (ascii_to_upper c Hc), IH.
Qed.

Lemma is_ascii_title_from (b : bool) (s : string) :
  is_ascii s = true -> is_ascii (title_from b s) = true.
Proof.
  revert b. induction s as [| c s IH]; intros b; cbn [is_ascii title_from]; [done |].
  intros [Hc Hs]%andb_true_iff.
  destruct (is_lower c); [| destruct (is_upper c)]; cbn [is_ascii]; rewrite IH by exact Hs;
    destruct b; by rewrite ?(ascii_to_upper c Hc), ?(ascii_to_lower c Hc), ?Hc.
Qed.

Lemma is_ascii_title (s : string) : is_ascii s = true -> is_ascii (title s) = true.
Proof. apply is_ascii_title_from. Qed.

Lemma is_ascii_app (s t : string) :
  is_ascii s = true -> is_ascii t = true -> is_ascii (s +:+ t) = true.
Proof.
  intros Hs Ht. induction s as [| c s IH]; [exact Ht |].
  rewrite append_cons. cbn [is_ascii] in Hs |- *.
  apply andb_true_iff in Hs as [Hc Hs]. by rewrite Hc, IH.
Qed.

End StringFacts.

(** ** The lookup tools *)

Module LookupFacts.

Import NutritionTools MoreTools Spec Terms OutcomeFacts StringFacts.

Section Lookup.

(** The methods of [str] of the runtime. *)
Variable sm : str_methods.

Local Abbreviation get_nutrition_info := (get_nutrition_info sm).
Local Abbreviation get_healthy_alternatives := (get_healthy_alternatives sm).

(** What [get_nutrition_info] returns for a string. *)
Lemma get_nutrition_info_str (s : string) :
  get_nutrition_info (VStr s)
  = match dict_get nutrition_db (str_strip sm (str_lower sm s)) with
    | Some nutrition =>
        if truthy nutrition then
          Ok (VDict [("food", VStr (str_title sm s));
                     ("serving_size", VStr "100g");
                     ("nutrition", nutrition);
                     ("found", VBool true)])
        else
          Ok (VDict [("food", VStr s);
                     ("found", VBool false);
                     ("message", VStr "Food not found in database. Try a more common food item or check spelling.")])
    | None =>
        Ok (VDict [("food", VStr s);
                   ("found", VBool false);
                   ("message", VStr "Food not found in database. Try a more common food item or check spelling.")])
    end.
Proof.
  unfold NutritionTools.get_nutrition_info. cbn [str_meth mbind outcome_bind].
  destruct (dict_get _ _) as [n |]; [destruct (truthy n) |]; reflexivity.
Qed.

(** What [get_healthy_alternatives] returns for a string. *)
Lemma get_healthy_alternatives_str (s : string) :
  get_healthy_alternatives (VStr s)
  = let not_found :=
      Ok (VDict [("original_food", VStr s);
                 ("found", VBool false);
                 ("message", VStr "No specific alternatives in database. General tip: Choose whole foods over processed, grilled over fried.")]) in
    match dict_get alternatives (str_strip sm (str_lower sm s)) with
    | Some alt_data =>
        if truthy alt_data then
          alts ← getitem alt_data "alternatives";
          reason ← getitem alt_data "reason";
          Ok (VDict [("original_food", VStr s);
                     ("alternatives", alts);
                     ("reason", reason);
                     ("found", VBool true)])
        else not_found
    | None => not_found
    end.
Proof. reflexivity. Qed.

Lemma field_other (d : list (string * value)) (k k' : string) (v : value) :
  k' <> k -> field (Ok (VDict ((k', v) :: d))) k = field (Ok (VDict d)) k.
Proof.
  intros Hk. cbn [field dict_get].
  destruct (String.eqb_spec k' k) as [E | _]; [by destruct Hk | reflexivity].
Qed.

(** Every entry of the alternatives table holds three alternatives and a
    reason. *)
Lemma alternatives_entries (k : string) (a : value) :
  dict_get alternatives k = Some a ->
  exists x y z reason, a = alternative [x; y; z] reason.
Proof.
  unfold alternatives. intros H.
  repeat (cbn [dict_get] in H; destruct (String.eqb _ k);
          [apply (inj Some) in H; subst a; by eauto |]).
  discriminate H.
Qed.

(** X3: for every string, [get_healthy_alternatives] returns, and echoes
    the name as it was given: either the found result with exactly three
    alternatives and a reason, when the name, lowercased and stripped by
    the runtime, is in the table, or the not-found result with the
    general tip. *)
Theorem healthy_alternatives_result (s : string) :
  match dict_get alternatives (str_strip sm (str_lower sm s)) with
  | Some _ =>
      exists x y z reason,
        get_healthy_alternatives (VStr s)
        = Ok (VDict [("original_food", VStr s);
                     ("alternatives", VList [VStr x; VStr y; VStr z]);
                     ("reason", VStr reason);
                     ("found", VBool true)])
  | None =>
      get_healthy_alternatives (VStr s)
      = Ok (VDict [("original_food", VStr s);
                   ("found", VBool false);
                   ("message", VStr "No specific alternatives in database. General tip: Choose whole foods over processed, grilled over fried.")])
  end.
Proof.
  rewrite get_healthy_alternatives_str. cbv zeta.
  destruct (dict_get alternatives (str_strip sm (str_lower sm s))) as [a |] eqn:Ha;
    [| reflexivity].
  destruct (alternatives_entries _ _ Ha) as (x & y & z & reason & ->).
  by exists x, y, z, reason.
Qed.

(** On strings of ASCII characters, what the runtime's methods give. *)
Hypothesis sm_ascii : ascii_exact sm.

Lemma key_ascii (s : string) :
  is_ascii s = true -> str_strip sm (str_lower sm s) = strip (lower s).
Proof.
  intros Hs. rewrite (proj1 (sm_ascii s Hs)).
  exact (proj1 (proj2 (sm_ascii _ (is_ascii_lower s Hs)))).
Qed.

Lemma title_ascii (s : string) : is_ascii s = true -> str_title sm s = title s.
Proof. intros Hs. exact (proj2 (proj2 (sm_ascii s Hs))). Qed.

(** The normalized key of a text in capitals with whitespace around it. *)
Lemma key_of_padded (before s after : string) :
  blank before = true -> blank after = true ->
  strip (lower (before +:+ upper s +:+ after)) = strip (lower s).
Proof.
  intros Hb Ha. rewrite !lower_app, lower_upper.
  apply strip_padded; by rewrite blank_lower.
Qed.

(** X1: for a name of ASCII characters that [get_nutrition_info] finds,
    the result carries the title-cased name, and looking that name up
    gives the very same result. *)
Theorem nutrition_name_round_trip (s : string) (r : value) :
  is_ascii s = true ->
  get_nutrition_info (VStr s) = Ok r ->
  field (Ok r) "found" = Some (VBool true) ->
  field (Ok r) "food" = Some (VStr (title s))
  /\ get_nutrition_info (VStr (title s)) = Ok r.
Proof.
  intros Hs. rewrite !get_nutrition_info_str.
  rewrite (key_ascii s Hs), (key_ascii _ (is_ascii_title s Hs)).
  rewrite (title_ascii s Hs), (title_ascii _ (is_ascii_title s Hs)).
  rewrite lower_title, title_idem. intros Hr Hfound.
  destruct (dict_get nutrition_db (strip (lower s))) as [n |];
    [destruct (truthy n) |]; apply Ok_inj in Hr; subst r;
    try (cbn in Hfound; discriminate Hfound).
  split; reflexivity.
Qed.

(** X2: on names of ASCII characters both lookups ignore the case of the
    letters and the ASCII whitespace around the name: a name in capitals,
    padded with whitespace, gives the same result as the plain name,
    apart from the field that echoes the input. *)
Theorem lookups_ignore_case_and_padding (before s after : string) :
  is_ascii s = true -> is_ascii before = true -> is_ascii after = true ->
  blank before = true -> blank after = true ->
  let shouted := VStr (before +:+ upper s +:+ after) in
  (forall k, "food" <> k ->
     field (get_nutrition_info shouted) k = field (get_nutrition_info (VStr s)) k)
  /\ (forall k, "original_food" <> k ->
     field (get_healthy_alternatives shouted) k
     = field (get_healthy_alternatives (VStr s)) k).
Proof.
  intros Hs Hab Haa Hb Ha shouted. unfold shouted.
  assert (str_strip sm (str_lower sm (before +:+ upper s +:+ after))
          = str_strip sm (str_lower sm s)) as Hkey.
  { rewrite (key_ascii s Hs), key_ascii, (key_of_padded _ _ _ Hb Ha); [reflexivity |].
    apply is_ascii_app; [exact Hab |].
    apply is_ascii_app; [by apply is_ascii_upper | exact Haa]. }
  split; intros k Hk.
  - rewrite !get_nutrition_info_str, Hkey.
    destruct (dict_get nutrition_db _) as [n |]; [destruct (truthy n) |];
      by rewrite !(field_other _ _ _ _ Hk).
  - rewrite !get_healthy_alternatives_str, Hkey. cbv zeta.
    destruct (dict_get alternatives _) as [a |]; [destruct (truthy a) |];
      try by rewrite !(field_other _ _ _ _ Hk).
    destruct (getitem a "alternatives") as [alts |]; cbn [mbind outcome_bind];
      [| reflexivity].
    destruct (getitem a "reason") as [reason |]; cbn [mbind outcome_bind];
      [| reflexivity].
    by rewrite !(field_other _ _ _ _ Hk).
Qed.

End Lookup.

Lemma ascii_str_exact : ascii_exact ascii_str.
Proof. intros s _. by repeat split. Qed.

Lemma nutrition_name_round_trip_witness :
  exists r,
    get_nutrition_info ascii_str (VStr " chicken BREAST") = Ok r
    /\ field (Ok r) "food" = Some (VStr (title " chicken BREAST"))
    /\ get_nutrition_info ascii_str (VStr (title " chicken BREAST")) = Ok r.
Proof.
  destruct (get_nutrition_info ascii_str (VStr " chicken BREAST")) as [r |] eqn:Hr;
    [| vm_compute in Hr; discriminate Hr].
  exists r. split; [reflexivity |].
  apply (nutrition_name_round_trip ascii_str ascii_str_exact " chicken BREAST" r eq_refl Hr).
  vm_compute in Hr. apply Ok_inj in Hr. subst r. reflexivity.
Defined.

Lemma lookups_ignore_case_and_padding_witness :
  field (get_nutrition_info ascii_str (VStr ("  " +:+ upper "Greek Yogurt" +:+ " ")))
    "nutrition"
  = field (get_nutrition_info ascii_str (VStr "Greek Yogurt")) "nutrition"
  /\ field (get_healthy_alternatives ascii_str (VStr ("  " +:+ upper "Ice cream" +:+ " ")))
       "alternatives"
     = field (get_healthy_alternatives ascii_str (VStr "Ice cream")) "alternatives".
Proof.
  destruct (lookups_ignore_case_and_padding ascii_str ascii_str_exact
              "  " "Greek Yogurt" " " eq_refl eq_refl eq_refl eq_refl eq_refl)
    as [H1 _].
  destruct (lookups_ignore_case_and_padding ascii_str ascii_str_exact
              "  " "Ice cream" " " eq_refl eq_refl eq_refl eq_refl eq_refl)
    as [_ H2].
  split; [apply H1 | apply H2]; discriminate.
Defined.

End LookupFacts.

(** ** [calculate_meal_macros], continued *)

Module MealFacts.

Import NutritionTools Spec Terms OutcomeFacts LookupFacts.
Local Open Scope list_scope.

(** Every entry of the nutrition database holds the four fields that
    [calculate_meal_macros] reads, each a number. *)
Lemma nutrition_db_entries (k : string) (n : value) :
  dict_get nutrition_db k = Some n ->
  exists c p cb f,
    n = nutrients c p cb f
    /\ finite_number c = true /\ finite_number p = true
    /\ finite_number cb = true /\ finite_number f = true.
Proof.
  unfold nutrition_db. intros H.
  repeat (cbn [dict_get] in H; destruct (String.eqb _ k);
          [apply (inj Some) in H; subst n;
           do 4 eexists; split; [reflexivity | repeat split; reflexivity] |]).
  discriminate H.
Qed.

Lemma nutrition_db_truthy (k : string) (n : value) :
  dict_get nutrition_db k = Some n -> truthy n = true.
Proof. intros H. by destruct (nutrition_db_entries k n H) as (c & p & cb & f & -> & _). Qed.

(** Opens the next step of a chain of calls that returned. *)
Ltac next_step H :=
  match type of H with
  | mbind _ ?m = Ok _ =>
      let E := fresh "E" in
      destruct m eqn:E; cbn [mbind outcome_bind] in H;
      [| exfalso; exact (Ok_not_Raise _ _ (eq_sym H))]
  end.

Section Meals.

(** The methods of [str] of the runtime, whatever they do. *)
Variable sm : str_methods.

(** What one iteration that returns does to the breakdown: nothing for an
    unknown food, one more entry with the name and the grams of the
    ingredient for a known one. *)
Lemma add_ingredient_breakdown (acc acc' : totals) (i : value) :
  add_ingredient sm acc i = Ok acc' ->
  if unknown_food sm i then ingredient_breakdown acc' = ingredient_breakdown acc
  else exists e,
         ingredient_breakdown acc' = ingredient_breakdown acc ++ [e]
         /\ field (Ok e) "food" = Some (ingredient_food i)
         /\ field (Ok e) "grams" = Some (ingredient_grams i).
Proof.
  unfold add_ingredient, unknown_food, ingredient_food, ingredient_grams.
  destruct i as [| | | | | | d];
    try (cbn [meth_get mbind outcome_bind]; intros H;
         exfalso; exact (Ok_not_Raise _ _ (eq_sym H))).
  cbn [meth_get mbind outcome_bind].
  destruct (default (VStr "") (dict_get d "food")) as [| | | | s | |] eqn:Hfood;
    try (cbn [get_nutrition_info str_meth mbind outcome_bind]; intros H;
         exfalso; exact (Ok_not_Raise _ _ (eq_sym H))).
  rewrite get_nutrition_info_str.
  destruct (dict_get nutrition_db (str_strip sm (str_lower sm s))) as [n |] eqn:Hn.
  2:{ cbn. intros H. apply Ok_inj in H. by subst. }
  rewrite (nutrition_db_truthy _ _ Hn).
  cbn -[truediv mul add round getitem].
  intros H. repeat next_step H.
  apply Ok_inj in H. subst acc'. cbn [ingredient_breakdown].
  eexists. split; [reflexivity |]. split; reflexivity.
Qed.

Lemma add_ingredients_breakdown (l : list value) (acc acc' : totals) :
  add_ingredients sm acc l = Ok acc' ->
  exists bd,
    ingredient_breakdown acc' = ingredient_breakdown acc ++ bd
    /\ (fun e => (field (Ok e) "food", field (Ok e) "grams")) <$> bd
       = (fun i => (Some (ingredient_food i), Some (ingredient_grams i)))
           <$> filter (fun i => unknown_food sm i = false) l.
Proof.
  revert acc. induction l as [| i l IH]; intros acc; cbn [add_ingredients].
  - intros H. apply Ok_inj in H. subst. exists []. by rewrite app_nil_r.
  - intros H. next_step H.
    pose proof (add_ingredient_breakdown _ _ _ E) as Hi.
    destruct (IH _ H) as (bd & Hbd & Hmap).
    destruct (unknown_food sm i) eqn:Hu.
    + rewrite filter_cons_False by (rewrite Hu; discriminate).
      exists bd. by rewrite Hbd, Hi.
    + rewrite filter_cons_True by exact Hu.
      destruct Hi as (e & He & Hfood & Hgrams).
      exists (e :: bd). split.
      * by rewrite Hbd, He, <- app_assoc.
      * rewrite !fmap_cons. by rewrite Hfood, Hgrams, Hmap.
Qed.

(** X4: when [calculate_meal_macros] returns, its breakdown has one entry
    for each ingredient with a known food, in the order of the
    ingredients, and each entry carries the food name and the grams as
    they were given. *)
Theorem meal_breakdown_follows_ingredients (ingredients : list value) (r : value) :
  calculate_meal_macros sm ingredients = Ok r ->
  exists bd,
    field (Ok r) "ingredients" = Some (VList bd)
    /\ (fun e => (field (Ok e) "food", field (Ok e) "grams")) <$> bd
       = (fun i => (Some (ingredient_food i), Some (ingredient_grams i)))
           <$> filter (fun i => unknown_food sm i = false) ingredients.
Proof.
  unfold calculate_meal_macros. intros H. next_step H.
  destruct (add_ingredients_breakdown _ _ _ E) as (bd & Hbd & Hmap).
  unfold meal_summary in H. repeat next_step H. apply Ok_inj in H. subst r.
  exists bd. split; [| exact Hmap]. cbn. by rewrite Hbd.
Qed.

Lemma add_ingredients_app (l1 l2 : list value) (acc : totals) :
  add_ingredients sm acc (l1 ++ l2)
  = (acc' ← add_ingredients sm acc l1; add_ingredients sm acc' l2).
Proof.
  revert acc. induction l1 as [| i l1 IH]; intros acc; [reflexivity |].
  cbn [app add_ingredients]. destruct (add_ingredient sm acc i); cbn [mbind outcome_bind];
    [apply IH | reflexivity].
Qed.

(** X5: the grams of an ingredient are only looked at when its food is
    known: grams that are not a number make [calculate_meal_macros] raise a
    [TypeError] at the first such ingredient with a known food (the same
    grams on an unknown food are passed over). *)
Theorem known_food_needs_numeric_grams
    (before after : list value) (d : list (string * value)) (s : string) (g : value) :
  Forall (fun i => unknown_food sm i = true) before ->
  dict_get d "food" = Some (VStr s) ->
  is_Some (dict_get nutrition_db (str_strip sm (str_lower sm s))) ->
  dict_get d "grams" = Some g -> as_num g = None ->
  exists text,
    calculate_meal_macros sm (before ++ VDict d :: after) = Raise (Exn TypeError text).
Proof.
  intros Hbefore Hfood [n Hn] Hgrams Hg.
  exists ("unsupported operand type(s) for /: '" +:+ type_name g +:+ "' and 'int'").
  unfold calculate_meal_macros. rewrite add_ingredients_app.
  rewrite (NutritionFacts.add_ingredients_all_unknown sm _ _ Hbefore).
  cbn [mbind outcome_bind add_ingredients].
  assert (add_ingredient sm (Totals (VInt 0) (VInt 0) (VInt 0) (VInt 0) []) (VDict d)
          = Raise (Exn TypeError ("unsupported operand type(s) for /: '"
                                  +:+ type_name g +:+ "' and 'int'"))) as ->;
    [| reflexivity].
  unfold add_ingredient. cbn [meth_get mbind outcome_bind].
  rewrite Hfood, Hgrams. cbn [default from_option id].
  rewrite get_nutrition_info_str, Hn.
  rewrite (nutrition_db_truthy _ _ Hn).
  cbn -[truediv mul add round getitem].
  destruct (nutrition_db_entries _ _ Hn) as (c & p & cb & f & -> & _).
  cbn -[truediv mul add round].
  unfold truediv, arith. rewrite Hg. reflexivity.
Qed.

Lemma truediv_100_float (a m : value) :
  truediv a (VInt 100) = Ok m -> exists q, m = VFloat q.
Proof.
  unfold truediv, arith. destruct (as_num a) as [[x | f] |]; cbn [as_num].
  - unfold int_truediv. change (100 =? 0) with false. cbv iota.
    destruct (x =? 0); [intros H; apply Ok_inj in H; eauto |].
    match goal with |- context [is_infinity ?q] => destruct (is_infinity q) end;
      intros H; [exfalso; exact (Ok_not_Raise _ _ (eq_sym H)) |].
    apply Ok_inj in H. eauto.
  - cbn [to_float mbind outcome_bind].
    replace (int_to_float 100) with (Ok 100%float) by (vm_compute; reflexivity).
    cbn [mbind outcome_bind]. unfold float_truediv.
    destruct (PrimFloat.eqb _ _); intros H;
      [exfalso; exact (Ok_not_Raise _ _ (eq_sym H)) |].
    apply Ok_inj in H. eauto.
  - intros H. exfalso. exact (Ok_not_Raise _ _ (eq_sym H)).
Qed.

Lemma mul_number_float (x : value) (m : float) :
  finite_number x = true -> exists y, mul x (VFloat m) = Ok (VFloat y).
Proof.
  unfold finite_number, mul, arith.
  destruct x as [| b | z | f | | |]; cbn [as_num is_seq]; try discriminate.
  - cbn [to_float mbind outcome_bind]. destruct (int_to_float _); [eauto | discriminate].
  - cbn [to_float mbind outcome_bind]. destruct (int_to_float _); [eauto | discriminate].
  - cbn [to_float mbind outcome_bind]. eauto.
Qed.

Lemma add_running_total (v : value) (y : float) :
  running_total v = true -> exists t, add v (VFloat y) = Ok (VFloat t).
Proof.
  destruct v as [| | z | f | | |]; try discriminate.
  - destruct z; try discriminate. intros _. unfold add, arith. cbn [as_num to_float].
    replace (int_to_float 0) with (Ok 0%float) by (vm_compute; reflexivity).
    cbn [mbind outcome_bind]. eauto.
  - intros _. unfold add, arith. cbn [as_num to_float mbind outcome_bind]. eauto.
Qed.

(** One iteration returns exactly on a well-formed ingredient. *)
Lemma add_ingredient_returns (acc : totals) (i : value) :
  running_totals acc ->
  if well_formed_ingredient sm i
  then exists acc', add_ingredient sm acc i = Ok acc' /\ running_totals acc'
  else exists e, add_ingredient sm acc i = Raise e.
Proof.
  intros (Hc & Hp & Hcb & Hf).
  unfold add_ingredient, well_formed_ingredient, unknown_food,
    ingredient_food, ingredient_grams.
  destruct i as [| | | | | | d]; try (cbn [meth_get mbind outcome_bind]; by eauto).
  cbn [meth_get mbind outcome_bind].
  destruct (default (VStr "") (dict_get d "food")) as [| | | | s | |] eqn:Hfood;
    try (cbn [get_nutrition_info str_meth mbind outcome_bind]; by eauto).
  rewrite get_nutrition_info_str.
  destruct (dict_get nutrition_db (str_strip sm (str_lower sm s))) as [n |] eqn:Hn.
  2:{ cbn. exists acc. by repeat split. }
  rewrite (nutrition_db_truthy _ _ Hn).
  destruct (nutrition_db_entries _ _ Hn) as (c & p & cb & f & -> & Fc & Fp & Fcb & Ff).
  cbn -[truediv mul add round].
  destruct (truediv _ (VInt 100)) as [m | e] eqn:Hm; cbn [mbind outcome_bind]; [| by eauto].
  destruct (truediv_100_float _ _ Hm) as [q ->].
  destruct (mul_number_float c q Fc) as [yc ->].
  destruct (mul_number_float p q Fp) as [yp ->].
  destruct (mul_number_float cb q Fcb) as [ycb ->].
  destruct (mul_number_float f q Ff) as [yf ->].
  cbn [mbind outcome_bind].
  destruct (add_running_total _ yc Hc) as [tc ->].
  destruct (add_running_total _ yp Hp) as [tp ->].
  destruct (add_running_total _ ycb Hcb) as [tcb ->].
  destruct (add_running_total _ yf Hf) as [tf ->].
  cbn [mbind outcome_bind round as_num].
  eexists. split; [reflexivity |]. by repeat split.
Qed.

Lemma add_ingredients_returns (l : list value) (acc : totals) :
  running_totals acc ->
  if forallb (well_formed_ingredient sm) l
  then exists acc', add_ingredients sm acc l = Ok acc' /\ running_totals acc'
  else exists e, add_ingredients sm acc l = Raise e.
Proof.
  revert acc. induction l as [| i l IH]; intros acc Hacc; cbn [add_ingredients forallb].
  - eauto.
  - pose proof (add_ingredient_returns acc i Hacc) as Hi.
    destruct (well_formed_ingredient sm i); cbn [andb].
    + destruct Hi as (acc1 & -> & Hacc1). cbn [mbind outcome_bind]. by apply IH.
    + destruct Hi as (e & ->). cbn [mbind outcome_bind]. eauto.
Qed.

(** X6: [calculate_meal_macros] returns a summary exactly when every
    ingredient is a dict whose food name is a string and, for a known
    food, whose grams can be divided by 100; otherwise it raises. *)
Theorem meal_macros_returns_iff (ingredients : list value) :
  (exists r, calculate_meal_macros sm ingredients = Ok r)
  <-> forallb (well_formed_ingredient sm) ingredients = true.
Proof.
  assert (running_totals (Totals (VInt 0) (VInt 0) (VInt 0) (VInt 0) [])) as H0
    by (by repeat split).
  pose proof (add_ingredients_returns ingredients _ H0) as H.
  unfold calculate_meal_macros.
  destruct (forallb (well_formed_ingredient sm) ingredients).
  - destruct H as (acc & -> & Hc & Hp & Hcb & Hf). cbn [mbind outcome_bind].
    split; [reflexivity | intros _].
    unfold meal_summary.
    destruct (total_calories acc) as [| | [] | | | |]; try discriminate;
    destruct (total_protein acc) as [| | [] | | | |]; try discriminate;
    destruct (total_carbs acc) as [| | [] | | | |]; try discriminate;
    destruct (total_fat acc) as [| | [] | | | |]; try discriminate;
    cbn [round as_num mbind outcome_bind]; eauto.
  - destruct H as (e & ->). cbn [mbind outcome_bind]. split; [| discriminate].
    intros [r Hr]. exfalso. exact (Ok_not_Raise _ _ (eq_sym Hr)).
Qed.

End Meals.

Lemma meal_breakdown_follows_ingredients_witness :
  let ingredients := [VDict [("food", VStr "Egg"); ("grams", VInt 120)];
                      VDict [("food", VStr "tofu"); ("grams", VInt 200)];
                      VDict [("food", VStr " rice"); ("grams", VInt 50)];
                      VDict [("food", VStr "banana ")]] in
  exists r bd,
    calculate_meal_macros ascii_str ingredients = Ok r
    /\ field (Ok r) "ingredients" = Some (VList bd)
    /\ (fun e => (field (Ok e) "food", field (Ok e) "grams")) <$> bd
       = [(Some (VStr "Egg"), Some (VInt 120)); (Some (VStr "banana "), Some (VInt 0))].
Proof.
  intros ingredients.
  destruct (calculate_meal_macros ascii_str ingredients) as [r |] eqn:Hr;
    [| vm_compute in Hr; discriminate Hr].
  destruct (meal_breakdown_follows_ingredients ascii_str ingredients r Hr) as (bd & Hbd & Hmap).
  exists r, bd. split; [reflexivity | split; [exact Hbd |]].
  rewrite Hmap. vm_compute. reflexivity.
Defined.

Lemma known_food_needs_numeric_grams_witness :
  exists text,
    calculate_meal_macros ascii_str
      ([VDict [("food", VStr "tofu"); ("grams", VStr "a cup")]]
         ++ VDict [("food", VStr "Milk"); ("grams", VStr "a cup")] :: [])
    = Raise (Exn TypeError text).
Proof.
  apply (known_food_needs_numeric_grams ascii_str
           [VDict [("food", VStr "tofu"); ("grams", VStr "a cup")]] []
           [("food", VStr "Milk"); ("grams", VStr "a cup")] "Milk" (VStr "a cup")).
  - repeat constructor.
  - reflexivity.
  - eexists. vm_compute. reflexivity.
  - reflexivity.
  - reflexivity.
Defined.

End MealFacts.

(** ** The catalog and the registry *)

Module RegistryFacts.

Import ToolRegistry MoreTools Spec Terms OutcomeFacts StringFacts.
Local Open Scope list_scope.

Section Dispatch.

Variable sm : str_methods.
Variable str_of : value -> string.
Variable other_body : string -> (string -> value) -> outcome value.

Local Abbreviation FUNCTION_MAP := (FUNCTION_MAP sm str_of other_body).
Local Abbreviation execute_function := (execute_function sm str_of other_body).
Local Abbreviation registered := (registered sm str_of other_body).

Lemma TOOLS_registered (t : tool_spec) : t ∈ TOOLS -> registered t = true.
Proof.
  intros Ht.
  assert (forallb registered TOOLS = true) as Hall by (vm_compute; reflexivity).
  rewrite forallb_forall in Hall. apply Hall. by apply list_elem_of_In.
Qed.

Lemma registered_spec (t : tool_spec) :
  registered t = true ->
  exists f,
    FUNCTION_MAP !! tool_name t = Some f
    /\ fn_name f = tool_name t
    /\ (fn_params f).*1 = tool_properties t
    /\ forall p, (p, None) ∈ fn_params f -> p ∈ tool_required t.
Proof.
  unfold Terms.registered. destruct (FUNCTION_MAP !! tool_name t) as [f |]; [| discriminate].
  intros H. apply andb_true_iff in H as [H Hreq]. apply andb_true_iff in H as [Hname Hpar].
  exists f. split; [reflexivity |]. split; [by apply String.eqb_eq |].
  split; [exact (bool_decide_eq_true_1 _ Hpar) |].
  intros p Hp. rewrite forallb_forall in Hreq.
  apply list_elem_of_In in Hp. specialize (Hreq _ Hp). cbn in Hreq.
  exact (bool_decide_eq_true_1 _ Hreq).
Qed.

(** X7: the catalog and the registry name the same tools: a name has an
    entry in [TOOLS] exactly when a function is registered under it in
    [FUNCTION_MAP]. *)
Theorem catalog_names_registry (name : string) :
  (exists t, t ∈ TOOLS /\ tool_name t = name) <-> is_Some (FUNCTION_MAP !! name).
Proof.
  split.
  - intros (t & Ht & <-).
    destruct (registered_spec t (TOOLS_registered t Ht)) as (f & Hf & _). by exists f.
  - intros [f Hf]. apply elem_of_list_to_map_2 in Hf.
    assert (existsb (fun t => String.eqb (tool_name t) name) TOOLS = true) as Hex.
    { repeat (apply elem_of_cons in Hf as [Hf | Hf];
              [apply (f_equal fst) in Hf; cbn in Hf; subst name; vm_compute; reflexivity |]).
      by apply elem_of_nil in Hf. }
    apply existsb_exists in Hex as (t & Ht & Hname).
    exists t. split; [by apply list_elem_of_In | by apply String.eqb_eq].
Qed.

(** X8: the schema of a catalog entry describes the signature of the
    function registered under its name: the function carries that name,
    the schema's properties are its parameters, in order, and every
    parameter without a default is listed as required. *)
Theorem catalog_entry_signature (t : tool_spec) :
  t ∈ TOOLS ->
  exists f,
    FUNCTION_MAP !! tool_name t = Some f
    /\ fn_name f = tool_name t
    /\ (fn_params f).*1 = tool_properties t
    /\ forall p, (p, None) ∈ fn_params f -> p ∈ tool_required t.
Proof. intros Ht. exact (registered_spec t (TOOLS_registered t Ht)). Qed.




(** Arguments that follow the schema reach the body of the function, with
    the defaults for the parameters left out. *)
Lemma call_conforming (t : tool_spec) (f : pyfunc) (kw : list (string * value)) :
  (fn_params f).*1 = tool_properties t ->
  (forall p, (p, None) ∈ fn_params f -> p ∈ tool_required t) ->
  conforms t kw = true ->
  call f (VDict kw) = fn_body f (bound_argument f kw).
Proof.
  intros Hpar Hreq Hc. apply andb_true_iff in Hc as [Hkeys Hgiven].
  rewrite forallb_forall in Hkeys. rewrite forallb_forall in Hgiven.
  unfold call. rewrite Hpar.
  replace (list_find _ kw) with (@None (nat * (string * value))).
  2:{ symmetry. apply list_find_None. apply Forall_forall. intros kv Hkv Hnot.
      apply Hnot. apply list_elem_of_In in Hkv.
      exact (bool_decide_eq_true_1 _ (Hkeys _ Hkv)). }
  replace (missing_params f kw) with (@nil string); [reflexivity |].
  unfold missing_params. symmetry.
  destruct (filter _ (fn_params f)) as [| [p d] l] eqn:Hfilter; [reflexivity |].
  exfalso.
  assert ((p, d) ∈ filter (fun p => p.2 = None /\ dict_get kw p.1 = None) (fn_params f))
    as Hin by (rewrite Hfilter; apply elem_of_cons; by left).
  apply list_elem_of_filter in Hin as [[Hd Hnone] Hin]. cbn in Hd, Hnone. subst d.
  specialize (Hreq _ Hin). apply list_elem_of_In in Hreq.
  pose proof (bool_decide_eq_true_1 _ (Hgiven _ Hreq)) as [x Hx].
  rewrite Hx in Hnone. discriminate Hnone.
Qed.


End Dispatch.

Lemma catalog_entry_signature_witness :
  exists f,
    FUNCTION_MAP ascii_str (fun _ => "") (fun _ _ => Ok VNone) !! "generate_meal_plan" = Some f
    /\ fn_name f = "generate_meal_plan"
    /\ (fn_params f).*1
       = ["calories"; "protein_g"; "carbs_g"; "fat_g"; "meals_per_day"; "dietary_preference"]
    /\ forall p, (p, None) ∈ fn_params f -> p ∈ ["calories"; "protein_g"; "carbs_g"; "fat_g"].
Proof.
  apply (catalog_entry_signature ascii_str (fun _ => "") (fun _ _ => Ok VNone)
           {| tool_name := "generate_meal_plan";
              tool_properties := ["calories"; "protein_g"; "carbs_g"; "fat_g";
                                  "meals_per_day"; "dietary_preference"];
              tool_required := ["calories"; "protein_g"; "carbs_g"; "fat_g"] |}).
  unfold TOOLS. do 10 (apply elem_of_cons; right). apply elem_of_cons. by left.
Defined.




(** X13: through the Dispatcher, leaving [activity_level] out of the
    arguments of [calculate_hydration] gives what "moderate" gives, in
    any letter case. *)
Theorem dispatch_hydration_default (sm : str_methods) (str_of : value -> string)
    (format : value -> outcome string)
    (rest : string -> (string -> value) -> outcome value) (weight_kg : value)
    (level : string) :
  lower level = "moderate" ->
  execute_function sm str_of (tool_body sm format rest) "calculate_hydration"
    (VDict [("weight_kg", weight_kg)])
  = execute_function sm str_of (tool_body sm format rest) "calculate_hydration"
      (VDict [("weight_kg", weight_kg); ("activity_level", VStr level)]).
Proof.
  intros Hlevel.
  assert (exists f,
            FUNCTION_MAP sm str_of (tool_body sm format rest) !! "calculate_hydration"
            = Some f
            /\ call f (VDict [("weight_kg", weight_kg)])
               = calculate_hydration weight_kg (VStr "moderate")
            /\ call f (VDict [("weight_kg", weight_kg); ("activity_level", VStr level)])
               = calculate_hydration weight_kg (VStr level))
    as (f & Hf & Hleft & Hright).
  { eexists. split.
    { eapply DispatcherFacts.FUNCTION_MAP_lookup;
        [reflexivity | apply (bool_decide_unpack _); vm_compute; exact I |].
      do 6 (apply elem_of_cons; right). apply elem_of_cons. left. reflexivity. }
    split; cbv -[calculate_hydration]; reflexivity. }
  unfold ToolRegistry.execute_function. rewrite Hf, Hleft, Hright.
  unfold calculate_hydration. cbn [meth_lower]. rewrite Hlevel. reflexivity.
Qed.

Lemma dispatch_hydration_default_witness :
  execute_function ascii_str (fun _ => "")
    (tool_body ascii_str (fun _ => Ok "") (fun _ _ => Ok VNone))
    "calculate_hydration" (VDict [("weight_kg", VInt 70)])
  = execute_function ascii_str (fun _ => "")
      (tool_body ascii_str (fun _ => Ok "") (fun _ _ => Ok VNone))
      "calculate_hydration"
      (VDict [("weight_kg", VInt 70); ("activity_level", VStr "Moderate")]).
Proof.
  apply (dispatch_hydration_default ascii_str (fun _ => "") (fun _ => Ok "")
           (fun _ _ => Ok VNone) (VInt 70) "Moderate").
  vm_compute. reflexivity.
Defined.

End RegistryFacts.

(** ** Edge cases of the calculators *)

Module CalculatorFacts.

Import FitnessCalc MoreTools Spec Terms OutcomeFacts.
Import MealFacts.

(** The floats equal to zero are the two zeros. *)
Lemma float_zero_cases (f : float) :
  PrimFloat.eqb f 0 = true -> f = 0%float \/ f = (-0)%float.
Proof.
  rewrite FloatAxioms.eqb_spec. intros H. rewrite <- (SF2Prim_Prim2SF f).
  destruct (Prim2SF f) as [[] | [] | | [] m e]; cbn in H; try discriminate; auto.
Qed.

(** A height equal to zero, as an int, a bool or a float, is a zero in
    metres. *)
Lemma zero_height_metres (height_cm : value) :
  eq_int height_cm 0 = true ->
  exists z, truediv height_cm (VInt 100) = Ok (VFloat z) /\ (z = 0%float \/ z = (-0)%float).
Proof.
  unfold eq_int. destruct height_cm as [| [] | z | f | | |]; cbn [as_num]; try discriminate.
  - intros _. exists 0%float. split; [vm_compute; reflexivity | by left].
  - intros Hz. apply Z.eqb_eq in Hz. subst z.
    exists 0%float. split; [vm_compute; reflexivity | by left].
  - replace (int_to_float 0) with (Ok 0%float) by (vm_compute; reflexivity).
    intros Hf. destruct (float_zero_cases f Hf) as [-> | ->].
    + exists 0%float. split; [vm_compute; reflexivity | by left].
    + exists (-0)%float. split; [vm_compute; reflexivity | by right].
Qed.

(** X14: [calculate_bmi] does not check its inputs: for a height equal
    to zero and any weight that is a number it raises, [ZeroDivisionError]
    when the weight fits a float and [OverflowError] when it is an int
    too large for one. *)
Theorem bmi_zero_height (weight_kg height_cm : value) (n : num) :
  as_num weight_kg = Some n -> eq_int height_cm 0 = true ->
  exists text,
    calculate_bmi weight_kg height_cm
    = Raise (Exn (if finite_number weight_kg then ZeroDivisionError else OverflowError)
               text).
Proof.
  intros Hw Hh. unfold calculate_bmi.
  destruct (zero_height_metres height_cm Hh) as (z & -> & Hz).
  cbn [mbind outcome_bind].
  assert (pow2 (VFloat z) = Ok (VFloat 0%float)) as ->
    by (destruct Hz as [-> | ->]; vm_compute; reflexivity).
  cbn [mbind outcome_bind].
  unfold finite_number, truediv, arith. rewrite Hw. cbn [as_num].
  destruct n as [x | f]; cbn [to_float].
  - destruct (int_to_float x) as [fx | [cls text]] eqn:Hx.
    + by exists "float division by zero".
    + unfold int_to_float in Hx. destruct (is_infinity _); [| discriminate].
      injection Hx as <- <-. by eexists.
  - by exists "float division by zero".
Qed.

Lemma bmi_zero_height_witness :
  exists text, calculate_bmi (VInt 80) (VFloat 0) = Raise (Exn ZeroDivisionError text).
Proof. apply (bmi_zero_height (VInt 80) (VFloat 0) (NInt 80)); reflexivity. Defined.

Example bmi_zero_height_huge_weight :
  calculate_bmi (VInt (10 ^ 400)) (VInt 0)
  = Raise (Exn OverflowError "int too large to convert to float").
Proof. vm_compute. reflexivity. Qed.

(** Opens every step of two chains of calls that run the same steps. *)
Ltac same_steps :=
  repeat match goal with
         | |- context [mbind _ ?m] =>
             destruct m; cbn [mbind outcome_bind]; try reflexivity
         end.

(** X15: [calculate_tdee] does not reject what it does not recognise: a
    gender that is not male in any letter case is computed as female, and
    an activity level that is not in the table gives the numbers of
    sedentary; only the echoed [activity_level] differs. *)
Theorem tdee_unrecognised_inputs
    (weight_kg height_cm age gender : value) (g level : string) :
  lower g <> "male" ->
  dict_get activity_multipliers (lower level) = None ->
  calculate_tdee weight_kg height_cm age (VStr g) (VStr level)
  = calculate_tdee weight_kg height_cm age (VStr "female") (VStr level)
  /\ forall k, k <> "activity_level" ->
       field (calculate_tdee weight_kg height_cm age gender (VStr level)) k
       = field (calculate_tdee weight_kg height_cm age gender (VStr "sedentary")) k.
Proof.
  intros Hg Hlevel. split.
  - unfold calculate_tdee. cbn [meth_lower mbind outcome_bind].
    destruct (String.eqb_spec (lower g) "male") as [E | _]; [by destruct Hg |].
    reflexivity.
  - intros k Hk. unfold calculate_tdee.
    destruct (meth_lower gender) as [gl |]; cbn [mbind outcome_bind]; [| reflexivity].
    cbn [meth_lower mbind outcome_bind]. rewrite Hlevel.
    change (dict_get activity_multipliers (lower "sedentary")) with (Some (VFloat 1.2)).
    cbn [default from_option id].
    same_steps.
    cbn [field dict_get].
    repeat (destruct (String.eqb _ k) eqn:?; [reflexivity |]).
    destruct (String.eqb_spec "activity_level" k) as [E | _]; [by destruct Hk | reflexivity].
Qed.

Lemma tdee_unrecognised_inputs_witness :
  calculate_tdee (VInt 80) (VInt 180) (VInt 30) (VStr "Other") (VStr "extreme")
  = calculate_tdee (VInt 80) (VInt 180) (VInt 30) (VStr "female") (VStr "extreme")
  /\ forall k, k <> "activity_level" ->
       field (calculate_tdee (VInt 80) (VInt 180) (VInt 30) (VStr "MALE") (VStr "extreme")) k
       = field (calculate_tdee (VInt 80) (VInt 180) (VInt 30) (VStr "MALE") (VStr "sedentary")) k.
Proof.
  apply (tdee_unrecognised_inputs (VInt 80) (VInt 180) (VInt 30) (VStr "MALE")
           "Other" "extreme").
  - vm_compute. discriminate.
  - reflexivity.
Defined.

(** X16: [calculate_body_fat_navy] returns its error value exactly when
    the gender is a string other than male, in any letter case, and the
    hip measurement is left out; in every other case it returns a result
    without an error field or raises. *)
Theorem body_fat_sentinel_iff (gender waist_cm neck_cm height_cm hip_cm : value) :
  calculate_body_fat_navy gender waist_cm neck_cm height_cm hip_cm
  = Ok (VDict [("error", VStr "Hip measurement required for females")])
  <-> (exists g, gender = VStr g /\ lower g <> "male") /\ hip_cm = VNone.
Proof.
  assert (Hresult : forall r c g,
    Ok (VDict [("body_fat_percentage", r); ("category", VStr c); ("gender", g)])
    <> Ok (VDict [("error", VStr "Hip measurement required for females")])).
  { intros r c g H. apply Ok_inj in H.
    apply (f_equal (fun v => field (Ok v) "error")) in H. discriminate H. }
  unfold calculate_body_fat_navy. split.
  - destruct gender as [| | | | g | |];
      try (cbn [meth_lower mbind outcome_bind]; intros H;
           exfalso; exact (Ok_not_Raise _ _ (eq_sym H))).
    cbn [meth_lower mbind outcome_bind].
    destruct (String.eqb_spec (lower g) "male") as [E | Hne].
    + intros H. exfalso. repeat next_step H. exact (Hresult _ _ _ H).
    + destruct hip_cm; try (split; [by exists g | reflexivity]);
        intros H; exfalso; repeat next_step H; exact (Hresult _ _ _ H).
  - intros [(g & -> & Hne) ->]. cbn [meth_lower mbind outcome_bind].
    destruct (String.eqb_spec (lower g) "male") as [E | _]; [by destruct Hne | reflexivity].
Qed.

(** Runs the first step of a chain of calls; a rounding is kept as it is. *)
Ltac head_step :=
  lazymatch goal with
  | |- mbind _ (round _ _) = _ => cbn [round as_num mbind outcome_bind]
  | |- mbind ?k ?m = _ =>
      let v := eval vm_compute in m in
      change (mbind k m) with (mbind k v); cbn [mbind outcome_bind]
  end.

(** The product of a number that fits a float and a float is their
    binary64 product; an int too large for a float makes it raise. *)
Lemma mul_float_cases (v : value) (n : num) :
  as_num v = Some n ->
  if finite_number v
  then exists x, forall r, mul v (VFloat r) = Ok (VFloat (x * r)%float)
  else exists text, forall r, mul v (VFloat r) = Raise (Exn OverflowError text).
Proof.
  intros Hv. unfold finite_number, mul, arith. rewrite Hv.
  assert (is_seq v = false) as -> by (by destruct v).
  cbn [as_num]. destruct n as [z | f]; cbn [to_float].
  - destruct (int_to_float z) as [x | [cls text]] eqn:Hz.
    + by exists x.
    + unfold int_to_float in Hz. destruct (is_infinity _); [| discriminate].
      injection Hz as <- <-. by eexists.
  - by exists f.
Qed.

(** X17: [calculate_macros] does not check its inputs: for a calorie
    target of 0, any goal and any weight that is a number it raises,
    [ZeroDivisionError] when it computes the percentages if the weight
    fits a float, and [OverflowError] if the weight is an int too large
    for one. *)
Theorem macros_zero_calories (goal weight_kg : value) (n : num) :
  as_num weight_kg = Some n ->
  exists text,
    calculate_macros (VInt 0) goal weight_kg
    = Raise (Exn (if finite_number weight_kg then ZeroDivisionError else OverflowError)
               text).
Proof.
  intros Hw. pose proof (mul_float_cases weight_kg n Hw) as Hmul.
  unfold calculate_macros, macro_ratios.
  destruct (finite_number weight_kg).
  - destruct Hmul as [x Hx]. exists "float division by zero".
    destruct (eq_str goal "muscle_gain"); [| destruct (eq_str goal "fat_loss")];
      rewrite Hx; cbn [mbind outcome_bind]; do 3 head_step;
      match goal with
      | |- context [PrimFloat.ltb ?a ?b] => destruct (PrimFloat.ltb a b)
      end; repeat head_step; reflexivity.
  - destruct Hmul as [text Hx]. exists text.
    destruct (eq_str goal "muscle_gain"); [| destruct (eq_str goal "fat_loss")];
      rewrite Hx; reflexivity.
Qed.

Lemma macros_zero_calories_witness :
  exists text,
    calculate_macros (VInt 0) (VStr "fat_loss") (VFloat 72.5)
    = Raise (Exn ZeroDivisionError text).
Proof.
  apply (macros_zero_calories (VStr "fat_loss") (VFloat 72.5) (NFloat 72.5)). reflexivity.
Defined.

End CalculatorFacts.

(** ** Workout and meal plans *)

Module PlanFacts.

Import WorkoutTools MoreTools Spec Terms OutcomeFacts.
Import MealFacts.
Local Open Scope list_scope.

Lemma dict_get_In {A} (d : list (string * A)) (k : string) (v : A) :
  dict_get d k = Some v -> In (k, v) d.
Proof.
  induction d as [| [k' v'] d IH]; cbn [dict_get]; [discriminate |].
  destruct (String.eqb_spec k' k) as [-> | _].
  - intros H. apply (inj Some) in H. subst. by left.
  - intros H. right. by apply IH.
Qed.

Lemma map_outcome_Forall {A B} (f : A -> outcome B) (P : B -> Prop)
    (l : list A) (ys : list B) :
  (forall x y, f x = Ok y -> P y) ->
  map_outcome f l = Ok ys -> length ys = length l /\ Forall P ys.
Proof.
  intros Hf. revert ys. induction l as [| x l IH]; intros ys H; cbn [map_outcome] in H.
  - apply Ok_inj in H. subst. by split.
  - next_step H. next_step H. apply Ok_inj in H. subst ys.
    destruct (IH _ eq_refl) as [Hlen Hall]. split; [cbn; by rewrite Hlen |].
    constructor; [by apply (Hf x) | exact Hall].
Qed.

Lemma map_outcome_lower (sm : str_methods) (l : list string) :
  map_outcome (str_meth (str_lower sm) "lower") (VStr <$> l) = Ok (str_lower sm <$> l).
Proof.
  induction l as [| s l IH]; [reflexivity |].
  cbn [fmap list_fmap map_outcome str_meth mbind outcome_bind].
  change (list_fmap string value VStr l) with (VStr <$> l). by rewrite IH.
Qed.

Lemma filter_outcome_pure {A} (f : A -> outcome bool) (p : A -> bool) (l : list A) :
  (forall x, In x l -> f x = Ok (p x)) ->
  filter_outcome f l = Ok (List.filter p l).
Proof.
  induction l as [| x l IH]; intros Hf; [reflexivity |].
  cbn [filter_outcome List.filter].
  rewrite (Hf x (or_introl eq_refl)). cbn [mbind outcome_bind].
  rewrite IH by (intros y Hy; apply Hf; by right). cbn [mbind outcome_bind].
  by destruct (p x).
Qed.

(** Every list of the exercise database holds dicts whose equipment is a
    string. *)
Lemma exercise_list_entries (sm : str_methods) (muscle_group level : string) :
  default (VList [])
    (dict_get (default [] (dict_get exercises (str_lower sm muscle_group))) level)
  = VList (exercise_list sm muscle_group level)
  /\ forallb is_exercise (exercise_list sm muscle_group level) = true.
Proof.
  assert (forallb (fun ge => forallb (fun le =>
            match le.2 with
            | VList exs => forallb is_exercise exs
            | _ => false
            end) ge.2) exercises = true) as Hall by (vm_compute; reflexivity).
  rewrite forallb_forall in Hall. unfold exercise_list.
  destruct (dict_get exercises (str_lower sm muscle_group)) as [by_level |] eqn:Hg;
    [| by split].
  specialize (Hall _ (dict_get_In _ _ _ Hg)). cbn [snd] in Hall.
  rewrite forallb_forall in Hall. cbn [default from_option id].
  destruct (dict_get by_level level) as [v |] eqn:Hl; [| by split].
  specialize (Hall _ (dict_get_In _ _ _ Hl)). cbn [snd] in Hall.
  destruct v; try discriminate. by split.
Qed.

(** X18: on string inputs [get_exercise_recommendations] always returns:
    the exercises are those the database holds under the muscle group,
    lowercased by the runtime, and the level, none when either is
    unknown; a list of equipment other than [[]] and [["all"]] keeps, in
    order, the exercises whose equipment is, after lowercasing, in the
    list or is bodyweight. *)
Theorem exercise_recommendations_result (sm : str_methods) (muscle_group level : string)
    (equipment : list string) :
  get_exercise_recommendations sm (VStr muscle_group) (VList (VStr <$> equipment))
    (VStr level)
  = Ok (VDict
      [("muscle_group", VStr muscle_group);
       ("level", VStr level);
       ("exercises",
        VList (if bool_decide (equipment = []) || bool_decide (equipment = ["all"])
               then exercise_list sm muscle_group level
               else List.filter
                      (allowed_equipment sm
                         ((str_lower sm <$> equipment) ++ ["bodyweight"]))
                      (exercise_list sm muscle_group level)));
       ("equipment_available", VList (VStr <$> equipment))]).
Proof.
  destruct (exercise_list_entries sm muscle_group level) as [Hlookup Hentries].
  unfold get_exercise_recommendations. cbn [str_meth mbind outcome_bind dict_get_value].
  rewrite Hlookup.
  assert (truthy (VList (VStr <$> equipment)) = negb (bool_decide (equipment = []))) as ->
    by (by destruct equipment).
  assert (is_all (VList (VStr <$> equipment)) = bool_decide (equipment = ["all"])) as ->.
  { destruct equipment as [| e [| e' es]].
    - by rewrite bool_decide_eq_false_2.
    - cbn [fmap list_fmap is_all]. destruct (String.eqb_spec e "all") as [-> | Hne].
      + by rewrite bool_decide_eq_true_2.
      + rewrite bool_decide_eq_false_2; [reflexivity | by intros [= ->]].
    - by rewrite bool_decide_eq_false_2. }
  destruct (bool_decide (equipment = [])); [reflexivity |].
  destruct (bool_decide (equipment = ["all"])); [reflexivity |].
  cbn [negb andb orb iterate mbind outcome_bind].
  rewrite map_outcome_lower. cbn [mbind outcome_bind].
  rewrite (filter_outcome_pure _
             (allowed_equipment sm ((str_lower sm <$> equipment) ++ ["bodyweight"])));
    [reflexivity |].
  intros ex Hex. rewrite forallb_forall in Hentries. specialize (Hentries ex Hex).
  unfold is_exercise in Hentries. unfold allowed_equipment, getitem.
  destruct ex as [| | | | | | d]; try discriminate.
  destruct (dict_get d "equipment") as [[| | | | e | |] |]; try discriminate.
  reflexivity.
Qed.

Section Formatting.

(** The formatting of an f-string, which may raise. *)
Variable format : value -> outcome string.

(** X19: [generate_workout] returns exactly when 15 can be subtracted
    from the duration and the difference can be formatted, whatever the
    goal, the level and the equipment are; the routine then has one
    session per training day for 3 to 6 days a week and six sessions for
    any other number of days. *)
Theorem workout_routine_sessions (goal level equipment duration_minutes : value) (d : Z) :
  match sub duration_minutes (VInt 15) ≫= format with
  | Ok _ =>
      exists r routine,
        generate_workout format goal level (VInt d) equipment duration_minutes = Ok r
        /\ field (Ok r) "routine" = Some (VList routine)
        /\ Z.of_nat (length routine) = if (3 <=? d) && (d <=? 6) then d else 6
  | Raise e =>
      generate_workout format goal level (VInt d) equipment duration_minutes = Raise e
  end.
Proof.
  unfold generate_workout, workout_split, eq_int. cbn [as_num].
  destruct (workout_volume goal) as [sets_reps rest] eqn:Hvolume.
  destruct (sub duration_minutes (VInt 15)) as [m |]; cbn [mbind outcome_bind];
    [| by repeat destruct (_ =? _)].
  destruct (format m) as [text |]; cbn [mbind outcome_bind];
    [| by repeat destruct (_ =? _)].
  destruct (Z.eqb_spec d 3) as [-> | H3]; [| destruct (Z.eqb_spec d 4) as [-> | H4];
    [| destruct (Z.eqb_spec d 5) as [-> | H5]]];
    (eexists _, _; split; [reflexivity | split; [reflexivity |]]);
    try reflexivity.
  cbn [length fmap list_fmap].
  destruct (Z.leb_spec 3 d); destruct (Z.leb_spec d 6); cbn [andb]; lia.
Qed.

End Formatting.

(** Two training days a week and 45 minutes: six sessions. *)
Example workout_two_days :
  exists r routine,
    generate_workout (fun _ => Ok "30.0") VNone VNone (VInt 2) VNone (VFloat 45) = Ok r
    /\ field (Ok r) "routine" = Some (VList routine)
    /\ length routine = 6%nat.
Proof. eexists _, _. split; [vm_compute; reflexivity | split; reflexivity]. Qed.

(** X20: [_get_meal_suggestions] gives three suggestions for every meal
    name, known or not, and never looks at the dietary preference. *)
Theorem meal_suggestions_three (meal_name : string) (preference other : value) :
  length (_get_meal_suggestions meal_name preference) = 3%nat
  /\ _get_meal_suggestions meal_name preference = _get_meal_suggestions meal_name other.
Proof.
  split; [| reflexivity].
  unfold _get_meal_suggestions, suggestions. cbn [dict_get].
  repeat (destruct (String.eqb _ meal_name); [reflexivity |]). reflexivity.
Qed.

(** The names of the meals of a day: those of the table for 3 to 6 meals,
    else those of 3 meals. *)
Lemma meal_names_length (n : Z) :
  Z.of_nat (length (default (default [] (int_get meal_names (Z.eqb 3)))
                      (int_get meal_names (eq_int (VInt n)))))
  = if (3 <=? n) && (n <=? 6) then n else 3.
Proof.
  unfold meal_names, eq_int. cbn [int_get as_num].
  destruct (Z.eqb_spec n 3) as [-> | H3]; [reflexivity |].
  destruct (Z.eqb_spec n 4) as [-> | H4]; [reflexivity |].
  destruct (Z.eqb_spec n 5) as [-> | H5]; [reflexivity |].
  destruct (Z.eqb_spec n 6) as [-> | H6]; [reflexivity |].
  change (Z.of_nat 3 = if (3 <=? n) && (n <=? 6) then n else 3).
  destruct (Z.leb_spec 3 n); destruct (Z.leb_spec n 6); cbn [andb]; lia.
Qed.

(** A true division that returns gives a float. *)
Lemma truediv_float (a b m : value) : truediv a b = Ok m -> exists q, m = VFloat q.
Proof.
  assert (Hfloat : forall x y, float_truediv x y = Ok m -> exists q, m = VFloat q).
  { intros x y. unfold float_truediv. destruct (PrimFloat.eqb y 0); intros H;
      [exfalso; exact (Ok_not_Raise _ _ (eq_sym H)) | apply Ok_inj in H; eauto]. }
  unfold truediv, arith.
  destruct (as_num a) as [[x | f] |], (as_num b) as [[y | g] |];
    try (intros H; exfalso; exact (Ok_not_Raise _ _ (eq_sym H))).
  - unfold int_truediv. destruct (y =? 0);
      [intros H; exfalso; exact (Ok_not_Raise _ _ (eq_sym H)) |].
    destruct (x =? 0); [intros H; apply Ok_inj in H; eauto |].
    match goal with |- context [is_infinity ?q] => destruct (is_infinity q) end;
      intros H; [exfalso; exact (Ok_not_Raise _ _ (eq_sym H)) | apply Ok_inj in H; eauto].
  - intros H. repeat next_step H. eauto.
  - intros H. repeat next_step H. eauto.
  - intros H. repeat next_step H. eauto.
Qed.

(** X21: when [generate_meal_plan] returns for a number [n] of meals, the
    plan has [n] meals for 3 to 6 meals and three meals for any other
    number, while every meal gets the daily calories divided by [n]: for
    [n] outside 3 to 6 the meals do not add up to the daily target. *)
Theorem meal_plan_meals (calories protein_g carbs_g fat_g preference r : value) (n : Z) :
  generate_meal_plan calories protein_g carbs_g fat_g (VInt n) preference = Ok r ->
  exists meals target,
    field (Ok r) "meals" = Some (VList meals)
    /\ Z.of_nat (length meals) = (if (3 <=? n) && (n <=? 6) then n else 3)
    /\ (q ← truediv calories (VInt n); round q 0) = Ok target
    /\ Forall (fun meal => field (Ok meal) "target_calories" = Some target) meals.
Proof.
  unfold generate_meal_plan. intros H. do 4 next_step H.
  cbn [int_dict_get mbind outcome_bind] in H. next_step H.
  apply Ok_inj in H. subst r.
  destruct (truediv_float _ _ _ E) as [q ->].
  set (target := VFloat (float_round q 0)).
  match goal with
  | Hmap : map_outcome ?f _ = Ok ?l |- _ =>
      assert (HF : forall name meal,
                 f name = Ok meal -> field (Ok meal) "target_calories" = Some target);
      [| exists l, target; destruct (map_outcome_Forall _ _ _ _ HF Hmap) as [Hlen Hall]]
  end.
  { intros name meal Hmeal. cbn [round as_num mbind outcome_bind] in Hmeal.
    repeat next_step Hmeal. apply Ok_inj in Hmeal. subst meal. reflexivity. }
  split; [reflexivity |].
  split; [rewrite Hlen; apply meal_names_length |].
  split; [reflexivity | exact Hall].
Qed.

Lemma meal_plan_meals_witness :
  exists meals target,
    field (generate_meal_plan (VInt 2000) (VInt 150) (VInt 200) (VInt 70) (VInt 2)
             (VStr "vegetarian")) "meals" = Some (VList meals)
    /\ Z.of_nat (length meals) = 3
    /\ (q ← truediv (VInt 2000) (VInt 2); round q 0) = Ok target
    /\ Forall (fun meal => field (Ok meal) "target_calories" = Some target) meals.
Proof.
  destruct (generate_meal_plan (VInt 2000) (VInt 150) (VInt 200) (VInt 70) (VInt 2)
              (VStr "vegetarian")) as [r |] eqn:Hr; [| vm_compute in Hr; discriminate Hr].
  exact (meal_plan_meals (VInt 2000) (VInt 150) (VInt 200) (VInt 70)
           (VStr "vegetarian") r 2 Hr).
Defined.

(** X22: [generate_meal_plan] does not check the number of meals: for a
    number equal to zero and calories that are a number it raises
    [ZeroDivisionError]; the one exception is an int of calories too large
    for a float divided by a float zero, which raises [OverflowError]. *)
Theorem meal_plan_zero_meals
    (calories protein_g carbs_g fat_g meals_per_day preference : value) (n : num) :
  as_num calories = Some n -> eq_int meals_per_day 0 = true ->
  exists text,
    generate_meal_plan calories protein_g carbs_g fat_g meals_per_day preference
    = Raise (Exn (match meals_per_day with
                  | VFloat _ =>
                      if finite_number calories then ZeroDivisionError else OverflowError
                  | _ => ZeroDivisionError
                  end) text).
Proof.
  unfold finite_number, eq_int, generate_meal_plan, truediv, arith.
  intros Hc. rewrite Hc.
  destruct meals_per_day as [| b | y | g | | |]; cbn [as_num]; try discriminate;
    intros Hm.
  - destruct b; [discriminate |]. destruct n; by eexists.
  - apply Z.eqb_eq in Hm. subst y. destruct n; by eexists.
  - revert Hm. replace (int_to_float 0) with (Ok 0%float) by (vm_compute; reflexivity).
    intros Hm. destruct n as [x | f]; cbn [to_float].
    + destruct (int_to_float x) as [fx | [cls text]] eqn:Hx.
      * cbn [mbind outcome_bind]. unfold float_truediv. rewrite Hm. by eexists.
      * unfold int_to_float in Hx. destruct (is_infinity _); [| discriminate].
        injection Hx as <- <-. by eexists.
    + cbn [mbind outcome_bind]. unfold float_truediv. rewrite Hm. by eexists.
Qed.

Lemma meal_plan_zero_meals_witness :
  exists text,
    generate_meal_plan (VFloat 2000) (VInt 150) (VInt 200) (VInt 70) (VInt 0) (VStr "balanced")
    = Raise (Exn ZeroDivisionError text).
Proof.
  apply (meal_plan_zero_meals (VFloat 2000) (VInt 150) (VInt 200) (VInt 70) (VInt 0)
           (VStr "balanced") (NFloat 2000)); reflexivity.
Defined.

End PlanFacts.

(** ** Turns of the chat *)

Module TurnFacts.

Import ToolRegistry ChainlitApp Spec Terms OutcomeFacts StringFacts SessionFacts.
Import MealFacts.
Local Open Scope list_scope.

(** The chunks of the stream are added to the reply, in order. *)
Lemma show_chunks_content (chunks : list (option string)) w a hist shown (c : string) :
  holds w a hist (shown ++ [c]) ->
  exists w', for_each chunks (show_chunk (length shown)) w = (Ok tt, w')
             /\ holds w' a hist (shown ++ [c +:+ streamed chunks]).
Proof.
  revert w c. induction chunks as [| chunk chunks IH]; intros w c H;
    cbn [for_each streamed foldr].
  - exists w. rewrite str_app_nil_r. by split.
  - change (foldr _ "" chunks) with (streamed chunks).
    assert (exists w1, show_chunk (length shown) chunk w = (Ok tt, w1)
                       /\ holds w1 a hist (shown ++ [c +:+ default "" chunk]))
      as (w1 & E1 & H1).
    { destruct chunk as [t |]; cbn [show_chunk default from_option id].
      - destruct (String.eqb_spec t "") as [-> | _].
        + exists w. rewrite str_app_nil_r. by split.
        + exact (stream_token_spec _ _ _ _ _ t H).
      - exists w. rewrite str_app_nil_r. by split. }
    destruct (IH _ _ H1) as (w2 & E2 & H2).
    exists w2. step E1. split; [exact E2 |]. by rewrite <- str_app_assoc.
Qed.

(** The second call succeeds: the reply shown, with the chunks added, is
    appended as the final assistant message. *)
Lemma final_answer_content (mdl : model) w a hist shown (c : string)
    (chunks : list (option string)) :
  holds w a hist (shown ++ [c]) -> create_stream mdl hist = Ok (chunks, None) ->
  exists w',
    final_answer mdl (Some a) (length shown) w = (Ok tt, w')
    /\ holds w' a (hist ++ [Msg "assistant" (Some (c +:+ streamed chunks))])
         (shown ++ [c +:+ streamed chunks]).
Proof.
  intros H Hstream. unfold final_answer. step (list_read_spec _ _ _ _ H).
  rewrite Hstream. step (lift_spec (Ok (chunks, @None exn)) w). cbn [fst snd].
  destruct (show_chunks_content chunks _ _ _ _ _ H) as (w1 & E1 & H1).
  step E1. step (eq_refl : retM tt w1 = (Ok tt, w1)).
  step (msg_content_spec _ _ _ _ _ H1).
  exact (list_append_spec _ _ _ _ (Msg "assistant" (Some (c +:+ streamed chunks))) H1).
Qed.

Section Turn.

Variable sm : str_methods.
Variable str_of : value -> string.
Variable other_body : string -> (string -> value) -> outcome value.
Variable json_loads : string -> outcome value.
Variable json_dumps : value -> string.

Local Abbreviation run_tool := (run_tool sm str_of other_body json_loads json_dumps).
Local Abbreviation respond := (respond sm str_of other_body json_loads json_dumps).
Local Abbreviation main := (main sm str_of other_body json_loads json_dumps).
Local Abbreviation tool_reply := (tool_reply sm str_of other_body json_loads json_dumps).
Local Abbreviation decodable := (decodable json_loads).

(** A tool call gets its reply exactly when its arguments are decoded:
    the Dispatcher itself always answers. *)
Lemma tool_reply_cases (tc : tool_call) :
  if decodable tc then exists m, tool_reply tc = Ok m
  else exists e, json_loads (tc_arguments tc) = Raise e /\ tool_reply tc = Raise e.
Proof.
  unfold Terms.decodable, Spec.tool_reply.
  destruct (json_loads (tc_arguments tc)) as [args | e]; cbn [mbind outcome_bind].
  - destruct (execute_function_total sm str_of other_body (tc_name tc) args) as [v ->].
    cbn [mbind outcome_bind]. eauto.
  - eauto.
Qed.

Lemma tool_replies_cases (tcs : list tool_call) :
  if forallb decodable tcs then exists results, map_outcome tool_reply tcs = Ok results
  else exists e, map_outcome tool_reply tcs = Raise e.
Proof.
  induction tcs as [| tc tcs IH]; cbn [forallb map_outcome]; [eauto |].
  pose proof (tool_reply_cases tc) as Htc.
  destruct (decodable tc); cbn [andb].
  - destruct Htc as [m ->]. cbn [mbind outcome_bind].
    destruct (forallb decodable tcs).
    + destruct IH as [results ->]. cbn [mbind outcome_bind]. eauto.
    + destruct IH as [e ->]. cbn [mbind outcome_bind]. eauto.
  - destruct Htc as (e & _ & ->). cbn [mbind outcome_bind]. eauto.
Qed.

(** The tool loop, when every call gets its reply: the replies are
    appended and the banners are added to the reply shown. *)
Lemma tools_content (tcs : list tool_call) (results : list message) w a hist shown
    (c : string) :
  map_outcome tool_reply tcs = Ok results ->
  holds w a hist (shown ++ [c]) ->
  exists w', for_each tcs (run_tool (Some a) (length shown)) w = (Ok tt, w')
             /\ holds w' a (hist ++ results) (shown ++ [c +:+ banners tcs]).
Proof.
  revert results w hist c. induction tcs as [| tc tcs IH]; intros results w hist c;
    cbn [map_outcome for_each banners foldr].
  - intros Hres H. apply Ok_inj in Hres. subst results.
    exists w. rewrite app_nil_r, str_app_nil_r. by split.
  - change (foldr _ "" tcs) with (banners tcs).
    intros Hres H. next_step Hres. next_step Hres. apply Ok_inj in Hres. subst results.
    destruct (run_tool_ok sm str_of other_body json_loads json_dumps _ _ _ _ _ _ _ H E)
      as (w1 & E1 & H1).
    destruct (IH _ _ _ _ eq_refl H1) as (w2 & E2 & H2).
    exists w2. step E1. split; [exact E2 |].
    by rewrite <- app_assoc, str_app_assoc in H2.
Qed.

(** The tool loop stops at the first call whose arguments cannot be
    decoded, after the replies of the calls before it. *)
Lemma tools_stop (before after : list tool_call) (tc : tool_call) (e : exn)
    w a hist shown (c : string) :
  forallb decodable before = true -> json_loads (tc_arguments tc) = Raise e ->
  holds w a hist (shown ++ [c]) ->
  exists w' results,
    for_each (before ++ tc :: after) (run_tool (Some a) (length shown)) w = (Raise e, w')
    /\ holds w' a (hist ++ results) (shown ++ [c +:+ banners before])
    /\ map_outcome tool_reply before = Ok results.
Proof.
  intros Hbefore He.
  assert (tool_reply tc = Raise e) as Htc.
  { pose proof (tool_reply_cases tc) as Hcases. unfold Terms.decodable in Hcases.
    rewrite He in Hcases. destruct Hcases as (e' & He' & ->).
    apply (f_equal (fun o => match o with Raise x => x | Ok _ => e end)) in He'.
    by subst. }
  revert w hist c. induction before as [| tc0 before IH]; intros w hist c H;
    cbn [app for_each banners foldr].
  - exists w, []. step (run_tool_raise sm str_of other_body json_loads json_dumps
                          w (Some a) (length shown) tc e Htc).
    rewrite app_nil_r, str_app_nil_r. by split.
  - change (foldr _ "" before) with (banners before).
    cbn [forallb] in Hbefore. apply andb_true_iff in Hbefore as [Htc0 Hbefore].
    pose proof (tool_reply_cases tc0) as Hcases. rewrite Htc0 in Hcases.
    destruct Hcases as [m Hm].
    destruct (run_tool_ok sm str_of other_body json_loads json_dumps _ _ _ _ _ _ _ H Hm)
      as (w1 & E1 & H1).
    destruct (IH Hbefore _ _ _ H1) as (w2 & results & E2 & H2 & Hres).
    exists w2, (m :: results). step E1. split; [exact E2 |].
    split; [by rewrite <- app_assoc, str_app_assoc in H2 |].
    cbn [map_outcome]. by rewrite Hm, Hres.
Qed.


(** The statements under [try] when the model asks for no tool call: the
    assistant message is appended with the content of the reply, and
    that content, if any, is shown. *)
Lemma respond_plain (mdl : model) w a hist shown (rm : response_message) :
  holds w a hist (shown ++ [""]) ->
  create mdl hist = Ok rm ->
  rm_tool_calls rm = None \/ rm_tool_calls rm = Some [] ->
  exists w',
    respond mdl (Some a) (length shown) w = (Ok tt, w')
    /\ holds w' a (hist ++ [Msg "assistant" (rm_content rm)])
         (shown ++ [default "" (rm_content rm)]).
Proof.
  intros H Hrm Htcs.
  destruct (list_append_spec _ _ _ _ (Msg "assistant" (rm_content rm)) H)
    as (w2 & E2 & H2).
  assert (exists w3, stream_token_opt (length shown) (rm_content rm) w2 = (Ok tt, w3)
                     /\ holds w3 a (hist ++ [Msg "assistant" (rm_content rm)])
                          (shown ++ [default "" (rm_content rm)]))
    as (w3 & E3 & H3).
  { destruct (rm_content rm) as [t |]; cbn [stream_token_opt default from_option id].
    - exact (stream_token_spec _ _ _ _ "" t H2).
    - by exists w2. }
  destruct (session_set_spec _ _ _ _ H3) as (w4 & E4 & H4).
  exists w4. split; [| exact H4].
  unfold ChainlitApp.respond. step (list_read_spec _ _ _ _ H). rewrite Hrm.
  step (lift_spec (Ok rm) w).
  assert (((list_append (Some a) (Msg "assistant" (rm_content rm));;
            stream_token_opt (length shown) (rm_content rm));;
           msg_update (length shown);; session_set "messages" (Some a)) w
          = (Ok tt, w4)) as Hplain.
  { erewrite bind_ok; [| step E2; exact E3].
    cbv beta. step (eq_refl : msg_update (length shown) w3 = (Ok tt, w3)). exact E4. }
  by destruct Htcs as [-> | ->].
Qed.

(** X24: a turn in which the model answers with a text and asks for no
    tool call, with no list of tool calls or an empty one, appends the
    user message and the assistant message with that text, and shows the
    text. *)
Theorem plain_turn_appends (mdl : model) (text reply : string) w a hist shown
    (rm : response_message) :
  let user := Msg "user" (Some text) in
  holds w a hist shown ->
  create mdl (hist ++ [user]) = Ok rm ->
  rm_content rm = Some reply ->
  rm_tool_calls rm = None \/ rm_tool_calls rm = Some [] ->
  exists w',
    main mdl text w = (Ok tt, w')
    /\ conversation w' = Some (hist ++ [user; Msg "assistant" (Some reply)])
    /\ ui w' = shown ++ [reply].
Proof.
  intros user H Hrm Hreply Htcs. subst user.
  destruct (main_prelude sm str_of other_body json_loads json_dumps mdl text _ _ _ _ H)
    as (w1 & H1 & ->).
  destruct (respond_plain mdl _ _ _ _ rm H1 Hrm Htcs) as (w4 & E4 & H4).
  exists w4. unfold try_catch. rewrite E4.
  rewrite Hreply in H4. cbn [default from_option id] in H4.
  split; [reflexivity | split].
  - rewrite (holds_conversation _ _ _ _ H4). by rewrite <- app_assoc.
  - exact (holds_ui _ _ _ _ H4).
Qed.

(** X25: a message that arrives before [start] has stored a history is
    not handled: [main] raises [AttributeError] outside its [try], so it
    shows nothing to the user and changes nothing. *)
Theorem main_without_history (mdl : model) (text : string) (w : world) :
  session w !! "messages" = None ->
  main mdl text w
  = (Raise (Exn AttributeError "'NoneType' object has no attribute 'append'"), w).
Proof.
  intros Hnone. unfold ChainlitApp.main.
  assert (session_get "messages" w = (Ok None, w)) as Hget
    by (unfold session_get; by rewrite Hnone).
  step Hget. by erewrite bind_raise.
Qed.

(** The tool loop when a call gets no reply: it raises, and what it has
    appended by then are tool results. *)
Lemma tools_failure (tcs : list tool_call) (e : exn) w a hist shown (c : string) :
  map_outcome tool_reply tcs = Raise e ->
  holds w a hist (shown ++ [c]) ->
  exists w' new c',
    for_each tcs (run_tool (Some a) (length shown)) w = (Raise e, w')
    /\ holds w' a (hist ++ new) (shown ++ [c'])
    /\ forallb tool_traffic new = true.
Proof.
  revert w hist c. induction tcs as [| tc tcs IH]; intros w hist c;
    cbn [map_outcome for_each]; [discriminate |].
  destruct (tool_reply tc) as [m | e'] eqn:Hm; cbn [mbind outcome_bind].
  - destruct (map_outcome tool_reply tcs) as [ms | e'] eqn:Hms; [discriminate |].
    cbn [mbind outcome_bind]. intros He H.
    apply (f_equal (fun o => match o with Raise x => x | Ok _ => e end)) in He.
    subst e'.
    destruct (run_tool_ok sm str_of other_body json_loads json_dumps _ _ _ _ _ _ _ H Hm)
      as (w1 & E1 & H1).
    destruct (IH _ _ _ eq_refl H1) as (w2 & new & c2 & E2 & H2 & Hnew).
    exists w2, (m :: new), c2. step E1.
    split; [exact E2 | split; [by rewrite <- app_assoc in H2 |]].
    destruct (tool_reply_shape sm str_of other_body json_loads json_dumps _ _ Hm)
      as [content ->].
    exact Hnew.
  - intros He H.
    apply (f_equal (fun o => match o with Raise x => x | Ok _ => e end)) in He.
    subst e'. exists w, [], c.
    step (run_tool_raise sm str_of other_body json_loads json_dumps
            w (Some a) (length shown) tc e Hm).
    rewrite app_nil_r. by split.
Qed.

(** The replies of tool calls are tool results. *)
Lemma tool_replies_traffic (tcs : list tool_call) (results : list message) :
  map_outcome tool_reply tcs = Ok results -> forallb tool_traffic results = true.
Proof.
  intros Hres.
  pose proof (tool_replies_shape sm str_of other_body json_loads json_dumps _ _ Hres)
    as Hshape.
  clear Hres. induction Hshape as [| tc m tcs' results' [content ->] _ IH];
    [reflexivity | exact IH].
Qed.

(** The statements under [try], in every case: whether they raise, what
    they append and what they show. *)
Lemma respond_outcome (mdl : model) w a hist shown :
  holds w a hist (shown ++ [""]) ->
  exists w' new reply,
    holds w' a (hist ++ new) (shown ++ [reply])
    /\ match turn_failure sm str_of other_body json_loads json_dumps mdl hist with
       | Some e =>
           respond mdl (Some a) (length shown) w = (Raise e, w')
           /\ forallb tool_traffic new = true
       | None =>
           respond mdl (Some a) (length shown) w = (Ok tt, w')
           /\ exists earlier content,
                new = earlier ++ [Msg "assistant" content] /\ default "" content = reply
       end.
Proof.
  intros H. unfold turn_failure.
  destruct (create mdl hist) as [rm | e] eqn:Hrm.
  2:{ exists w, [], "". rewrite app_nil_r. split; [exact H |].
      split; [| reflexivity].
      exact (respond_create_fails sm str_of other_body json_loads json_dumps
               mdl _ _ _ _ _ e H Hrm). }
  destruct (rm_tool_calls rm) as [[| tc tcs] |] eqn:Htcs.
  1,3: destruct (respond_plain mdl _ _ _ _ rm H Hrm ltac:(auto)) as (w' & E & H');
       exists w', [Msg "assistant" (rm_content rm)], (default "" (rm_content rm));
       (split; [exact H' | split; [exact E |]]);
       by exists [], (rm_content rm).
  destruct (map_outcome tool_reply (tc :: tcs)) as [results | e] eqn:Hres.
  - destruct (respond_tools sm str_of other_body json_loads json_dumps
                mdl _ _ _ _ _ rm (tc :: tcs) results H Hrm Htcs ltac:(discriminate) Hres)
      as (w' & c' & Hcase).
    destruct (stream_failure (create_stream mdl (hist ++ ResponseMsg rm :: results)))
      as [e |]; destruct Hcase as [E H'].
    + exists w', (ResponseMsg rm :: results), c'. split; [exact H' |].
      split; [exact E |]. cbn [forallb tool_traffic]. exact (tool_replies_traffic _ _ Hres).
    + exists w', ((ResponseMsg rm :: results) ++ [Msg "assistant" (Some c')]), c'.
      split; [by rewrite <- app_assoc in H' |]. split; [exact E |].
      by exists (ResponseMsg rm :: results), (Some c').
  - destruct (list_append_spec _ _ _ _ (ResponseMsg rm) H) as (w1 & E1 & H1).
    destruct (tools_failure _ _ _ _ _ _ _ Hres H1) as (w2 & new & c2 & E2 & H2 & Hnew).
    rewrite <- app_assoc in H2.
    exists w2, (ResponseMsg rm :: new), c2. split; [exact H2 |].
    split; [| exact Hnew].
    unfold ChainlitApp.respond. step (list_read_spec _ _ _ _ H). rewrite Hrm.
    step (lift_spec (Ok rm) w). rewrite Htcs.
    erewrite bind_raise; [reflexivity |]. step E1. by step E2.
Qed.



(** X28: in a completed turn with tool calls, what the user is shown is
    what is stored: the final assistant message of the history carries
    the banners of the tool calls followed by the streamed answer. *)
Theorem tool_turn_stores_banners (mdl : model) (text : string) w a hist shown
    (rm : response_message) (tcs : list tool_call) (results : list message)
    (chunks : list (option string)) :
  let user := Msg "user" (Some text) in
  let reply := banners tcs +:+ streamed chunks in
  holds w a hist shown ->
  create mdl (hist ++ [user]) = Ok rm -> rm_tool_calls rm = Some tcs -> tcs <> [] ->
  map_outcome tool_reply tcs = Ok results ->
  create_stream mdl (hist ++ [user; ResponseMsg rm] ++ results) = Ok (chunks, None) ->
  exists w',
    main mdl text w = (Ok tt, w')
    /\ conversation w'
       = Some (hist ++ [user; ResponseMsg rm] ++ results ++ [Msg "assistant" (Some reply)])
    /\ ui w' = shown ++ [reply].
Proof.
  intros user reply H Hrm Htcs Hne Hres Hstream. subst user reply.
  destruct (main_prelude sm str_of other_body json_loads json_dumps mdl text _ _ _ _ H)
    as (w1 & H1 & ->).
  destruct (list_append_spec _ _ _ _ (ResponseMsg rm) H1) as (w2 & E2 & H2).
  destruct (tools_content _ _ _ _ _ _ _ Hres H2) as (w3 & E3 & H3).
  rewrite append_nil in H3.
  assert (((hist ++ [Msg "user" (Some text)]) ++ [ResponseMsg rm]) ++ results
          = hist ++ [Msg "user" (Some text); ResponseMsg rm] ++ results) as Hhist
    by (by rewrite <- !app_assoc).
  rewrite Hhist in H3.
  destruct (final_answer_content mdl _ _ _ _ _ chunks H3 Hstream) as (w4 & E4 & H4).
  destruct (session_set_spec _ _ _ _ H4) as (w5 & E5 & H5).
  exists w5. unfold try_catch.
  assert (respond mdl (Some a) (length shown) w1 = (Ok tt, w5)) as ->.
  { unfold ChainlitApp.respond. step (list_read_spec _ _ _ _ H1). rewrite Hrm.
    step (lift_spec (Ok rm) w1). rewrite Htcs.
    destruct tcs as [| tc tcs]; [done |].
    erewrite bind_ok; [| step E2; step E3; exact E4].
    cbv beta. step (eq_refl : msg_update (length shown) w4 = (Ok tt, w4)). exact E5. }
  split; [reflexivity | split].
  - rewrite (holds_conversation _ _ _ _ H5). by rewrite <- !app_assoc.
  - exact (holds_ui _ _ _ _ H5).
Qed.

End Turn.


Lemma plain_turn_appends_witness :
  let rm := {| rm_content := Some "Hello"; rm_tool_calls := Some [] |} in
  let mdl := {| create := fun _ => Ok rm; create_stream := fun _ => Ok ([], None) |} in
  exists w',
    example_main mdl "hi" example_world = (Ok tt, w')
    /\ conversation w'
       = Some ([] ++ [Msg "user" (Some "hi"); Msg "assistant" (Some "Hello")])
    /\ ui w' = [] ++ ["Hello"].
Proof.
  intros rm mdl.
  apply (plain_turn_appends ascii_str (fun _ => "") (fun _ _ => Ok VNone) (fun _ => Ok (VDict []))
           (fun _ => "{}") mdl "hi" "Hello" example_world 1%positive [] [] rm).
  - exact example_world_holds.
  - reflexivity.
  - reflexivity.
  - right. reflexivity.
Defined.

Lemma main_without_history_witness :
  let mdl := {| create := fun _ => Ok example_request;
                create_stream := fun _ => Ok ([], None) |} in
  example_main mdl "hi" (World ∅ ∅ [])
  = (Raise (Exn AttributeError "'NoneType' object has no attribute 'append'"),
     World ∅ ∅ []).
Proof.
  intros mdl.
  apply (main_without_history ascii_str (fun _ => "") (fun _ _ => Ok VNone) (fun _ => Ok (VDict []))
           (fun _ => "{}") mdl "hi" (World ∅ ∅ [])).
  reflexivity.
Defined.



Lemma tool_turn_stores_banners_witness :
  let mdl := {| create := fun _ => Ok example_request;
                create_stream := fun _ => Ok ([Some "No such "; None; Some "tool."], None) |} in
  let reply := banners [example_call] +:+ streamed [Some "No such "; None; Some "tool."] in
  exists w',
    example_main mdl "hi" example_world = (Ok tt, w')
    /\ conversation w'
       = Some ([] ++ [Msg "user" (Some "hi"); ResponseMsg example_request]
                  ++ [ToolMsg "call_1" "unknown_tool" "{}"]
                  ++ [Msg "assistant" (Some reply)])
    /\ ui w' = [] ++ [reply].
Proof.
  intros mdl reply.
  apply (tool_turn_stores_banners ascii_str (fun _ => "") (fun _ _ => Ok VNone)
           (fun _ => Ok (VDict [])) (fun _ => "{}") mdl "hi" example_world 1%positive [] []
           example_request [example_call] [ToolMsg "call_1" "unknown_tool" "{}"]
           [Some "No such "; None; Some "tool."]).
  - exact example_world_holds.
  - reflexivity.
  - reflexivity.
  - discriminate.
  - vm_compute. reflexivity.
  - reflexivity.
Defined.

End TurnFacts.
